(** * Transactions: a shallow embedding of [src/lib/transactions/index.js]
    and of the vehicle creation of [src/lib/endpoints/vehicles.js]

    The ledger workflows of the ticketing server (zero-sum validation,
    refunds, order checks, fee absorption, card charging) are embedded as
    Rocq functions, one per JavaScript function and under the same name.

    Conventions of the embedding.
    - A JavaScript number is a value of [num]: a rational, one of the two
      infinities, or NaN.  Comparisons follow IEEE 754: every comparison
      with NaN is false.  The operations of [Num] are exact and return
      fractions in lowest terms, so that equal results are the same term;
      those of [Binary64] round each result to the nearest binary64
      number, as JavaScript does.  The sign of zero is not represented.
    - The functions whose outcome next to a tolerance depends on that
      rounding ([validateTxn], [checkExpectedPrice], [generateRefundInfo]
      and [prepareTicketRefund]) are embedded over [Binary64] in the
      module [Rounded], beside their embedding over [Num].
    - A JavaScript value that the code only reads as a scalar is a [value].
    - A function that can throw returns a [result]; the description of the
      exception keeps the JavaScript error class.
    - Code that reads or writes the database runs in the state monad [M]
      over the tables it touches, with exceptions.
    - Modules that the file imports but does not define (the payment
      gateway adapter, the transaction builder, the auth helper, the Joi
      validator) are taken as records of operations. *)

From Stdlib Require Import Ascii QArith Qabs Qround Lqa.
From Stdlib Require Floats.
From stdpp Require Import base option list strings gmap pretty sorting.

Local Open Scope Q_scope.

(** ** JavaScript numbers *)

Module Num.

Inductive num : Type :=
| NaN
| NegInf
| Fin (q : Q)
| PosInf.

Definition zero : num := Fin 0.

Definition is_nan (x : num) : bool :=
  match x with NaN => true | _ => false end.

Definition neg (x : num) : num :=
  match x with
  | NaN => NaN
  | NegInf => PosInf
  | Fin q => Fin (Qred (- q))
  | PosInf => NegInf
  end.

Definition add (x y : num) : num :=
  match x, y with
  | NaN, _ | _, NaN => NaN
  | Fin a, Fin b => Fin (Qred (a + b))
  | PosInf, NegInf | NegInf, PosInf => NaN
  | PosInf, _ | _, PosInf => PosInf
  | NegInf, _ | _, NegInf => NegInf
  end.

Definition sub (x y : num) : num := add x (neg y).

(** The sign of a rational as a comparison with zero. *)
Definition sgn (q : Q) : comparison := (Qnum q ?= 0)%Z.

Definition inf_of_sign (c : comparison) : num :=
  match c with Lt => NegInf | Eq => NaN | Gt => PosInf end.

Definition sign_of (x : num) : comparison :=
  match x with
  | NaN => Eq
  | NegInf => Lt
  | Fin q => sgn q
  | PosInf => Gt
  end.

Definition sign_mul (c d : comparison) : comparison :=
  match c, d with
  | Eq, _ | _, Eq => Eq
  | Lt, Lt | Gt, Gt => Gt
  | _, _ => Lt
  end.

Definition mul (x y : num) : num :=
  match x, y with
  | NaN, _ | _, NaN => NaN
  | Fin a, Fin b => Fin (Qred (a * b))
  | _, _ => inf_of_sign (sign_mul (sign_of x) (sign_of y))
  end.

Definition div (x y : num) : num :=
  match x, y with
  | NaN, _ | _, NaN => NaN
  | Fin a, Fin b =>
      match sgn b with
      | Eq => inf_of_sign (sgn a)
      | _ => Fin (Qred (a / b))
      end
  | Fin _, _ => zero
  | _, Fin b =>
      match sgn b with
      | Eq => x
      | s => inf_of_sign (sign_mul (sign_of x) s)
      end
  | _, _ => NaN
  end.

Definition abs (x : num) : num :=
  match x with
  | NaN => NaN
  | NegInf | PosInf => PosInf
  | Fin q => Fin (Qred (Qabs q))
  end.

(** [x < y] *)
Definition ltb (x y : num) : bool :=
  match x, y with
  | NaN, _ | _, NaN => false
  | Fin a, Fin b => match a ?= b with Lt => true | _ => false end
  | NegInf, NegInf => false
  | NegInf, _ => true
  | _, NegInf => false
  | PosInf, _ => false
  | _, PosInf => true
  end.

(** [x <= y] *)
Definition leb (x y : num) : bool :=
  match x, y with
  | NaN, _ | _, NaN => false
  | Fin a, Fin b => match a ?= b with Gt => false | _ => true end
  | NegInf, _ => true
  | _, PosInf => true
  | _, _ => false
  end.

(** [x > y] and [x >= y] *)
Definition gtb (x y : num) : bool := ltb y x.
Definition geb (x y : num) : bool := leb y x.

(** [x === y] on numbers *)
Definition eqb (x y : num) : bool :=
  match x, y with
  | Fin a, Fin b => Qeq_bool a b
  | NegInf, NegInf | PosInf, PosInf => true
  | _, _ => false
  end.

(** [Math.round]: the nearest integer, a half rounding up. *)
Definition round (x : num) : num :=
  match x with
  | Fin q => Fin (inject_Z (Qfloor (q + (1 # 2))))
  | _ => x
  end.

(** Truthiness of a number: zero and NaN are falsy. *)
Definition truthy (x : num) : bool :=
  match x with
  | NaN => false
  | Fin q => negb (Qeq_bool q 0)
  | _ => true
  end.

Definition of_Z (z : Z) : num := Fin (inject_Z z).

(** The digits of [r / d] after the decimal point, [r < d], at most
    [fuel] of them. *)
Fixpoint frac_digits (fuel : nat) (r d : Z) : string :=
  match fuel with
  | O => EmptyString
  | S fuel' =>
      if (r =? 0)%Z then EmptyString
      else String (ascii_of_N (48 + Z.to_N (10 * r / d)))
                  (frac_digits fuel' ((10 * r) mod d)%Z d)
  end.

(** The string of a number.  Integers and decimals print as JavaScript
    prints them in the range where it uses no exponent; a rational whose
    expansion does not end is cut after twenty digits. *)
Definition to_string (x : num) : string :=
  match x with
  | NaN => "NaN"
  | PosInf => "Infinity"
  | NegInf => "-Infinity"
  | Fin q =>
      let n := Z.abs (Qnum q) in
      let d := Zpos (Qden q) in
      let int := (if (Qnum q <? 0)%Z then "-" else "") +:+ pretty (n / d)%Z in
      if (n mod d =? 0)%Z then int
      else int +:+ "." +:+ frac_digits 20 (n mod d)%Z d
  end.

End Num.

Export Num(num(..)).

Declare Scope num_scope.
Delimit Scope num_scope with num.
Bind Scope num_scope with num.
Infix "+" := Num.add : num_scope.
Infix "-" := Num.sub : num_scope.
Infix "*" := Num.mul : num_scope.
Infix "/" := Num.div : num_scope.
Infix "<?" := Num.ltb : num_scope.
Infix "<=?" := Num.leb : num_scope.
Infix ">?" := Num.gtb : num_scope.
Infix ">=?" := Num.geb : num_scope.

Arguments Num.ltb : simpl nomatch.
Arguments Num.leb : simpl nomatch.
Arguments Num.gtb : simpl never.
Arguments Num.geb : simpl never.
Arguments Num.add : simpl nomatch.
Arguments Num.sub : simpl never.
Arguments Num.mul : simpl nomatch.
Arguments Num.div : simpl nomatch.

(** ** Numeric strings

    [parseFloat] and the conversion of a string to a number ([Number(s)],
    unary [+], the operands of [-] and of the comparisons) both read a
    [StrDecimalLiteral]; [parseFloat] reads the longest prefix that is
    one, after leading white space, and the conversion wants the whole
    trimmed string to be one.  Strings are sequences of code units below
    256. *)

Module StrNum.

Definition is_space (c : ascii) : bool :=
  let n := N_of_ascii c in
  ((9 <=? n) && (n <=? 13) || (n =? 32) || (n =? 160))%N.

Definition digit (c : ascii) : option Z :=
  let n := N_of_ascii c in
  if ((48 <=? n) && (n <=? 57))%N then Some (Z.of_N n - 48)%Z else None.

Fixpoint skip_space (s : list ascii) : list ascii :=
  match s with
  | c :: s' => if is_space c then skip_space s' else s
  | [] => []
  end.

(** [digits acc n s]: the digits at the head of [s] appended to the
    decimal numeral [acc] of [n] digits: the new numeral, its number of
    digits, and what follows. *)
Fixpoint digits (acc : Z) (n : nat) (s : list ascii) : Z * nat * list ascii :=
  match s with
  | c :: s' =>
      match digit c with
      | Some d => digits (10 * acc + d) (S n) s'
      | None => (acc, n, s)
      end
  | [] => (acc, n, [])
  end.

Fixpoint strip_prefix (p s : list ascii) : option (list ascii) :=
  match p, s with
  | [], _ => Some s
  | a :: p', b :: s' => if Ascii.eqb a b then strip_prefix p' s' else None
  | _ :: _, [] => None
  end.

(** [m * 10^k] *)
Definition scale10 (m k : Z) : Q :=
  if (0 <=? k)%Z then inject_Z (m * 10 ^ k)
  else Qred (Qmake m (Z.to_pos (10 ^ (- k)))).

(** An optional sign: [true] for a minus. *)
Definition sign (s : list ascii) : bool * list ascii :=
  match s with
  | "+"%char :: s' => (false, s')
  | "-"%char :: s' => (true, s')
  | _ => (false, s)
  end.

(** The exponent part at the head of [s], if a complete one stands there. *)
Definition exponent (s : list ascii) : Z * list ascii :=
  match s with
  | c :: s' =>
      if Ascii.eqb c "e" || Ascii.eqb c "E" then
        let '(minus, s1) := sign s' in
        match digits 0 0 s1 with
        | (_, O, _) => (0%Z, s)
        | (e, _, rest) => ((if minus then - e else e)%Z, rest)
        end
      else (0%Z, s)
  | [] => (0%Z, [])
  end.

(** The longest [StrDecimalLiteral] at the head of [s] and what follows. *)
Definition decimal (s : list ascii) : option (num * list ascii) :=
  let '(minus, s0) := sign s in
  let signed (x : num) := if minus then Num.neg x else x in
  match strip_prefix (String.list_ascii_of_string "Infinity") s0 with
  | Some rest => Some (signed PosInf, rest)
  | None =>
      let '(i, ni, s1) := digits 0 0 s0 in
      let '(m, nf, s2) :=
        match s1 with
        | "."%char :: s1' =>
            let '(m, n, s2) := digits i ni s1' in
            (m, (n - ni)%nat, s2)
        | _ => (i, O, s1)
        end in
      if (ni + nf =? 0)%nat then None
      else
        let '(e, s3) := exponent s2 in
        Some (signed (Fin (scale10 m (e - Z.of_nat nf))), s3)
  end.

Definition parseFloat (s : string) : num :=
  match decimal (skip_space (String.list_ascii_of_string s)) with
  | Some (x, _) => x
  | None => NaN
  end.

(** [Number(s)].  The hexadecimal, octal and binary integer literals
    ([0x..], [0o..], [0b..]) are not read: they convert to NaN here. *)
Definition to_number (s : string) : num :=
  match skip_space (String.list_ascii_of_string s) with
  | [] => Num.zero
  | s' =>
      match decimal s' with
      | Some (x, rest) =>
          match skip_space rest with [] => x | _ => NaN end
      | None => NaN
      end
  end.

End StrNum.

(** ** JavaScript scalar values *)

Inductive value : Type :=
| VUndefined
| VNull
| VBool (b : bool)
| VNum (n : num)
| VStr (s : string).

(** Truthiness, as [if (v)], [v || w], [v && w] and [v ? a : b] read it. *)
Definition truthy (v : value) : bool :=
  match v with
  | VUndefined | VNull => false
  | VBool b => b
  | VNum n => Num.truthy n
  | VStr s => negb (String.eqb s "")
  end.

(** [Number(v)], also what unary [+], [-] and the comparisons apply to an
    operand. *)
Definition ToNumber (v : value) : num :=
  match v with
  | VUndefined => NaN
  | VNull => Num.zero
  | VBool b => if b then Fin 1 else Num.zero
  | VNum n => n
  | VStr s => StrNum.to_number s
  end.

(** [parseFloat(v)]: the argument is first converted to a string; the
    string of a number reads back as that number, the strings of
    [undefined], [null] and the booleans hold no numeral. *)
Definition parseFloat (v : value) : num :=
  match v with
  | VNum n => n
  | VStr s => StrNum.parseFloat s
  | _ => NaN
  end.

(** [String(v)] *)
Definition ToString (v : value) : string :=
  match v with
  | VUndefined => "undefined"
  | VNull => "null"
  | VBool b => if b then "true" else "false"
  | VNum n => Num.to_string n
  | VStr s => s
  end.

(** [v + w]: concatenation as soon as one side is a string. *)
Definition plus (v w : value) : value :=
  match v, w with
  | VStr s, _ => VStr (s +:+ ToString w)
  | _, VStr s => VStr (ToString v +:+ s)
  | _, _ => VNum (ToNumber v + ToNumber w)%num
  end.

(** [v === w] *)
Definition strict_eq (v w : value) : bool :=
  match v, w with
  | VUndefined, VUndefined | VNull, VNull => true
  | VBool a, VBool b => Bool.eqb a b
  | VNum a, VNum b => Num.eqb a b
  | VStr a, VStr b => String.eqb a b
  | _, _ => false
  end.

(** ** Exceptions *)

Inductive exn : Type :=
| AssertionError (msg : string)
| Error (msg : string)
| TypeError (msg : string)
| TransactionError (msg : string)
| ChargeError (msg : string).

Inductive result (A : Type) : Type :=
| Ok (a : A)
| Throw (e : exn).
Arguments Ok {A} a.
Arguments Throw {A} e.

(** The error monad of the functions that touch no state. *)
Definition rbind {A B} (r : result A) (k : A -> result B) : result B :=
  match r with
  | Ok a => k a
  | Throw e => Throw e
  end.

Declare Scope result_scope.
Delimit Scope result_scope with result.
Notation "x <- r ;; k" := (rbind r (fun x => k))
  (at level 100, r at next level, right associativity) : result_scope.
Notation "r ;;; k" := (rbind r (fun _ => k))
  (at level 100, right associativity) : result_scope.

(** [assert(cond, msg)] of Node's assert module. *)
Definition assert (cond : bool) (msg : string) : result unit :=
  if cond then Ok tt else Throw (AssertionError msg).

(** Modelled from the spec: [TransactionError.assert] of [util/errors],
    which is not among the sources.  It is used as Node's [assert] is, and
    section 7 of the specification classes every business-rule violation
    it guards as a TransactionError: a falsy condition throws a
    TransactionError carrying the message. *)
Definition TransactionError_assert (cond : bool) (msg : string) : result unit :=
  if cond then Ok tt else Throw (TransactionError msg).

(** ** Lodash *)

Module lodash.

(** [_.sumBy(array, iteratee)] for an iteratee that yields numbers: zero
    for the empty array, else the elements added from the left, starting
    from the first. *)
Definition sumBy {A} (l : list A) (f : A -> num) : num :=
  match l with
  | [] => Num.zero
  | x :: l' => fold_left (fun acc y => (acc + f y)%num) l' (f x)
  end.

(** [_.min(array)] on numbers: [undefined] ([None]) when no element is a
    number other than NaN; the comparison is [<], and leading NaNs are
    skipped. *)
Definition min (l : list num) : option num :=
  fold_left
    (fun computed current =>
       match computed with
       | None => if Num.is_nan current then None else Some current
       | Some c => if (current <? c)%num then Some current else Some c
       end)
    l None.

(** [_.sum(array)]: zero for the empty array; else the elements other
    than [undefined] joined by [+] from the left, [undefined] when there
    is none. *)
Definition sum (l : list value) : value :=
  match l with
  | [] => VNum Num.zero
  | _ =>
      default VUndefined
        (fold_left
           (fun result current =>
              match current, result with
              | VUndefined, _ => result
              | _, None => Some current
              | _, Some r => Some (plus r current)
              end)
           l None)
  end.

(** [_.groupBy(items, "itemType")] *)
Definition groupBy {A} (l : list A) (key : A -> string) : gmap string (list A) :=
  fold_left (fun m x => <[key x := default [] (m !! key x) ++ [x]]> m) l ∅.

(** [_.get(object, "notes.<field>", dflt)]: the default stands in when
    [notes] is missing or the field resolves to [undefined]. *)
Definition get_notes (notes : option (gmap string value)) (field : string)
    (dflt : value) : value :=
  match notes with
  | None => dflt
  | Some n =>
      match n !! field with
      | None | Some VUndefined => dflt
      | Some v => v
      end
  end.

End lodash.

(** ** Binary64 arithmetic

    The numbers of JavaScript are the numbers of IEEE 754 binary64, and
    each arithmetic operation returns the binary64 number nearest to the
    exact result, a tie going to the one with the even significand.  The
    checks of the ledger that compare amounts within a tolerance depend
    on that rounding.  Here the operations on [num] are given with it:
    each is the exact operation followed by [nearest].  A finite
    binary64 number is a rational, so it is a [Fin]; the sign of zero
    is still not represented. *)

Module Binary64.

(** [a / (d * 2^k)] for any integer [k], as a numerator and a
    denominator. *)
Definition scale2 (a d k : Z) : Z * Z :=
  if (0 <=? k)%Z then (a, d * 2 ^ k)%Z else (a * 2 ^ (- k), d)%Z.

(** The exponent [e] of the binary64 number that a positive rational
    [a / d] rounds to: [2^52 <= a / d / 2^e < 2^53], and no less than
    [-1074], the exponent of the subnormal numbers. *)
Definition exponent (a d : Z) : Z :=
  let k := (Z.log2 a - Z.log2 d)%Z in
  let '(n, m) := scale2 a d k in
  Z.max (if (n <? m)%Z then k - 53 else k - 52)%Z (-1074).

(** The binary64 number nearest to a rational: round to nearest, ties to
    even; from [2^1024 - 2^970] on, the infinity. *)
Definition nearest (q : Q) : num :=
  let a := Z.abs (Qnum q) in
  let d := Z.pos (Qden q) in
  if (a =? 0)%Z then Num.zero
  else
    let e := exponent a d in
    let '(n, m) := scale2 a d e in
    let significand :=
      match (2 * (n mod m) ?= m)%Z with
      | Lt => (n / m)%Z
      | Gt => (n / m + 1)%Z
      | Eq => if Z.even (n / m) then (n / m)%Z else (n / m + 1)%Z
      end in
    let negative := (Qnum q <? 0)%Z in
    if (2 ^ 1024 <=? significand * 2 ^ e)%Z then
      if negative then NegInf else PosInf
    else
      let s := if negative then (- significand)%Z else significand in
      Fin (if (0 <=? e)%Z then inject_Z (s * 2 ^ e)
           else Qred (Qmake s (Z.to_pos (2 ^ (- e))))).

(** The binary64 number a number of the embedding stands for, as a
    decimal literal of JavaScript stands for the nearest one. *)
Definition number (x : num) : num :=
  match x with
  | Fin q => nearest q
  | _ => x
  end.

(** The value of a binary64 number of the kernel. *)
Definition of_float (f : PrimFloat.float) : num :=
  match FloatOps.Prim2SF f with
  | SpecFloat.S754_zero _ => Num.zero
  | SpecFloat.S754_infinity negative => if negative then NegInf else PosInf
  | SpecFloat.S754_nan => NaN
  | SpecFloat.S754_finite negative m e =>
      let s := if negative then Z.neg m else Z.pos m in
      Fin (if (0 <=? e)%Z then inject_Z (s * 2 ^ e)
           else Qred (Qmake s (Z.to_pos (2 ^ (- e)))))
  end.

(** The four operations: the operands are binary64 numbers, and the
    result is the one nearest to the exact result. *)
Definition add (x y : num) : num := number (Num.add (number x) (number y)).
Definition sub (x y : num) : num := number (Num.sub (number x) (number y)).
Definition mul (x y : num) : num := number (Num.mul (number x) (number y)).
Definition div (x y : num) : num := number (Num.div (number x) (number y)).

(** A decimal literal of the source. *)
Definition lit (q : Q) : num := nearest q.

(** [Math.round]: the integer nearest to a binary64 number, a half
    rounding up; that integer is a binary64 number. *)
Definition round (x : num) : num := Num.round (number x).

(** ** The string of a number *)

(** [a / d] compared with [10^n]. *)
Definition compare_pow10 (a d n : Z) : comparison :=
  if (0 <=? n)%Z then (a ?= d * 10 ^ n)%Z else (a * 10 ^ (- n) ?= d)%Z.

(** The largest [n' >= n] within [fuel] steps with [10^n' <= a / d]. *)
Fixpoint log10_from (fuel : nat) (a d n : Z) : Z :=
  match fuel with
  | O => n
  | S fuel' =>
      match compare_pow10 a d (n + 1) with
      | Lt => n
      | _ => log10_from fuel' a d (n + 1)%Z
      end
  end.

(** The integer part of the decimal logarithm of a positive rational. *)
Definition log10 (a d : Z) : Z :=
  let l := (Z.log2 a - Z.log2 d - 1)%Z in
  let n0 := ((if (0 <=? l)%Z then l * 30102 else l * 30103) / 100000 - 1)%Z in
  log10_from 8 a d n0.

(** [s * 10^e] as a rational. *)
Definition decimal (s e : Z) : Q :=
  if (0 <=? e)%Z then inject_Z (s * 10 ^ e)
  else Qred (Qmake s (Z.to_pos (10 ^ (- e)))).

(** The decimals of [k] digits next to a positive binary64 number [x],
    [10^(n-1) <= x < 10^n], that read back as [x]: the one below and the
    one above, the nearer first. *)
Definition candidates (x : Q) (n k : Z) : list Z :=
  let e := (n - k)%Z in
  let below := Qfloor (x / decimal 1 e) in
  let above := (below + 1)%Z in
  let back (s : Z) :=
    match nearest (decimal s e) with
    | Fin y => Qeq_bool y x
    | _ => false
    end in
  let ordered :=
    match Qabs (decimal above e - x) ?= Qabs (x - decimal below e) with
    | Lt => [above; below]
    | Gt => [below; above]
    | Eq => if Z.even below then [below; above] else [above; below]
    end in
  filter (fun s => back s = true) ordered.

(** The digits and the exponent of the shortest decimal that reads back
    as [x]: [(s, k, n)] with [s] of [k] digits and [s * 10^(n-k)] the
    decimal. *)
Fixpoint shortest (fuel : nat) (x : Q) (n k : Z) : Z * Z * Z :=
  match fuel with
  | O => (0, 1, 0)%Z
  | S fuel' =>
      match candidates x n k with
      | s :: _ =>
          if (s =? 10 ^ k)%Z then (10 ^ (k - 1), k, n + 1)%Z else (s, k, n)
      | [] => shortest fuel' x n (k + 1)%Z
      end
  end.

Fixpoint zeros (n : nat) : string :=
  match n with
  | O => EmptyString
  | S n' => String "0" (zeros n')
  end.

(** The first [n] characters of a string and the rest. *)
Fixpoint split_at (n : nat) (s : string) : string * string :=
  match n, s with
  | S n', String c s' =>
      let '(a, b) := split_at n' s' in (String c a, b)
  | _, _ => (EmptyString, s)
  end.

(** [Number::toString] of a positive binary64 number. *)
Definition positive_to_string (x : Q) : string :=
  let n0 := (log10 (Qnum x) (Z.pos (Qden x)) + 1)%Z in
  let '(s, k0, n) := shortest 17 x n0 1 in
  (* trailing zeros are no digits of [s] *)
  let digits := pretty s in
  let k := Z.of_nat (String.length digits) in
  if ((k <=? n) && (n <=? 21))%Z then
    digits +:+ zeros (Z.to_nat (n - k))
  else if ((0 <? n) && (n <=? 21))%Z then
    let '(int, frac) := split_at (Z.to_nat n) digits in
    int +:+ "." +:+ frac
  else if ((-6 <? n) && (n <=? 0))%Z then
    "0." +:+ zeros (Z.to_nat (- n)) +:+ digits
  else
    let '(first, others) := split_at 1 digits in
    let e := (n - 1)%Z in
    first +:+ (if (k =? 1)%Z then "" else "." +:+ others) +:+ "e"
    +:+ (if (e <? 0)%Z then "-" +:+ pretty (- e)%Z else "+" +:+ pretty e).

(** [String(x)] for a number: the shortest decimal that reads back as
    the binary64 number. *)
Definition to_string (x : num) : string :=
  match number x with
  | NaN => "NaN"
  | PosInf => "Infinity"
  | NegInf => "-Infinity"
  | Fin q =>
      match (Qnum q ?= 0)%Z with
      | Eq => "0"
      | Lt => "-" +:+ positive_to_string (Qred (- q))
      | Gt => positive_to_string q
      end
  end.

(** ** Values read as binary64 numbers *)

Definition ToNumber (v : value) : num := number (ToNumber v).

Definition parseFloat (v : value) : num := number (parseFloat v).

Definition truthy (v : value) : bool :=
  match v with
  | VNum n => Num.truthy (number n)
  | _ => truthy v
  end.

Definition ToString (v : value) : string :=
  match v with
  | VNum n => to_string n
  | _ => ToString v
  end.

(** [v + w]: concatenation as soon as one side is a string. *)
Definition plus (v w : value) : value :=
  match v, w with
  | VStr s, _ => VStr (s +:+ ToString w)
  | _, VStr s => VStr (ToString v +:+ s)
  | _, _ => VNum (add (ToNumber v) (ToNumber w))
  end.

(** [_.sumBy(array, iteratee)] for an iteratee that yields numbers. *)
Definition sumBy {A} (l : list A) (f : A -> num) : num :=
  match l with
  | [] => Num.zero
  | x :: l' => fold_left (fun acc y => add acc (f y)) l' (number (f x))
  end.

(** [_.sum(array)] *)
Definition sum (l : list value) : value :=
  match l with
  | [] => VNum Num.zero
  | _ =>
      default VUndefined
        (fold_left
           (fun result current =>
              match current, result with
              | VUndefined, _ => result
              | _, None => Some current
              | _, Some r => Some (plus r current)
              end)
           l None)
  end.

End Binary64.

Arguments Binary64.nearest : simpl never.
Arguments Binary64.number : simpl never.
Arguments Binary64.add : simpl never.
Arguments Binary64.sub : simpl never.
Arguments Binary64.mul : simpl never.
Arguments Binary64.div : simpl never.
Arguments Binary64.lit : simpl never.
Arguments Binary64.to_string : simpl never.

(** ** Ledger data *)

(** The [discount] payload of a discount line. *)
Module Discount.
Record t : Type := mk {
  description : string;
  code : string;
  userOptions : value;
  discountAmounts : gmap Z num;
  refundAmounts : gmap Z num;
  promotionParams : value;
  promotionId : value;
}.
End Discount.

(** A transaction item: a row of the TransactionItem table, or the plain
    object a builder holds before the row exists.  [payment] and
    [transfer] are the associated rows a query includes, [None] when the
    item carries none. *)
Module TransactionItem.
Record t : Type := mk {
  id : option Z;                  (* the row's key, once the row exists *)
  itemType : string;
  itemId : value;
  debit : value;
  credit : value;
  transactionId : option Z;
  notes : option (gmap string value);
  options : option (gmap string value);
  payment : option value;         (* the included Payment, by its [id] *)
  transfer : option value;        (* the included Transfer, by its
                                     [transportCompanyId] *)
  discount : option Discount.t;
}.

(** An item with the given type, id, debit and credit and nothing else. *)
Definition plain (ty : string) (iid d c : value) : t :=
  mk None ty iid d c None None None None None None.

Definition set_notes (n : option (gmap string value)) (x : t) : t :=
  mk (id x) (itemType x) (itemId x) (debit x) (credit x) (transactionId x) n
     (options x) (payment x) (transfer x) (discount x).
Definition set_row (i tid : Z) (x : t) : t :=
  mk (Some i) (itemType x) (itemId x) (debit x) (credit x) (Some tid)
     (notes x) (options x) (payment x) (transfer x) (discount x).
End TransactionItem.

Module Transaction.
Record t : Type := mk {
  id : Z;
  transactionItems : option (list TransactionItem.t);
}.
End Transaction.

(** ** The database

    The tables the refund and charge workflows read and write.  A row is
    addressed by its primary key; the TransactionItem table is a list,
    scanned in order by the queries that want the first match. *)

Module Ticket.
Record t : Type := mk {
  id : Z;
  status : string;
  userId : Z;
  boardStopId : Z;
  notes : option (gmap string value);
}.
Definition set_status (s : string) (x : t) : t :=
  mk (id x) s (userId x) (boardStopId x) (notes x).
End Ticket.

Module RoutePass.
Record t : Type := mk {
  id : Z;
  status : string;
  companyId : Z;
  notes : option (gmap string value);
}.
Definition set_status (s : string) (x : t) : t :=
  mk (id x) s (companyId x) (notes x).
End RoutePass.

(** What a charge attempt left on the Payment row. *)
Inductive PaymentData : Type :=
| NoData
| ChargeData (id : value) (amount : value)
| ErrorData (e : exn).

Module PaymentRow.
Record t : Type := mk {
  id : Z;
  paymentResource : value;
  data : PaymentData;
  options : option (gmap string value);
}.
End PaymentRow.

Module TransactionRow.
Record t : Type := mk {
  committed : bool;
  description : string;
  type : string;
}.
End TransactionRow.

Module TransportCompany.
Record t : Type := mk {
  smsOpCode : value;
  name : value;
  clientId : value;
  sandboxId : value;
}.
End TransportCompany.

Module DB.
Record t : Type := mk {
  tickets : gmap Z Ticket.t;
  routePasses : gmap Z RoutePass.t;
  transactions : gmap Z TransactionRow.t;
  transactionItems : list TransactionItem.t;
  payments : gmap Z PaymentRow.t;
  (* tripStops.tripId, trips.routeId and routes.transportCompanyId, for
     the join that finds a ticket's company *)
  tripStops : gmap Z Z;
  trips : gmap Z Z;
  routes : gmap Z Z;
  transportCompanies : gmap Z TransportCompany.t;
}.

Definition set_tickets (f : gmap Z Ticket.t -> gmap Z Ticket.t) (d : t) : t :=
  mk (f (tickets d)) (routePasses d) (transactions d) (transactionItems d)
     (payments d) (tripStops d) (trips d) (routes d) (transportCompanies d).
Definition set_routePasses (f : gmap Z RoutePass.t -> gmap Z RoutePass.t) (d : t) : t :=
  mk (tickets d) (f (routePasses d)) (transactions d) (transactionItems d)
     (payments d) (tripStops d) (trips d) (routes d) (transportCompanies d).
Definition set_transactions (f : gmap Z TransactionRow.t -> gmap Z TransactionRow.t) (d : t) : t :=
  mk (tickets d) (routePasses d) (f (transactions d)) (transactionItems d)
     (payments d) (tripStops d) (trips d) (routes d) (transportCompanies d).
Definition set_transactionItems (f : list TransactionItem.t -> list TransactionItem.t) (d : t) : t :=
  mk (tickets d) (routePasses d) (transactions d) (f (transactionItems d))
     (payments d) (tripStops d) (trips d) (routes d) (transportCompanies d).
Definition set_payments (f : gmap Z PaymentRow.t -> gmap Z PaymentRow.t) (d : t) : t :=
  mk (tickets d) (routePasses d) (transactions d) (transactionItems d)
     (f (payments d)) (tripStops d) (trips d) (routes d) (transportCompanies d).
End DB.

(** ** The monad of database code

    A computation reads and writes the tables and may throw.  An exception
    carries no state: the workflows run inside a database transaction,
    which an exception rolls back. *)

Definition M (A : Type) : Type := DB.t -> result (A * DB.t).

Definition M_ret {A} (a : A) : M A := fun db => Ok (a, db).
Definition M_bind {A B} (c : M A) (k : A -> M B) : M B :=
  fun db =>
    match c db with
    | Ok (a, db') => k a db'
    | Throw e => Throw e
    end.
Definition throw {A} (e : exn) : M A := fun _ => Throw e.
Definition lift {A} (r : result A) : M A :=
  fun db => match r with Ok a => Ok (a, db) | Throw e => Throw e end.
Definition gets {A} (f : DB.t -> A) : M A := fun db => Ok (f db, db).
Definition modify (f : DB.t -> DB.t) : M unit := fun db => Ok (tt, f db).

Declare Scope M_scope.
Delimit Scope M_scope with M.
Bind Scope M_scope with M.
Notation "x <- c ;; k" := (M_bind c (fun x => k))
  (at level 100, c at next level, right associativity) : M_scope.
Notation "c ;;; k" := (M_bind c (fun _ => k))
  (at level 100, right associativity) : M_scope.

(** [instance.update({ status })] of Sequelize: the column is written on
    the row of the instance's id, and the instance is returned with it. *)
Definition Ticket_update_status (ticket : Ticket.t) (s : string) : M Ticket.t :=
  (modify (DB.set_tickets (alter (Ticket.set_status s) (Ticket.id ticket))) ;;;
   M_ret (Ticket.set_status s ticket))%M.

Definition RoutePass_update_status (routePass : RoutePass.t) (s : string)
  : M RoutePass.t :=
  (modify (DB.set_routePasses
             (alter (RoutePass.set_status s) (RoutePass.id routePass))) ;;;
   M_ret (RoutePass.set_status s routePass))%M.

(** ** The transaction builder

    [./builder] is not among the sources.  The record below holds the
    fields of a [TransactionBuilder] that this file reads and writes. *)

(** The [creator] of a transaction. *)
Module Creator.
Record t : Type := mk {
  type : string;
  id : value;
}.
End Creator.

(** A line of [tb.items]: the ticket an order books and the ticketSale
    item that stands for it. *)
Module LineItem.
Record t : Type := mk {
  ticket : Ticket.t;
  transactionItem : TransactionItem.t;
}.
End LineItem.

(** The builder's own methods that are pushed as post-transaction hooks. *)
Inductive Hook : Type :=
| _saveChangesToTickets
| _saveChangesToRoutePasses.

Module TripStop.
Record t : Type := mk {
  id : Z;
  time : num;                     (* [time.getTime()] *)
  tickets : list Ticket.t;
}.
End TripStop.

(** [trip.bookingInfo], a JSON column. *)
Module BookingInfo.
Record raw : Type := mk_raw {
  raw_windowType : value;
  raw_windowSize : value;
}.
Inductive WindowType : Type := stop | firstStop.
Record t : Type := mk {
  windowType : WindowType;
  windowSize : num;
}.
End BookingInfo.

Module Trip.
Record t : Type := mk {
  id : Z;
  isRunning : bool;
  tripStops : list TripStop.t;
  bookingInfo : option BookingInfo.raw;
  transportCompanyId : Z;
}.
End Trip.

(** A requested trip, as [prepareTicketSale] validates it: only [userId]
    is required. *)
Module TripOrder.
Record t : Type := mk {
  tripId : option Z;
  boardStopId : option Z;
  alightStopId : option Z;
  userId : Z;
}.
End TripOrder.

Module TransactionBuilder.
Record t : Type := mk {
  items : list LineItem.t;
  transactionItemsByType : gmap string (list TransactionItem.t);
  tripsById : gmap Z Trip.t;
  lineItems : option (list TripOrder.t);
  postTransactionHooks : list Hook;
  undoFunctions : list (M unit);
  description : string;
  creator : option Creator.t;
  committed : bool;
  dryRun : bool;
}.

(** Modelled from the spec: [new TransactionBuilder(connection)], of the
    builder module that is not among the sources: a builder that holds
    no item yet (section 4.1, the builder's state). *)
Definition new (dryRun committed : bool) (creator : option Creator.t) : t :=
  mk [] ∅ ∅ None [] [] "" creator committed dryRun.

Definition set_description (d : string) (b : t) : t :=
  mk (items b) (transactionItemsByType b) (tripsById b) (lineItems b)
     (postTransactionHooks b) (undoFunctions b) d (creator b) (committed b)
     (dryRun b).
Definition set_items (l : list LineItem.t) (b : t) : t :=
  mk l (transactionItemsByType b) (tripsById b) (lineItems b)
     (postTransactionHooks b) (undoFunctions b) (description b) (creator b)
     (committed b) (dryRun b).
Definition set_byType (ty : string) (l : list TransactionItem.t) (b : t) : t :=
  mk (items b) (<[ty := l]> (transactionItemsByType b)) (tripsById b)
     (lineItems b) (postTransactionHooks b) (undoFunctions b) (description b)
     (creator b) (committed b) (dryRun b).
Definition push_hook (h : Hook) (b : t) : t :=
  mk (items b) (transactionItemsByType b) (tripsById b) (lineItems b)
     (postTransactionHooks b ++ [h]) (undoFunctions b) (description b)
     (creator b) (committed b) (dryRun b).
Definition push_undo (u : M unit) (b : t) : t :=
  mk (items b) (transactionItemsByType b) (tripsById b) (lineItems b)
     (postTransactionHooks b) (undoFunctions b ++ [u]) (description b)
     (creator b) (committed b) (dryRun b).
End TransactionBuilder.

(** ** Collaborators

    The modules the file imports and the sources do not hold, as records
    of their operations. *)

(** A charge of the gateway; [source] is the card the gateway keeps, whose
    shape only the gateway adapter reads. *)
Module Charge.
Record t (Source : Type) : Type := mk {
  id : value;
  amount : num;
  amount_refunded : num;
  source : Source;
}.
Arguments mk {Source}.
Arguments id {Source}.
Arguments amount {Source}.
Arguments amount_refunded {Source}.
Arguments source {Source}.
End Charge.

(** What [generateRefundInfo] returns. *)
Module RefundInfo.
Record t (Source : Type) : Type := mk {
  processingFee : num;
  charge : Charge.t Source;
  isMicro : value;
  balanceAmtCents : num;
  amount : num;
  idempotencyKey : string;
}.
Arguments mk {Source}.
Arguments processingFee {Source}.
Arguments charge {Source}.
Arguments isMicro {Source}.
Arguments balanceAmtCents {Source}.
Arguments amount {Source}.
Arguments idempotencyKey {Source}.
End RefundInfo.

(** The argument of [Payment.chargeCard]. *)
Module ChargeRequest.
Record t : Type := mk {
  description : value;
  statement_descriptor : string;
  destination : value;
  idempotencyKey : string;
  customer : value;               (* [undefined] when a token pays *)
  source : value;
  value : value;
}.
End ChargeRequest.

(** What [Payment.chargeCard] returns, as far as [chargeSale] reads it. *)
Module ChargeResult.
Record t : Type := mk {
  id : value;
  amount : value;
}.
End ChargeResult.

(** [../transactions/payment], the payment gateway adapter. *)
Class PaymentGateway : Type := {
  Source : Type;
  retrieveCharge : value -> result (Charge.t Source);
  isLocalAndNonAmex : Source -> bool;
  calculateAdminFeeInCents : num -> value -> bool -> num;
  minTransactionChargeInCents : num;
  isMicro : value -> value;
  chargeCard : ChargeRequest.t -> result ChargeResult.t;
  refund : TransactionBuilder.t -> value -> value -> Z -> RefundInfo.t Source
           -> M TransactionBuilder.t;
}.

(** The credentials of a request. *)
Module Credentials.
Record t : Type := mk {
  scope : string;
  adminId : value;
  email : value;
}.
End Credentials.

(** [../core/auth] *)
Class Auth : Type := {
  assertAdminRole : Credentials.t -> string -> Z -> result unit;
}.

(** [TransactionBuilder.prototype.build], of [./builder]: the persisted
    transaction and the function that undoes the workflow's effects.  The
    undo function reads the builder's [undoFunctions] array when it runs,
    and [prepareRoutePassRefund] still adds to that array after [build]
    has returned: the function is given the array as it is then. *)
Class Builder : Type := {
  build : TransactionBuilder.t -> string
          -> M (Transaction.t * (list (M unit) -> M unit));
}.

(** Joi, for the one schema this file validates a stored value against:
    [Joi.validate(bookingInfo, Joi.object({ windowType:
    Joi.valid(["stop", "firstStop"]).default("stop"), windowSize:
    Joi.number().default(0) }).unknown())].  [None] is a validation
    error; a validated value conforms to the schema. *)
Class Joi : Type := {
  validate_bookingInfo : BookingInfo.raw -> option BookingInfo.t;
}.

(** The environment of the process. *)
Class Env : Type := {
  TEST_IDEMPOTENCY : value;       (* [process.env.TEST_IDEMPOTENCY] *)
  stripeIsLive : bool;            (* [process.env.STRIPE_MODE === "live"] *)
}.

(** ** [validateTxn] *)

(** The iteratee of [_.sumBy] in [validateTxn]. *)
Definition signedAmount (item : TransactionItem.t) : num :=
  let debit := TransactionItem.debit item in
  let credit := TransactionItem.credit item in
  if truthy debit then parseFloat debit
  else if truthy credit then Num.neg (parseFloat credit)
  else Num.zero.

(** The signed sum of a transaction's items: [_.sumBy(items, ...)]. *)
Definition sumOfDebit (items : list TransactionItem.t) : num :=
  lodash.sumBy items signedAmount.

Definition validateTxn (txn : Transaction.t) : result Transaction.t :=
  match Transaction.transactionItems txn with
  | None => Throw (AssertionError "items")
  | Some items =>
      (assert (forallb (fun i => truthy (TransactionItem.itemId i)) items)
              "_.every(items, 'itemId')" ;;;
       let sumOfDebit := sumOfDebit items in
       if (Num.abs sumOfDebit >? Fin 0.000001)%num then
         Throw (Error
           "Transaction does not add up to zero. This is usually a programming mistake")
       else Ok txn)%result
  end.

(** ** Queries *)

(** The integer that a value used as a key denotes. *)
Definition key_of (v : value) : option Z :=
  match v with
  | VUndefined | VNull => None
  | _ =>
      match ToNumber v with
      | Fin q => if Qeq_bool q (inject_Z (Qfloor q)) then Some (Qfloor q) else None
      | _ => None
      end
  end.

Definition has_key (v : value) (k : Z) : bool :=
  match key_of v with
  | Some k' => (k' =? k)%Z
  | None => false
  end.

(** [obj.options && obj.options.isMicro] *)
Definition options_isMicro (missing : value) (options : option (gmap string value))
  : value :=
  match options with
  | None => missing
  | Some o => default VUndefined (o !! "isMicro")
  end.

(** [db.transaction(callback)]: the callback's writes are committed when
    it returns and dropped when it throws, which is what [M] does with an
    exception. *)
Definition db_transaction {A} (callback : M A) : M A := callback.

(** [models.Ticket.findById] *)
Definition Ticket_findById (ticketId : Z) : M (option Ticket.t) :=
  gets (fun db => DB.tickets db !! ticketId).

(** [models.Payment.findById] *)
Definition Payment_findById (i : value) : M (option PaymentRow.t) :=
  gets (fun db => k ← key_of i; DB.payments db !! k).

(** The query of [prepareTicketRefund] for the company of a ticket: the
    inner joins from the ticket's boarding stop to its trip, route and
    transport company; the rows found, at most one. *)
Definition query_ticket_company (ticketId : Z) : M (list Z) :=
  gets (fun db =>
    option_list (
      tk ← DB.tickets db !! ticketId;
      tripId ← DB.tripStops db !! Ticket.boardStopId tk;
      routeId ← DB.trips db !! tripId;
      companyId ← DB.routes db !! routeId;
      _ ← DB.transportCompanies db !! companyId;
      Some companyId)).

(** [models.TransactionItem.find({ where: { itemId, itemType } })]: the
    first row that matches. *)
Definition TransactionItem_find_item (iid : Z) (ty : string)
  : M (option TransactionItem.t) :=
  gets (fun db =>
    head (filter (fun r => has_key (TransactionItem.itemId r) iid
                           ∧ TransactionItem.itemType r = ty)
                 (DB.transactionItems db))).

(** [models.TransactionItem.find({ where: { itemType, transactionId } })] *)
Definition TransactionItem_find_in (ty : string) (tid : option Z)
  : M (option TransactionItem.t) :=
  gets (fun db =>
    head (filter (fun r => TransactionItem.itemType r = ty
                           ∧ is_Some tid
                           ∧ TransactionItem.transactionId r = tid)
                 (DB.transactionItems db))).

(** The association [transactionItem.transaction.transactionItems]: the
    rows of the item's transaction, when the transaction exists. *)
Definition related_items (item : TransactionItem.t)
  : M (option (list TransactionItem.t)) :=
  gets (fun db =>
    tid ← TransactionItem.transactionId item;
    _ ← DB.transactions db !! tid;
    Some (filter (fun r => TransactionItem.transactionId r = Some tid)
                 (DB.transactionItems db))).

(** The ticketRefund rows of a ticket whose transaction is committed. *)
Definition committed_refunds (ticketId : Z) : M (list TransactionItem.t) :=
  gets (fun db =>
    filter (fun r =>
              has_key (TransactionItem.itemId r) ticketId
              ∧ TransactionItem.itemType r = "ticketRefund"
              ∧ (tid ← TransactionItem.transactionId r;
                 TransactionRow.committed <$> DB.transactions db !! tid)
                = Some true)
           (DB.transactionItems db)).

(** [item.update({ notes: null })] on a persisted item. *)
Definition TransactionItem_clear_notes (item : TransactionItem.t) : M unit :=
  modify (DB.set_transactionItems
    (map (fun r =>
       if decide (is_Some (TransactionItem.id item)
                  ∧ TransactionItem.id r = TransactionItem.id item)
       then TransactionItem.set_notes None r else r))).

(** ** The refund workflows *)

Module RoutePassRefundOptions.
Record t : Type := mk {
  credentials : Credentials.t;
  transactionItem : TransactionItem.t;
  routePass : RoutePass.t;
}.
End RoutePassRefundOptions.

Module TicketRefundOptions.
Record t : Type := mk {
  targetAmt : num;
  ticketId : Z;
  credentials : Credentials.t;
}.
End TicketRefundOptions.

Section Refunds.
Context {gateway : PaymentGateway} {auth : Auth} {builder : Builder} {env : Env}.

Definition generateRefundInfo (paymentItem : option PaymentRow.t) (amount : num)
    (isMicro : value) (idempotencyKey : string) : result (RefundInfo.t Source) :=
  match paymentItem with
  | None => Throw (TypeError "Cannot read property 'paymentResource' of null")
  | Some paymentItem =>
      (charge <- retrieveCharge (PaymentRow.paymentResource paymentItem) ;;
       let balanceAmtCents :=
         (Charge.amount charge - Charge.amount_refunded charge)%num in
       let refundAmtCents := Num.round (amount * Fin 100) in
       let isLocalAndNonAmex := isLocalAndNonAmex (Charge.source charge) in
       TransactionError_assert
         (balanceAmtCents >=? amount * Fin 100 - Fin 0.1)%num
         "Requested refund exceeds amount paid for ticket" ;;;
       let updatedBalance := (balanceAmtCents - refundAmtCents)%num in
       let processingFee :=
         ((calculateAdminFeeInCents balanceAmtCents isMicro isLocalAndNonAmex
           - calculateAdminFeeInCents updatedBalance isMicro isLocalAndNonAmex)
          / Fin 100)%num in
       Ok (RefundInfo.mk processingFee charge isMicro balanceAmtCents amount
             idempotencyKey))%result
  end.

(** The creator a refund is booked under:
    [{ type: credentials.scope, id: credentials.adminId || credentials.email }] *)
Definition refund_creator (credentials : Credentials.t) : Creator.t :=
  Creator.mk (Credentials.scope credentials)
    (if truthy (Credentials.adminId credentials)
     then Credentials.adminId credentials
     else Credentials.email credentials).

(** [{ refundedTransactionId: item.transactionId }] *)
Definition refund_notes (tid : option Z) : option (gmap string value) :=
  Some {[ "refundedTransactionId" :=
            match tid with
            | Some t => VNum (Num.of_Z t)
            | None => VUndefined
            end ]}.

(** The idempotency key of a refund:
    [Refund:instance=${process.env.TEST_IDEMPOTENCY},<what>=${id}] *)
Definition refund_key (what : string) (i : Z) : string :=
  "Refund:instance=" +:+ ToString TEST_IDEMPOTENCY +:+ "," +:+ what +:+ "="
  +:+ pretty i.

(** The undo function [prepareRoutePassRefund] records:
    [t => routePass.update({ status: lastStatus }, { transaction: t })] *)
Definition routePass_undo (routePass : RoutePass.t) (lastStatus : string) : M unit :=
  (RoutePass_update_status routePass lastStatus ;;; M_ret tt)%M.

Definition prepareRoutePassRefund (options : RoutePassRefundOptions.t)
  : M (Transaction.t * M unit * RefundInfo.t Source) :=
  let credentials := RoutePassRefundOptions.credentials options in
  let transactionItem := RoutePassRefundOptions.transactionItem options in
  let routePass := RoutePassRefundOptions.routePass options in
  (lift (TransactionError_assert
           (strict_eq (TransactionItem.itemId transactionItem)
                      (VNum (Num.of_Z (RoutePass.id routePass))))
           "This transaction item does not relate to this route pass") ;;;
   lift (TransactionError_assert
           (ToNumber (TransactionItem.debit transactionItem) <=? Num.zero)%num
           "This transaction item has debit > 0, and thus is unlikely to relate to a route pass purchase") ;;;
   lift (TransactionError_assert
           (String.eqb (RoutePass.status routePass) "valid"
            || String.eqb (RoutePass.status routePass) "void"
            || String.eqb (RoutePass.status routePass) "expired")
           ("Only valid, void or expired route passes can be refunded. This route pass is ["
            +:+ RoutePass.status routePass +:+ "]")) ;;;
   let priceAfterDiscount :=
     (ToNumber (TransactionItem.credit transactionItem)
      - ToNumber (lodash.get_notes (RoutePass.notes routePass) "discountValue"
                    (VNum Num.zero)))%num in
   (* Find the payment item tied to the route pass purchase transaction *)
   paymentItem <- TransactionItem_find_in "payment"
                    (TransactionItem.transactionId transactionItem) ;;
   match paymentItem with
   | None => throw (TypeError "Cannot read property 'itemId' of null")
   | Some paymentItem =>
   payment <- Payment_findById (TransactionItem.itemId paymentItem) ;;
   match payment with
   | None => throw (TypeError "Cannot read property 'options' of null")
   | Some payment =>
   stripeRefundInfo <- lift (generateRefundInfo (Some payment) priceAfterDiscount
       (options_isMicro VNull (PaymentRow.options payment))
       (refund_key "routePassId" (RoutePass.id routePass))) ;;
   let transactionBuilder :=
     TransactionBuilder.new false true (Some (refund_creator credentials)) in
   let transactionBuilder :=
     TransactionBuilder.set_description
       ("Refund Payment for route pass " +:+ pretty (RoutePass.id routePass))
       transactionBuilder in
   let transactionBuilder :=
     TransactionBuilder.set_byType "routePass"
       [TransactionItem.set_notes
          (refund_notes (TransactionItem.transactionId transactionItem))
          (TransactionItem.plain "routePass"
             (VNum (Num.of_Z (RoutePass.id routePass)))
             (VNum priceAfterDiscount) VUndefined)]
       transactionBuilder in
   let lastStatus := RoutePass.status routePass in
   routePass' <- RoutePass_update_status routePass "refunded" ;;
   let transactionBuilder :=
     TransactionBuilder.push_undo (routePass_undo routePass' lastStatus)
       transactionBuilder in
   transactionBuilder <- refund transactionBuilder VNull VNull
                           (RoutePass.companyId routePass') stripeRefundInfo ;;
   built <- build transactionBuilder "refundPayment" ;;
   let '(dbTransactionInstance, undoFn) := built in
   match Transaction.transactionItems dbTransactionInstance with
   | None => throw (TypeError "Cannot read property 'find' of undefined")
   | Some items =>
       let routePassRefund :=
         head (filter (fun item =>
                         TransactionItem.itemType item = "routePass"
                         ∧ strict_eq (TransactionItem.itemId item)
                             (VNum (Num.of_Z (RoutePass.id routePass'))) = true)
                      items) in
       let undoFunctions :=
         match routePassRefund with
         | Some item =>
             TransactionItem_clear_notes item
             :: TransactionBuilder.undoFunctions transactionBuilder
         | None => TransactionBuilder.undoFunctions transactionBuilder
         end in
       M_ret (dbTransactionInstance, undoFn undoFunctions, stripeRefundInfo)
   end end end)%M.

(** The undo function [prepareTicketRefund] records:
    [t => ticket.update({ status: "valid" }, { transaction: t })] *)
Definition ticket_undo (ticket : Ticket.t) : M unit :=
  (Ticket_update_status ticket "valid" ;;; M_ret tt)%M.

Definition prepareTicketRefund (options : TicketRefundOptions.t)
  : M (Transaction.t * M unit * RefundInfo.t Source) :=
  let targetAmt := TicketRefundOptions.targetAmt options in
  let ticketId := TicketRefundOptions.ticketId options in
  let credentials := TicketRefundOptions.credentials options in
  (lift (assert (Num.truthy targetAmt && negb (ticketId =? 0)%Z)
           "db && m && targetAmt && ticketId && credentials") ;;;
   db_transaction (
   (* ensure that all tickets are valid *)
   ticket <- Ticket_findById ticketId ;;
   match ticket with
   | None => throw (TypeError "Cannot read property 'status' of null")
   | Some ticket =>
   (* check if ticket is eligible for refunds *)
   lift (TransactionError_assert
           (String.eqb (Ticket.status ticket) "valid"
            || String.eqb (Ticket.status ticket) "void")
           "Trying to refund a non-valid ticket") ;;;
   (* Find the associated company, check if user is authorised *)
   companies <- query_ticket_company (Ticket.id ticket) ;;
   match head companies with
   | None => throw (TypeError "Cannot read property 'id' of undefined")
   | Some company =>
   lift (assertAdminRole credentials "refund" company) ;;;
   (* Reverse search from ticket id *)
   ticketSale <- TransactionItem_find_item (Ticket.id ticket) "ticketSale" ;;
   match ticketSale with
   | None =>
       throw (TransactionError
         "Cannot refund/void a ticket that was not sold - ticketSale not found")
   | Some ticketSale =>
   relatedTIs <- related_items ticketSale ;;
   match relatedTIs with
   | None => throw (TypeError "Cannot read property 'transactionItems' of null")
   | Some relatedTIs =>
   let transactionItemsByType :=
     lodash.groupBy relatedTIs TransactionItem.itemType in
   (* Attempt to refund only if some some payment was made *)
   match transactionItemsByType !! "payment" with
   | None => throw (AssertionError "transactionItemsByType.payment")
   | Some payments =>
   match payments with
   | [payment0] =>
   lift (TransactionError_assert
           (ToNumber (TransactionItem.debit payment0) >? Num.zero)%num
           "No payment was made for this transaction") ;;;
   (* Check for previous partial refunds for this ticket *)
   refundTI <- committed_refunds (Ticket.id ticket) ;;
   let previouslyRefunded := lodash.sum (map TransactionItem.debit refundTI) in
   let priceAfterDiscount :=
     (ToNumber (TransactionItem.credit ticketSale)
      - ToNumber (lodash.get_notes (Ticket.notes ticket) "discountValue"
                    (VNum Num.zero)))%num in
   (* Enforce all or nothing refund *)
   lift (TransactionError_assert
           (Num.abs (targetAmt - priceAfterDiscount) <? Fin 0.0001)%num
           "Current implementation requires requested refund to equal ticket value after discounts") ;;;
   let possibleRefundAmt :=
     (priceAfterDiscount - ToNumber previouslyRefunded)%num in
   (* can't refund more than a ticket is worth *)
   lift (TransactionError_assert
           (possibleRefundAmt >=? targetAmt)%num
           "Refund requested causes total refunded to exceed allowed refund amount") ;;;
   let transactionBuilder :=
     TransactionBuilder.new false true (Some (refund_creator credentials)) in
   let transactionBuilder :=
     TransactionBuilder.push_hook _saveChangesToTickets transactionBuilder in
   let transactionBuilder :=
     TransactionBuilder.set_description
       ("Refund Payment for ticket " +:+ pretty (Ticket.id ticket))
       transactionBuilder in
   let transactionBuilder :=
     TransactionBuilder.set_byType "ticketRefund"
       [TransactionItem.set_notes
          (refund_notes (TransactionItem.transactionId ticketSale))
          (TransactionItem.plain "ticketRefund"
             (VNum (Num.of_Z (Ticket.id ticket))) (VNum targetAmt) VUndefined)]
       transactionBuilder in
   ticket <- Ticket_update_status ticket "refunded" ;;
   let transactionBuilder :=
     TransactionBuilder.push_undo (ticket_undo ticket) transactionBuilder in
   payment <- Payment_findById (TransactionItem.itemId payment0) ;;
   match head relatedTIs with
   | None => throw (TypeError "Cannot read property 'options' of undefined")
   | Some relatedTI0 =>
   stripeRefundInfo <- lift (generateRefundInfo payment targetAmt
       (options_isMicro VUndefined (TransactionItem.options relatedTI0))
       (refund_key "ticketId" (Ticket.id ticket))) ;;
   transactionBuilder <- refund transactionBuilder VNull
                           (VNum (Num.of_Z (Ticket.id ticket))) company
                           stripeRefundInfo ;;
   built <- build transactionBuilder "refundPayment" ;;
   let '(dbTransactionInstance, undoFn) := built in
   M_ret (dbTransactionInstance,
         undoFn (TransactionBuilder.undoFunctions transactionBuilder),
         stripeRefundInfo)
   end
   | _ => throw (AssertionError "transactionItemsByType.payment.length === 1")
   end end end end end end))%M.

End Refunds.

(** ** The order checks *)

Module CheckOptions.
Record t : Type := mk {
  ensureAvailability : bool;
  noDuplicates : bool;
  bookingWindow : bool;
}.
End CheckOptions.

(** A sequence of statements run for each element, in order, until one
    throws. *)
Fixpoint each {A} (l : list A) (f : A -> result unit) : result unit :=
  match l with
  | [] => Ok tt
  | x :: l' => (f x ;;; each l' f)%result
  end.

(** The own properties of an object whose keys are array indices
    (integers from 0 and below 2^32 - 1), in the order JavaScript
    enumerates them: ascending.  Keys of another form are enumerated
    after these, in the order of their insertion, which a map does not
    record. *)
Definition key_le {A} (a b : Z * A) : Prop := (a.1 <= b.1)%Z.

#[global] Instance key_le_dec {A} : RelDecision (@key_le A).
Proof. intros a b. unfold key_le. apply _. Defined.

Definition entries {A} (m : gmap Z A) : list (Z * A) :=
  merge_sort key_le (map_to_list m).

(** A number that may be [undefined], read as a number. *)
Definition or_undefined (o : option num) : num := default NaN o.

Section OrderChecks.
Context {joi : Joi}.

(** [array.findIndex(ts => ts.id === stopId)] with the element found. *)
Definition findStop (tripStops : list TripStop.t) (stopId : option Z)
  : option (nat * TripStop.t) :=
  list_find (fun ts => Some (TripStop.id ts) = stopId) tripStops.

Definition checkStopsAndBookingWindow (checkBookingWindow : bool) (now : num)
    (dbTrip : Trip.t) (rqTrip : TripOrder.t) : result unit :=
  (* check stops *)
  match findStop (Trip.tripStops dbTrip) (TripOrder.boardStopId rqTrip),
        findStop (Trip.tripStops dbTrip) (TripOrder.alightStopId rqTrip) with
  | Some (_, boardStop), Some (_, alightStop) =>
      (* Whether to check for booking window. *)
      if negb checkBookingWindow then Ok tt
      else
        (* Validate the bookingInfo *)
        let defaultBookingInfo := BookingInfo.mk BookingInfo.stop Num.zero in
        let bookingInfo :=
          default defaultBookingInfo
            (validate_bookingInfo
               (default (BookingInfo.mk_raw VUndefined VUndefined)
                        (Trip.bookingInfo dbTrip))) in
        let windowSize := BookingInfo.windowSize bookingInfo in
        (* Determine the type of check *)
        let cutOff :=
          match BookingInfo.windowType bookingInfo with
          | BookingInfo.firstStop =>
              (* check against the first stop *)
              (or_undefined (lodash.min (map TripStop.time (Trip.tripStops dbTrip)))
               + windowSize)%num
          | BookingInfo.stop =>
              (* check against the time of the boarding and alighting stop *)
              let boardStopCutoff := (TripStop.time boardStop + windowSize)%num in
              let alightStopCutoff := (TripStop.time alightStop + windowSize)%num in
              or_undefined (lodash.min [boardStopCutoff; alightStopCutoff])
          end in
        if (now >? cutOff)%num then
          (* the message ends with the cut-off as a time of day, which is
             not rendered here *)
          Throw (TransactionError "You may not book this trip later than ")
        else Ok tt
  | _, _ =>
      Throw (TransactionError
               ("Invalid stop given for trip #" +:+ pretty (Trip.id dbTrip)))
  end.

Definition checkValidTripStop : Trip.t -> TripOrder.t -> result unit :=
  checkStopsAndBookingWindow false Num.zero.

(** [checkValidTripStop()]: [checkValidTripStop] is a check already, the
    one [checkStopsAndBookingWindow(false)] returned, and not a function
    that returns a check as [checkValidBookingWindow] and
    [checkNoDuplicates] are.  Called with no argument it runs on no trip
    and no order, and its first statement reads the [tripStops] of
    [dbTrip], which is [undefined]. *)
Definition checkValidTripStop_call : result unit :=
  Throw (TypeError "Cannot read property 'tripStops' of undefined").

(** [now] stands for the [Date.now()] of the call. *)
Definition checkValidBookingWindow (now : num)
  : Trip.t -> TripOrder.t -> result unit :=
  checkStopsAndBookingWindow true now.

Definition checkNoDuplicates (dbTrip : Trip.t) (rqTrip : TripOrder.t)
  : result unit :=
  let dbTripTickets := concat (map TripStop.tickets (Trip.tripStops dbTrip)) in
  let existingTicketFromUser :=
    head (filter (fun ticket =>
                    (Ticket.status ticket = "valid"
                     ∨ Ticket.status ticket = "pending")
                    ∧ Ticket.userId ticket = TripOrder.userId rqTrip)
                 dbTripTickets) in
  match existingTicketFromUser with
  | Some ticket =>
      Throw (TransactionError
               ("User #" +:+ pretty (TripOrder.userId rqTrip)
                +:+ " already has ticket [" +:+ pretty (Ticket.id ticket)
                +:+ "] for the trip"))
  | None => Ok tt
  end.

(** [tripsById[rqTrip.tripId]], and the check applied to it: reading the
    stops of a trip that is not there is a TypeError. *)
Definition on_trip (tripsById : gmap Z Trip.t) (rqTrip : TripOrder.t)
    (check : Trip.t -> TripOrder.t -> result unit) : result unit :=
  match TripOrder.tripId rqTrip ≫= (tripsById !!.) with
  | Some dbTrip => check dbTrip rqTrip
  | None => Throw (TypeError "Cannot read property 'tripStops' of undefined")
  end.

Definition checkValidTrips (tripsById : gmap Z Trip.t)
    (tripsRequested : list TripOrder.t)
    (perTripChecks : list (Trip.t -> TripOrder.t -> result unit)) : result unit :=
  (each (entries tripsById) (fun '(tripId, trip) =>
     if negb (Trip.isRunning trip) then
       Throw (TransactionError ("Trip " +:+ pretty tripId +:+ " has been cancelled"))
     else Ok tt) ;;;
   each tripsRequested (fun trip =>
     each perTripChecks (fun check => on_trip tripsById trip check)))%result.

(** [now i] stands for the [Date.now()] that the check of the [i]-th
    order reads. *)
Definition runOrderChecks (now : nat -> num) (tb : TransactionBuilder.t)
    (checkOptions : CheckOptions.t) : result unit :=
  let tripsById := TransactionBuilder.tripsById tb in
  let tripOrders := default [] (TransactionBuilder.lineItems tb) in
  (each (entries tripsById) (fun '(tripId, trip) =>
     TransactionError_assert (Trip.isRunning trip)
       ("Trip " +:+ pretty tripId +:+ " has been cancelled")) ;;;
   each (imap (fun i tripOrder => (i, tripOrder)) tripOrders)
     (fun '(i, tripOrder) =>
        (if CheckOptions.bookingWindow checkOptions
         then on_trip tripsById tripOrder (checkValidBookingWindow (now i))
         else
           (* what [checkValidTripStop()] returns is then called with the
              trip and the order *)
           checkValidTripStop_call ;;;
           Throw (TypeError "checkValidTripStop(...) is not a function")) ;;;
        if CheckOptions.noDuplicates checkOptions
        then on_trip tripsById tripOrder checkNoDuplicates
        else Ok tt) ;;;
   (* FIXME: when we support simultaneous payment to multiple companies *)
   TransactionError_assert
     (length (remove_dups (map (fun e => Trip.transportCompanyId e.2)
                               (entries tripsById))) =? 1)%nat
     "Payment to multiple companies is not yet supported")%result.

End OrderChecks.

(** ** [checkExpectedPrice] *)

Definition checkExpectedPrice (tb : TransactionBuilder.t) (price : value)
  : result unit :=
  if strict_eq price VNull then Ok tt
  else
    let price := parseFloat price in
    match TransactionBuilder.transactionItemsByType tb !! "payment" with
    | None => Throw (TypeError "Cannot read property '0' of undefined")
    | Some payment =>
        let paymentItem := head payment in
        TransactionError_assert
          (Num.abs (price - parseFloat (match paymentItem with
                                        | Some paymentItem =>
                                            TransactionItem.debit paymentItem
                                        | None => VNum Num.zero
                                        end)) <? Fin 0.001)%num
          "The price has changed since you last viewed it"
    end.

(** ** [absorbSmallPayments] *)

(** Modelled from the spec: the amount a ledger line posts in a column;
    a column left empty posts nothing (section 3: one of debit and credit
    is positive, the other is null or zero). *)
Definition posted (v : value) : num :=
  if truthy v then parseFloat v else Num.zero.

(** Every item a builder holds, type by type. *)
Definition all_items (tb : TransactionBuilder.t) : list TransactionItem.t :=
  mjoin (snd <$> map_to_list (TransactionBuilder.transactionItemsByType tb)).

Definition total (column : TransactionItem.t -> value)
    (items : list TransactionItem.t) : num :=
  foldr (fun item acc => (posted (column item) + acc)%num) Num.zero items.

(** Modelled from the spec: [TransactionBuilder.prototype._excessCredit],
    of the builder module that is not among the sources: the sum of the
    credits less the sum of the debits, across all items (section 4.1). *)
Definition _excessCredit (tb : TransactionBuilder.t) : num :=
  (total TransactionItem.credit (all_items tb)
   - total TransactionItem.debit (all_items tb))%num.

(** Modelled from the spec: [new TransactionBuilder(tb)], the copy of a
    builder (section 4.8: "clone the builder"). *)
Definition clone (tb : TransactionBuilder.t) : TransactionBuilder.t := tb.

(** Modelled from the spec: [outstandingAmounts], of the builder module
    that is not among the sources: each item's current outstanding
    amount (section 4.8), which a ticketSale item keeps in
    [notes.outstanding]. *)
Definition outstandingAmounts (items : list LineItem.t) : list num :=
  map (fun item =>
         ToNumber (lodash.get_notes
                     (TransactionItem.notes (LineItem.transactionItem item))
                     "outstanding" VUndefined))
      items.

(** [notes.<field> = v] *)
Definition put_note (field : string) (v : value)
    (notes : option (gmap string value)) : option (gmap string value) :=
  Some (<[field := v]> (default ∅ notes)).

(** Modelled from the spec: [updateTicketsWithDiscounts], of the builder
    module that is not among the sources: for each item, the allocation
    is subtracted from its outstanding amount and added to the
    [notes.discountValue] of its ticket (section 4.1, apply discount). *)
Definition updateTicketsWithDiscounts (items : list LineItem.t) (code : string)
    (amounts : list num) (refund : bool) : list LineItem.t :=
  zip_with
    (fun item amount =>
       let ti := LineItem.transactionItem item in
       let tk := LineItem.ticket item in
       let outstanding :=
         ToNumber (lodash.get_notes (TransactionItem.notes ti) "outstanding"
                     VUndefined) in
       let discountValue :=
         ToNumber (lodash.get_notes (Ticket.notes tk) "discountValue"
                     (VNum Num.zero)) in
       LineItem.mk
         (Ticket.mk (Ticket.id tk) (Ticket.status tk) (Ticket.userId tk)
            (Ticket.boardStopId tk)
            (put_note "discountValue" (VNum (discountValue + amount)%num)
               (Ticket.notes tk)))
         (TransactionItem.set_notes
            (put_note "outstanding" (VNum (outstanding - amount)%num)
               (TransactionItem.notes ti))
            ti))
    items amounts.

(** [_.fromPairs(_.zip(keys, values))]: a later pair replaces an earlier
    one with the same key. *)
Definition fromPairs {A} (keys : list Z) (values : list A) : gmap Z A :=
  fold_left (fun m kv => <[kv.1 := kv.2]> m) (zip keys values) ∅.

Section Absorb.
Context {gateway : PaymentGateway}.

(** The discount line [absorbSmallPayments] pushes. *)
Definition absorbed_fee (excess : num) (outstandingAmountsById : gmap Z num)
  : TransactionItem.t :=
  TransactionItem.mk None "discount" VUndefined (VNum excess) VUndefined None
    None None None None
    (Some (Discount.mk "Transaction fee absorbed" "" VNull
             outstandingAmountsById outstandingAmountsById VNull VNull)).

Definition absorbSmallPayments (tb : TransactionBuilder.t) : TransactionBuilder.t :=
  let excess := _excessCredit tb in
  if (excess >? Num.zero)%num
     && (excess * Fin 100 <=? minTransactionChargeInCents)%num then
    let clone := clone tb in
    let outstandingAmountsList :=
      outstandingAmounts (TransactionBuilder.items clone) in
    let outstandingAmountsById :=
      fromPairs (map (fun item => Ticket.id (LineItem.ticket item))
                     (TransactionBuilder.items clone))
                outstandingAmountsList in
    let clone :=
      TransactionBuilder.set_items
        (updateTicketsWithDiscounts (TransactionBuilder.items clone)
           "[absorb-small-payments]" outstandingAmountsList false)
        clone in
    let discount :=
      default [] (TransactionBuilder.transactionItemsByType clone !! "discount") in
    TransactionBuilder.set_byType "discount"
      (discount ++ [absorbed_fee excess outstandingAmountsById])
      clone
  else tb.

End Absorb.

(** ** [chargeSale] *)

Module ChargeOptions.
Record t : Type := mk {
  transaction : Transaction.t;
  tokenIat : value;
  paymentDescription : value;
  stripeToken : value;
  customerId : value;
  sourceId : value;
}.
End ChargeOptions.

(** [s.substr(0, n)] *)
Fixpoint substr0 (n : nat) (s : string) : string :=
  match n, s with
  | S n', String c s' => String c (substr0 n' s')
  | _, _ => EmptyString
  end.

(** The characters Stripe does not take in a statement descriptor, the
    class of the regular expression in [chargeSale]: the two angle
    brackets, the double quote (code 34) and the single quote. *)
Definition banned_char (c : ascii) : bool :=
  (Ascii.eqb c "<" || Ascii.eqb c ">" || Ascii.eqb c "034" || Ascii.eqb c "'")%char.

(** [s.replace(re, empty)] for the global regular expression of that
    class: every banned character is dropped. *)
Fixpoint strip_banned (s : string) : string :=
  match s with
  | EmptyString => EmptyString
  | String c s' =>
      if banned_char c then strip_banned s' else String c (strip_banned s')
  end.

(** The statement descriptor of [chargeSale], from the company descriptor
    and the transaction's id. *)
Definition statementDescriptor (companyDescriptor : string) (transactionId : Z)
  : string :=
  substr0 22
    (strip_banned (substr0 10 companyDescriptor +:+ ",Ref#" +:+ pretty transactionId)).

(** What a run of [chargeSale] leaves: how it ended, the database, and
    the calls made to the gateway's [chargeCard].  [chargeSale] runs in no
    database transaction: what it wrote stays written when it throws. *)
Module ChargeRun.
Record t : Type := mk {
  outcome : result unit;
  db : DB.t;
  chargeCardCalls : list ChargeRequest.t;
}.
End ChargeRun.

(** The message of an exception. *)
Definition message (e : exn) : string :=
  match e with
  | AssertionError m | Error m | TypeError m | TransactionError m
  | ChargeError m => m
  end.

Section Charge.
Context {gateway : PaymentGateway} {env : Env}.

(** [models.Payment.update(values, { where: { id } })] *)
Definition Payment_update (i : value) (f : PaymentRow.t -> PaymentRow.t)
    (db : DB.t) : DB.t :=
  match key_of i with
  | Some k => DB.set_payments (alter f k) db
  | None => db
  end.

(** The [try] block of [chargeSale]: the calls made to [chargeCard], and
    the database it leaves or the exception it throws. *)
Definition chargeSale_try (options : ChargeOptions.t) (db : DB.t)
  : list ChargeRequest.t * result DB.t :=
  let transaction := ChargeOptions.transaction options in
  let stripeToken := ChargeOptions.stripeToken options in
  let customerId := ChargeOptions.customerId options in
  let sourceId := ChargeOptions.sourceId options in
  let paymentDescription := ChargeOptions.paymentDescription options in
  let fail (e : exn) : list ChargeRequest.t * result DB.t := ([], Throw e) in
  let internal := AssertionError "An internal server error occurred." in
  if negb (truthy paymentDescription) then
    fail (AssertionError "options.paymentDescription")
  else if negb (truthy stripeToken || (truthy customerId && truthy sourceId)) then
    fail (AssertionError "Either stripe token or saved payment info should be set")
  else
  let txnGroups :=
    lodash.groupBy (default [] (Transaction.transactionItems transaction))
      TransactionItem.itemType in
  match txnGroups !! "payment" with
  | None => fail (TypeError "Cannot read property 'length' of undefined")
  | Some [payment0] =>
  let paymentValue := TransactionItem.debit payment0 in
  match txnGroups !! "transfer" with
  | None => fail (TypeError "Cannot read property 'length' of undefined")
  | Some [transfer0] =>
  match TransactionItem.transfer transfer0 with
  | None => fail (TypeError "Cannot read property 'transportCompanyId' of undefined")
  | Some busCompanyId =>
  match key_of busCompanyId ≫= (DB.transportCompanies db !!.) with
  | None => fail internal
  | Some companyInfo =>
  let stripeCompanyId :=
    if stripeIsLive then TransportCompany.clientId companyInfo
    else TransportCompany.sandboxId companyInfo in
  if negb (truthy stripeCompanyId) then fail internal
  else
  let idempotencyKey :=
    "instance=" +:+ ToString TEST_IDEMPOTENCY +:+ ","
    +:+ "bookingId=" +:+ pretty (Transaction.id transaction)
    +:+ ",session=" +:+ ToString (ChargeOptions.tokenIat options) in
  (* Clean up the statement descriptor according to stripe rules *)
  let companyDescriptor :=
    if truthy (TransportCompany.smsOpCode companyInfo)
    then TransportCompany.smsOpCode companyInfo
    else TransportCompany.name companyInfo in
  match companyDescriptor with
  | VStr companyDescriptor =>
  let statementDescriptor :=
    statementDescriptor companyDescriptor (Transaction.id transaction) in
  let request (customer source : value) :=
    ChargeRequest.mk paymentDescription statementDescriptor stripeCompanyId
      idempotencyKey customer source paymentValue in
  let '(calls, chargeResult) :=
    if strict_eq paymentValue (VStr "0.00") then
      ([], Ok (Some (ChargeResult.mk VNull VUndefined)))
    else if truthy stripeToken then
      ([request VUndefined stripeToken],
       rbind (chargeCard (request VUndefined stripeToken)) (fun r => Ok (Some r)))
    else if truthy customerId && truthy sourceId then
      ([request customerId sourceId],
       rbind (chargeCard (request customerId sourceId)) (fun r => Ok (Some r)))
    else ([], Ok None) in
  (calls,
   (chargeResult <- chargeResult ;;
    (* store charge result in database *)
    match chargeResult with
    | None => Throw (TypeError "Cannot read property 'id' of undefined")
    | Some chargeResult =>
        match TransactionItem.payment payment0 with
        | None => Throw (TypeError "Cannot read property 'id' of undefined")
        | Some paymentId =>
            Ok (Payment_update paymentId
                  (fun row =>
                     PaymentRow.mk (PaymentRow.id row)
                       (ChargeResult.id chargeResult)
                       (ChargeData (ChargeResult.id chargeResult)
                                   (ChargeResult.amount chargeResult))
                       (Some {[ "isMicro" :=
                                  isMicro (ChargeResult.amount chargeResult) ]}))
                  db)
        end
    end)%result)
  | VNull => fail (TypeError "Cannot read property 'substr' of null")
  | VUndefined => fail (TypeError "Cannot read property 'substr' of undefined")
  | _ => fail (TypeError "companyDescriptor.substr is not a function")
  end end end
  | Some _ => fail internal
  end
  | Some _ => fail internal
  end.

(** The [catch] block of [chargeSale]: the reason for the failure is
    stored on the Payment row, and a ChargeError is thrown. *)
Definition chargeSale_catch (options : ChargeOptions.t) (error : exn) (db : DB.t)
  : result unit * DB.t :=
  let txnGroups :=
    lodash.groupBy
      (default [] (Transaction.transactionItems (ChargeOptions.transaction options)))
      TransactionItem.itemType in
  match txnGroups !! "payment" with
  | None => (Throw (TypeError "Cannot read property '0' of undefined"), db)
  | Some payments =>
      match head payments ≫= TransactionItem.payment with
      | None => (Throw (TypeError "Cannot read property 'id' of undefined"), db)
      | Some paymentId =>
          (Throw (ChargeError (message error)),
           Payment_update paymentId
             (fun row =>
                PaymentRow.mk (PaymentRow.id row) (PaymentRow.paymentResource row)
                  (ErrorData error) (PaymentRow.options row))
             db)
      end
  end.

Definition chargeSale (options : ChargeOptions.t) (db : DB.t) : ChargeRun.t :=
  match chargeSale_try options db with
  | (calls, Ok db') => ChargeRun.mk (Ok tt) db' calls
  | (calls, Throw error) =>
      let '(outcome, db') := chargeSale_catch options error db in
      ChargeRun.mk outcome db' calls
  end.

End Charge.

(** ** [cancelSale] *)

(** [models.Transaction.findById(id, { include: [TransactionItem ...] })]:
    the row and the items of the transaction. *)
Definition Transaction_findById (transactionId : Z)
  : M (option (TransactionRow.t * list TransactionItem.t)) :=
  gets (fun db =>
    row ← DB.transactions db !! transactionId;
    Some (row,
          filter (fun r => TransactionItem.transactionId r = Some transactionId)
                 (DB.transactionItems db))).

(** The association that the query includes as [ticketSale]: the Ticket
    row that the [itemId] of an item names, [null] when there is none. *)
Definition item_ticketSale (db : DB.t) (item : TransactionItem.t)
  : option Ticket.t :=
  key_of (TransactionItem.itemId item) ≫= (DB.tickets db !!.).

(** [items.every(item => item.ticketSale.status === "valid")]: the items
    are visited in order until one fails the test; reading the status of
    a ticket that is not there is a TypeError. *)
Fixpoint every_ticket_valid (db : DB.t) (items : list TransactionItem.t)
  : result bool :=
  match items with
  | [] => Ok true
  | item :: items' =>
      match item_ticketSale db item with
      | None => Throw (TypeError "Cannot read property 'status' of null")
      | Some ticket =>
          if String.eqb (Ticket.status ticket) "valid"
          then every_ticket_valid db items'
          else Ok false
      end
  end.

(** [item.ticketSale.set("status", "failed")] and the save of the ticket,
    for each item in turn. *)
Definition fail_tickets (items : list TransactionItem.t) (db : DB.t) : DB.t :=
  fold_left
    (fun db item =>
       match item_ticketSale db item with
       | Some ticket =>
           DB.set_tickets (alter (Ticket.set_status "failed") (Ticket.id ticket)) db
       | None => db
       end)
    items db.

Definition cancelSale (transactionId : Z) : M Transaction.t :=
  db_transaction
    ((* check txn belongs to user *)
     dbTxn <- Transaction_findById transactionId ;;
     match dbTxn with
     | None => throw (TransactionError "Transaction not found!")
     | Some (row, transactionItems) =>
         if negb (TransactionRow.committed row) then
           throw (TransactionError "Transaction not found!")
         else
           (* uncommit, then disable the tickets *)
           let ticketSale :=
             filter (fun item => TransactionItem.itemType item = "ticketSale")
                    transactionItems in
           allValid <- (fun db => lift (every_ticket_valid db ticketSale) db) ;;
           if negb allValid then throw (Error "Not all tickets are committed")
           else
             modify (fail_tickets ticketSale) ;;;
             modify (DB.set_transactions
                       (alter (fun row =>
                                 TransactionRow.mk false
                                   (TransactionRow.description row)
                                   (TransactionRow.type row))
                              transactionId)) ;;;
             M_ret (Transaction.mk transactionId (Some transactionItems))
     end)%M.

(** ** [checkAvailability] *)

(** [checkAvailability]: [seatsAvailable] is the column of that name of
    the Trip table, by the id of the row; the query returns the rows
    whose id is among [tripIds]. *)
Definition checkAvailability (seatsAvailable : gmap Z value) (tripIds : list Z)
  : result unit :=
  let trips :=
    filter (fun t : Z * value => t.1 ∈ tripIds) (map_to_list seatsAvailable) in
  if existsb (fun t : Z * value => (ToNumber t.2 <? Num.zero)%num) trips
  then Throw (TransactionError "Not enough seats available")
  else Ok tt.

(** The tickets that the ticket sales of a transaction name. *)
Definition sold_tickets (db : DB.t) (transactionId : Z) : list Z :=
  omap (fun item => key_of (TransactionItem.itemId item))
    (filter (fun item => TransactionItem.itemType item = "ticketSale")
       (filter (fun r => TransactionItem.transactionId r = Some transactionId)
          (DB.transactionItems db))).

(** ** The builder's [build], from the specification *)

(** The statements of a list run in order. *)
Fixpoint sequence_ (l : list (M unit)) : M unit :=
  match l with
  | [] => M_ret tt
  | f :: l' => (f ;;; sequence_ l')%M
  end.

(** Modelled from the spec: the undo function [build] returns, of the
    builder module that is not among the sources: it replays the undo
    functions in reverse under a fresh database transaction (section
    4.1). *)
Definition undoFn (undoFunctions : list (M unit)) : M unit :=
  db_transaction (sequence_ (reverse undoFunctions)).

(** Modelled from the spec: [TransactionBuilder.prototype.build], of the
    builder module that is not among the sources: it validates the
    zero-sum; on a dry run it returns the transaction without persisting
    it; else it persists the transaction with the builder's [committed]
    and its items (section 4.1).  What the post-transaction hooks save is
    not described, and they are not run here. *)
Definition build_spec (tb : TransactionBuilder.t) (type : string)
  : M (Transaction.t * (list (M unit) -> M unit)) :=
  (tid <- gets (fun db => 1 + Z.of_nat (size (DB.transactions db)))%Z ;;
   next <- gets (fun db => 1 + Z.of_nat (length (DB.transactionItems db)))%Z ;;
   let items :=
     imap (fun i => TransactionItem.set_row (next + Z.of_nat i) tid)
          (all_items tb) in
   txn <- lift (validateTxn (Transaction.mk tid (Some items))) ;;
   (if TransactionBuilder.dryRun tb then M_ret tt
    else
      modify (fun db =>
        DB.set_transactionItems (fun rows => rows ++ items)
          (DB.set_transactions
             <[tid := TransactionRow.mk (TransactionBuilder.committed tb)
                        (TransactionBuilder.description tb) type]>
             db))) ;;;
   M_ret (txn, undoFn))%M.

(** ** The checks within a tolerance, over binary64

    [validateTxn], [checkExpectedPrice], [generateRefundInfo] and
    [prepareTicketRefund] compare amounts within a tolerance, and what
    they decide near the tolerance depends on the rounding of each
    operation.  They are embedded here a second time, statement by
    statement as above, every operation on numbers being the one of
    [Binary64].  A number handed in stands for the binary64 number
    nearest to it. *)

Module Rounded.

(** The iteratee of [_.sumBy] in [validateTxn]. *)
Definition signedAmount (item : TransactionItem.t) : num :=
  let debit := TransactionItem.debit item in
  let credit := TransactionItem.credit item in
  if Binary64.truthy debit then Binary64.parseFloat debit
  else if Binary64.truthy credit then Num.neg (Binary64.parseFloat credit)
  else Num.zero.

Definition sumOfDebit (items : list TransactionItem.t) : num :=
  Binary64.sumBy items signedAmount.

Definition validateTxn (txn : Transaction.t) : result Transaction.t :=
  match Transaction.transactionItems txn with
  | None => Throw (AssertionError "items")
  | Some items =>
      (assert (forallb (fun i => Binary64.truthy (TransactionItem.itemId i)) items)
              "_.every(items, 'itemId')" ;;;
       let sumOfDebit := sumOfDebit items in
       if (Num.abs sumOfDebit >? Binary64.lit 0.000001)%num then
         Throw (Error
           "Transaction does not add up to zero. This is usually a programming mistake")
       else Ok txn)%result
  end.

(** What [checkExpectedPrice] compares the expected price with: the debit
    of the first payment line, zero when there is none. *)
Definition paid (payment : list TransactionItem.t) : num :=
  Binary64.parseFloat (match head payment with
                       | Some paymentItem => TransactionItem.debit paymentItem
                       | None => VNum Num.zero
                       end).

Definition checkExpectedPrice (tb : TransactionBuilder.t) (price : value)
  : result unit :=
  if strict_eq price VNull then Ok tt
  else
    let price := Binary64.parseFloat price in
    match TransactionBuilder.transactionItemsByType tb !! "payment" with
    | None => Throw (TypeError "Cannot read property '0' of undefined")
    | Some payment =>
        let paymentItem := head payment in
        TransactionError_assert
          (Num.abs
             (Binary64.sub price
                (Binary64.parseFloat (match paymentItem with
                                      | Some paymentItem =>
                                          TransactionItem.debit paymentItem
                                      | None => VNum Num.zero
                                      end)))
           <? Binary64.lit 0.001)%num
          "The price has changed since you last viewed it"
    end.

(** [ticketSale.credit - ticket.notes.discountValue], as
    [prepareTicketRefund] computes it. *)
Definition priceAfterDiscount (ticketSale : TransactionItem.t) (ticket : Ticket.t)
  : num :=
  Binary64.sub
    (Binary64.ToNumber (TransactionItem.credit ticketSale))
    (Binary64.ToNumber (lodash.get_notes (Ticket.notes ticket) "discountValue"
                          (VNum Num.zero))).

Section Refunds.
Context {gateway : PaymentGateway} {auth : Auth} {builder : Builder} {env : Env}.

Definition generateRefundInfo (paymentItem : option PaymentRow.t) (amount : num)
    (isMicro : value) (idempotencyKey : string) : result (RefundInfo.t Source) :=
  let amount := Binary64.number amount in
  match paymentItem with
  | None => Throw (TypeError "Cannot read property 'paymentResource' of null")
  | Some paymentItem =>
      (charge <- retrieveCharge (PaymentRow.paymentResource paymentItem) ;;
       let balanceAmtCents :=
         Binary64.sub (Charge.amount charge) (Charge.amount_refunded charge) in
       let refundAmtCents :=
         Binary64.round (Binary64.mul amount (Binary64.lit 100)) in
       let isLocalAndNonAmex := isLocalAndNonAmex (Charge.source charge) in
       TransactionError_assert
         (balanceAmtCents
          >=? Binary64.sub (Binary64.mul amount (Binary64.lit 100))
                (Binary64.lit 0.1))%num
         "Requested refund exceeds amount paid for ticket" ;;;
       let updatedBalance := Binary64.sub balanceAmtCents refundAmtCents in
       let processingFee :=
         Binary64.div
           (Binary64.sub
              (calculateAdminFeeInCents balanceAmtCents isMicro isLocalAndNonAmex)
              (calculateAdminFeeInCents updatedBalance isMicro isLocalAndNonAmex))
           (Binary64.lit 100) in
       Ok (RefundInfo.mk processingFee charge isMicro balanceAmtCents amount
             idempotencyKey))%result
  end.

Definition prepareTicketRefund (options : TicketRefundOptions.t)
  : M (Transaction.t * M unit * RefundInfo.t Source) :=
  let targetAmt := Binary64.number (TicketRefundOptions.targetAmt options) in
  let ticketId := TicketRefundOptions.ticketId options in
  let credentials := TicketRefundOptions.credentials options in
  (lift (assert (Num.truthy targetAmt && negb (ticketId =? 0)%Z)
           "db && m && targetAmt && ticketId && credentials") ;;;
   db_transaction (
   (* ensure that all tickets are valid *)
   ticket <- Ticket_findById ticketId ;;
   match ticket with
   | None => throw (TypeError "Cannot read property 'status' of null")
   | Some ticket =>
   (* check if ticket is eligible for refunds *)
   lift (TransactionError_assert
           (String.eqb (Ticket.status ticket) "valid"
            || String.eqb (Ticket.status ticket) "void")
           "Trying to refund a non-valid ticket") ;;;
   (* Find the associated company, check if user is authorised *)
   companies <- query_ticket_company (Ticket.id ticket) ;;
   match head companies with
   | None => throw (TypeError "Cannot read property 'id' of undefined")
   | Some company =>
   lift (assertAdminRole credentials "refund" company) ;;;
   (* Reverse search from ticket id *)
   ticketSale <- TransactionItem_find_item (Ticket.id ticket) "ticketSale" ;;
   match ticketSale with
   | None =>
       throw (TransactionError
         "Cannot refund/void a ticket that was not sold - ticketSale not found")
   | Some ticketSale =>
   relatedTIs <- related_items ticketSale ;;
   match relatedTIs with
   | None => throw (TypeError "Cannot read property 'transactionItems' of null")
   | Some relatedTIs =>
   let transactionItemsByType :=
     lodash.groupBy relatedTIs TransactionItem.itemType in
   (* Attempt to refund only if some some payment was made *)
   match transactionItemsByType !! "payment" with
   | None => throw (AssertionError "transactionItemsByType.payment")
   | Some payments =>
   match payments with
   | [payment0] =>
   lift (TransactionError_assert
           (Binary64.ToNumber (TransactionItem.debit payment0) >? Num.zero)%num
           "No payment was made for this transaction") ;;;
   (* Check for previous partial refunds for this ticket *)
   refundTI <- committed_refunds (Ticket.id ticket) ;;
   let previouslyRefunded := Binary64.sum (map TransactionItem.debit refundTI) in
   let priceAfterDiscount := priceAfterDiscount ticketSale ticket in
   (* Enforce all or nothing refund *)
   lift (TransactionError_assert
           (Num.abs (Binary64.sub targetAmt priceAfterDiscount)
            <? Binary64.lit 0.0001)%num
           "Current implementation requires requested refund to equal ticket value after discounts") ;;;
   let possibleRefundAmt :=
     Binary64.sub priceAfterDiscount (Binary64.ToNumber previouslyRefunded) in
   (* can't refund more than a ticket is worth *)
   lift (TransactionError_assert
           (possibleRefundAmt >=? targetAmt)%num
           "Refund requested causes total refunded to exceed allowed refund amount") ;;;
   let transactionBuilder :=
     TransactionBuilder.new false true (Some (refund_creator credentials)) in
   let transactionBuilder :=
     TransactionBuilder.push_hook _saveChangesToTickets transactionBuilder in
   let transactionBuilder :=
     TransactionBuilder.set_description
       ("Refund Payment for ticket " +:+ pretty (Ticket.id ticket))
       transactionBuilder in
   let transactionBuilder :=
     TransactionBuilder.set_byType "ticketRefund"
       [TransactionItem.set_notes
          (refund_notes (TransactionItem.transactionId ticketSale))
          (TransactionItem.plain "ticketRefund"
             (VNum (Num.of_Z (Ticket.id ticket))) (VNum targetAmt) VUndefined)]
       transactionBuilder in
   ticket <- Ticket_update_status ticket "refunded" ;;
   let transactionBuilder :=
     TransactionBuilder.push_undo (ticket_undo ticket) transactionBuilder in
   payment <- Payment_findById (TransactionItem.itemId payment0) ;;
   match head relatedTIs with
   | None => throw (TypeError "Cannot read property 'options' of undefined")
   | Some relatedTI0 =>
   stripeRefundInfo <- lift (generateRefundInfo payment targetAmt
       (options_isMicro VUndefined (TransactionItem.options relatedTI0))
       (refund_key "ticketId" (Ticket.id ticket))) ;;
   transactionBuilder <- refund transactionBuilder VNull
                           (VNum (Num.of_Z (Ticket.id ticket))) company
                           stripeRefundInfo ;;
   built <- build transactionBuilder "refundPayment" ;;
   let '(dbTransactionInstance, undoFn) := built in
   M_ret (dbTransactionInstance,
         undoFn (TransactionBuilder.undoFunctions transactionBuilder),
         stripeRefundInfo)
   end
   | _ => throw (AssertionError "transactionItemsByType.payment.length === 1")
   end end end end end end))%M.

(** A refund request reaches the two amount checks of
    [prepareTicketRefund]: the arguments are there, the ticket is found
    and is valid or void, its company is found and the caller may refund
    for it, the ticket's sale is found in a transaction that holds
    exactly one payment line, of a positive debit. *)
Definition reaches_refund_checks (options : TicketRefundOptions.t) (db : DB.t)
    (ticket : Ticket.t) (company : Z) (ticketSale : TransactionItem.t)
    (relatedTIs : list TransactionItem.t) (payment0 : TransactionItem.t) : Prop :=
  Num.truthy (Binary64.number (TicketRefundOptions.targetAmt options)) = true
  /\ TicketRefundOptions.ticketId options <> 0%Z
  /\ Ticket_findById (TicketRefundOptions.ticketId options) db
     = Ok (Some ticket, db)
  /\ (Ticket.status ticket = "valid" \/ Ticket.status ticket = "void")
  /\ (exists others,
        query_ticket_company (Ticket.id ticket) db = Ok (company :: others, db))
  /\ assertAdminRole (TicketRefundOptions.credentials options) "refund" company
     = Ok tt
  /\ TransactionItem_find_item (Ticket.id ticket) "ticketSale" db
     = Ok (Some ticketSale, db)
  /\ related_items ticketSale db = Ok (Some relatedTIs, db)
  /\ lodash.groupBy relatedTIs TransactionItem.itemType !! "payment"
     = Some [payment0]
  /\ (Binary64.ToNumber (TransactionItem.debit payment0) >? Num.zero)%num = true.

End Refunds.

End Rounded.


(** ** Notions of the statements *)

(** The ticketRefund line [prepareTicketRefund] books. *)
Definition ticketRefund_line (ticket : Ticket.t) (ticketSale : TransactionItem.t)
    (targetAmt : num) : TransactionItem.t :=
  TransactionItem.set_notes
    (refund_notes (TransactionItem.transactionId ticketSale))
    (TransactionItem.plain "ticketRefund" (VNum (Num.of_Z (Ticket.id ticket)))
       (VNum targetAmt) VUndefined).

(** The builder [prepareTicketRefund] hands to the gateway's [refund]:
    the ticketRefund line, the hook that saves the tickets and the undo
    function of the ticket, which is then marked refunded. *)
Definition ticketRefund_builder (credentials : Credentials.t) (ticket : Ticket.t)
    (ticketSale : TransactionItem.t) (targetAmt : num) : TransactionBuilder.t :=
  TransactionBuilder.push_undo
    (ticket_undo (Ticket.set_status "refunded" ticket))
    (TransactionBuilder.set_byType "ticketRefund"
       [ticketRefund_line ticket ticketSale targetAmt]
       (TransactionBuilder.set_description
          ("Refund Payment for ticket " +:+ pretty (Ticket.id ticket))
          (TransactionBuilder.push_hook _saveChangesToTickets
             (TransactionBuilder.new false true
                (Some (refund_creator credentials)))))).

(** The statement descriptor as the specification words it: the banned
    characters are dropped from the company descriptor, then its first
    ten characters are taken, the reference is appended and the whole is
    cut to 22 characters. *)
Definition statementDescriptor_spec (companyDescriptor : string)
    (transactionId : Z) : string :=
  substr0 22
    (substr0 10 (strip_banned companyDescriptor) +:+ ",Ref#"
     +:+ pretty transactionId).

(** A string that holds no banned character. *)
Fixpoint clean (s : string) : bool :=
  match s with
  | EmptyString => true
  | String c s' => negb (banned_char c) && clean s'
  end.

Section ChargeNotions.
Context {env : Env}.

(** A call of [chargeSale] gets past the assertions that stand before
    the charge: a payment description and a token or a saved card are
    given, the transaction holds exactly one payment line, [payment0],
    and one transfer line, the transfer names a company that is found,
    with a merchant id for the mode the process runs in and a descriptor
    that is a string. *)
Definition charge_ready (options : ChargeOptions.t) (db : DB.t)
    (payment0 : TransactionItem.t) (companyInfo : TransportCompany.t)
    (companyDescriptor : string) : Prop :=
  let txnGroups :=
    lodash.groupBy
      (default [] (Transaction.transactionItems (ChargeOptions.transaction options)))
      TransactionItem.itemType in
  truthy (ChargeOptions.paymentDescription options) = true
  /\ truthy (ChargeOptions.stripeToken options)
     || (truthy (ChargeOptions.customerId options)
         && truthy (ChargeOptions.sourceId options)) = true
  /\ txnGroups !! "payment" = Some [payment0]
  /\ (exists transfer0 busCompanyId,
        txnGroups !! "transfer" = Some [transfer0]
        /\ TransactionItem.transfer transfer0 = Some busCompanyId
        /\ key_of busCompanyId ≫= (DB.transportCompanies db !!.)
           = Some companyInfo)
  /\ truthy (if stripeIsLive then TransportCompany.clientId companyInfo
             else TransportCompany.sandboxId companyInfo) = true
  /\ (if truthy (TransportCompany.smsOpCode companyInfo)
      then TransportCompany.smsOpCode companyInfo
      else TransportCompany.name companyInfo) = VStr companyDescriptor.

End ChargeNotions.

Section BookingNotions.
Context {joi : Joi}.

(** The booking information a trip is checked against: what validation
    makes of the stored one, and the defaults when validation fails. *)
Definition bookingInfo_used (dbTrip : Trip.t) : BookingInfo.t :=
  default (BookingInfo.mk BookingInfo.stop Num.zero)
    (validate_bookingInfo
       (default (BookingInfo.mk_raw VUndefined VUndefined)
                (Trip.bookingInfo dbTrip))).


End BookingNotions.

(** A result that is a return or a TransactionError. *)
Definition business (r : result unit) : Prop :=
  r = Ok tt \/ exists msg, r = Throw (TransactionError msg).

Section OrderNotions.
Context {joi : Joi}.

(** The orders a builder holds. *)
Definition orders (tb : TransactionBuilder.t) : list TripOrder.t :=
  default [] (TransactionBuilder.lineItems tb).

(** Every order names a trip the builder has loaded. *)
Definition orders_loaded (tb : TransactionBuilder.t) : Prop :=
  Forall (fun order =>
            is_Some (TripOrder.tripId order
                     ≫= (TransactionBuilder.tripsById tb !!.)))
         (orders tb).

(** No trip of the builder is cancelled. *)
Definition all_running (tb : TransactionBuilder.t) : Prop :=
  map_Forall (fun _ trip => Trip.isRunning trip = true)
             (TransactionBuilder.tripsById tb).

(** The boarding and the alighting stop of every order are stops of its
    trip. *)
Definition all_stops_valid (tb : TransactionBuilder.t) : Prop :=
  Forall (fun order =>
            forall trip,
              TripOrder.tripId order ≫= (TransactionBuilder.tripsById tb !!.)
              = Some trip ->
              is_Some (findStop (Trip.tripStops trip) (TripOrder.boardStopId order))
              /\ is_Some (findStop (Trip.tripStops trip)
                            (TripOrder.alightStopId order)))
         (orders tb).

(** The transport companies of the builder's trips, each once. *)
Definition companies (tb : TransactionBuilder.t) : list Z :=
  remove_dups (map (fun e : Z * Trip.t => Trip.transportCompanyId e.2)
                   (entries (TransactionBuilder.tripsById tb))).

End OrderNotions.

(** ** Concrete inputs *)

(** A transaction whose one item debits exactly 0.000001. *)
Definition items_1e6 : list TransactionItem.t :=
  [TransactionItem.plain "payment" (VNum (Fin 1)) (VNum (Fin 0.000001)) VNull].

Definition txn_1e6 : Transaction.t := Transaction.mk 1 (Some items_1e6).

(** A balanced transaction, one of whose items carries no [itemId]. *)
Definition items_no_itemId : list TransactionItem.t :=
  [TransactionItem.plain "payment" (VNum (Fin 7)) (VStr "5.00") VNull;
   TransactionItem.plain "transfer" VNull VNull (VStr "5.00")].

Definition txn_no_itemId : Transaction.t :=
  Transaction.mk 2 (Some items_no_itemId).

(** A builder whose single payment line debits 15.00: the two-ticket sale
    of the specification's first scenario, once finalized. *)
Definition tb_paid_15 : TransactionBuilder.t :=
  TransactionBuilder.set_byType "payment"
    [TransactionItem.plain "payment" (VNum (Fin 7)) (VStr "15.00") VNull]
    (TransactionBuilder.new false false None).

(** A gateway for the examples.  It holds one charge, [ch_1], of 1500
    cents on a local card; the admin fee is 3.4% of the amount plus 50
    cents, rounded, and waived for micro payments; it charges nothing
    below 50 cents; a refund books one balancing credit line. *)
Definition demo_gateway : PaymentGateway := {|
  Source := string;
  retrieveCharge resource :=
    if strict_eq resource (VStr "ch_1")
    then Ok (Charge.mk (VStr "ch_1") (Fin 1500) (Fin 0) "local-visa")
    else Throw (Error "No such charge");
  isLocalAndNonAmex source := String.eqb source "local-visa";
  calculateAdminFeeInCents cents isMicro local :=
    if truthy isMicro then Num.zero
    else Num.round (cents * Fin 0.034 + Fin 50)%num;
  minTransactionChargeInCents := Fin 50;
  isMicro amount := VBool (ToNumber amount <=? Fin 1000)%num;
  chargeCard request :=
    Ok (ChargeResult.mk (VStr "ch_2")
          (VNum (Num.round (ToNumber (ChargeRequest.value request) * Fin 100))));
  refund tb _ _ _ info :=
    M_ret (TransactionBuilder.set_byType "refundPayment"
            [TransactionItem.plain "refundPayment" (VNum (Fin 1)) VUndefined
               (VNum (RefundInfo.amount info))]
            tb);
|}.

Definition demo_payment : PaymentRow.t :=
  PaymentRow.mk 7 (VStr "ch_1") NoData None.

Definition demo_auth : Auth := {|
  assertAdminRole credentials action companyId :=
    if String.eqb (Credentials.scope credentials) "superadmin" then Ok tt
    else Throw (Error "Forbidden");
|}.

Definition demo_builder : Builder := {| build := build_spec |}.

Definition demo_env : Env := {|
  TEST_IDEMPOTENCY := VStr "test";
  stripeIsLive := false;
|}.

Definition demo_credentials : Credentials.t :=
  Credentials.mk "superadmin" VUndefined (VStr "ops@example.com").

(** A database with one sold ticket, number 11: it was sold for 10.00
    less a discount of 2.00 in transaction 61, paid by payment 7, and has
    since been voided. *)
Definition demo_ticket (status : string) : Ticket.t :=
  Ticket.mk 11 status 5 21 (Some {[ "discountValue" := VNum (Fin 2) ]}).

Definition demo_routePass (status : string) : RoutePass.t :=
  RoutePass.mk 12 status 51 None.

Definition demo_sale_item : TransactionItem.t :=
  TransactionItem.mk (Some 1%Z) "ticketSale" (VNum (Fin 11)) VNull (VStr "10.00")
    (Some 61%Z) None None None None None.

Definition demo_pass_item : TransactionItem.t :=
  TransactionItem.mk (Some 3%Z) "routePass" (VNum (Fin 12)) VNull (VStr "4.00")
    (Some 61%Z) None None None None None.

Definition demo_payment_item : TransactionItem.t :=
  TransactionItem.mk (Some 2%Z) "payment" (VNum (Fin 7)) (VStr "12.00") VNull
    (Some 61%Z) None None (Some (VNum (Fin 7))) None None.

Definition demo_db (ticketStatus passStatus : string) : DB.t :=
  DB.mk {[ 11%Z := demo_ticket ticketStatus ]}
        {[ 12%Z := demo_routePass passStatus ]}
        {[ 61%Z := TransactionRow.mk true "sale" "ticketPurchase" ]}
        [demo_sale_item; demo_payment_item; demo_pass_item]
        {[ 7%Z := demo_payment ]}
        {[ 21%Z := 31%Z ]} {[ 31%Z := 41%Z ]} {[ 41%Z := 51%Z ]}
        {[ 51%Z := TransportCompany.mk (VStr "<Bus> Co") (VStr "Bus Company")
                   (VStr "acct_live") (VStr "acct_test") ]}.

(** Ticket 11 sold for 5.60 less a discount of 1.12, paid by payment 7. *)
Definition demo_db_discounted : DB.t :=
  DB.mk {[ 11%Z := Ticket.mk 11 "valid" 5 21
                     (Some {[ "discountValue" := VNum (Fin 1.12) ]}) ]}
        ∅
        {[ 61%Z := TransactionRow.mk true "sale" "ticketPurchase" ]}
        [TransactionItem.mk (Some 1%Z) "ticketSale" (VNum (Fin 11)) VNull
           (VStr "5.60") (Some 61%Z) None None None None None;
         TransactionItem.mk (Some 2%Z) "payment" (VNum (Fin 7)) (VStr "4.48")
           VNull (Some 61%Z) None None (Some (VNum (Fin 7))) None None]
        {[ 7%Z := demo_payment ]}
        {[ 21%Z := 31%Z ]} {[ 31%Z := 41%Z ]} {[ 41%Z := 51%Z ]}
        {[ 51%Z := TransportCompany.mk (VStr "<Bus> Co") (VStr "Bus Company")
                   (VStr "acct_live") (VStr "acct_test") ]}.

Definition demo_ticket_refund : TicketRefundOptions.t :=
  TicketRefundOptions.mk (Fin 8) 11 demo_credentials.

Definition demo_pass_refund (status : string) : RoutePassRefundOptions.t :=
  RoutePassRefundOptions.mk demo_credentials demo_pass_item
    (demo_routePass status).

(** The status of a ticket and of a route pass in a database. *)
Definition ticket_status (db : DB.t) (i : Z) : option string :=
  Ticket.status <$> DB.tickets db !! i.

Definition routePass_status (db : DB.t) (i : Z) : option string :=
  RoutePass.status <$> DB.routePasses db !! i.

(** A workflow run, then the undo function it returned: the database
    after the one and after the other. *)
Definition run_then_undo {A B} (workflow : M (A * M unit * B)) (db : DB.t)
  : option (DB.t * DB.t) :=
  match workflow db with
  | Ok ((_, undo, _), db1) =>
      match undo db1 with
      | Ok (_, db2) => Some (db1, db2)
      | Throw _ => None
      end
  | Throw _ => None
  end.

(** The statuses of ticket 11 and of route pass 12 before a workflow,
    after it, and after the undo function it returned. *)
Definition statuses_around {A B} (workflow : M (A * M unit * B)) (db : DB.t)
  : option (list (option string * option string)) :=
  (fun after =>
     map (fun d => (ticket_status d 11, routePass_status d 12))
         [db; after.1; after.2])
  <$> run_then_undo workflow db.

(** A sale of 12.00 to company 51, to be charged to a card token. *)
Definition demo_transfer_item : TransactionItem.t :=
  TransactionItem.mk (Some 4%Z) "transfer" (VNum (Fin 9)) VNull (VStr "12.00")
    (Some 61%Z) None None None (Some (VNum (Fin 51))) None.

Definition demo_charge (debit : value) : ChargeOptions.t :=
  ChargeOptions.mk
    (Transaction.mk 61
       (Some [demo_sale_item;
              TransactionItem.mk (Some 2%Z) "payment" (VNum (Fin 7)) debit VNull
                (Some 61%Z) None None (Some (VNum (Fin 7))) None None;
              demo_transfer_item]))
    (VNum (Fin 1700000000)) (VStr "2 tickets") (VStr "tok_visa") VUndefined
    VUndefined.

(** Joi for the examples: a window type is "stop", "firstStop" or left
    out; a window size is a number other than NaN, a string that converts
    to one, or left out. *)
Definition demo_joi : Joi := {|
  validate_bookingInfo raw :=
    windowType ←
      match BookingInfo.raw_windowType raw with
      | VUndefined => Some BookingInfo.stop
      | VStr s =>
          if String.eqb s "stop" then Some BookingInfo.stop
          else if String.eqb s "firstStop" then Some BookingInfo.firstStop
          else None
      | _ => None
      end;
    windowSize ←
      match BookingInfo.raw_windowSize raw with
      | VUndefined => Some Num.zero
      | VNum n => if Num.is_nan n then None else Some n
      | VStr s =>
          if Num.is_nan (StrNum.to_number s) then None
          else Some (StrNum.parseFloat s)
      | _ => None
      end;
    Some (BookingInfo.mk windowType windowSize)
|}.

(** A trip of company 51 with stops 1, 2 and 3 at 09:00, 09:10 and 09:30
    of some day (in milliseconds), bookable until ten minutes before the
    stop; user 5 holds a valid ticket from stop 1. *)
Definition demo_trip (bookingInfo : option BookingInfo.raw) : Trip.t :=
  Trip.mk 31 true
    [TripStop.mk 1 (Fin 32400000) [demo_ticket "valid"];
     TripStop.mk 2 (Fin 33000000) [];
     TripStop.mk 3 (Fin 34200000) []]
    bookingInfo 51.

Definition demo_window (windowType : string) : option BookingInfo.raw :=
  Some (BookingInfo.mk_raw (VStr windowType) (VNum (Fin (-600000)))).

Definition demo_order (board alight : Z) : TripOrder.t :=
  TripOrder.mk (Some 31%Z) (Some board) (Some alight) 6.

(** A builder with the demo trip and, beside it, a trip of the given
    company that runs or not; one order, between the given stops. *)
Definition demo_tb (running : bool) (company board alight : Z)
  : TransactionBuilder.t :=
  TransactionBuilder.mk [] ∅
    {[ 31%Z := demo_trip None;
       32%Z := Trip.mk 32 running [] None company ]}
    (Some [demo_order board alight]) [] [] "" None false false.

Definition no_checks : CheckOptions.t := CheckOptions.mk false false false.

(** Of the three flags, the booking window alone. *)
Definition window_only : CheckOptions.t := CheckOptions.mk false false true.

(** The fourth scenario of the specification: a cart of one ticket with
    0.30 outstanding. *)
Definition demo_small_sale : TransactionItem.t :=
  TransactionItem.mk None "ticketSale" (VNum (Fin 11)) VUndefined
    (VNum (Fin (3 # 10))) None (Some {[ "outstanding" := VNum (Fin (3 # 10)) ]})
    None None None None.

Definition tb_small : TransactionBuilder.t :=
  TransactionBuilder.set_items
    [LineItem.mk (demo_ticket "pending") demo_small_sale]
    (TransactionBuilder.set_byType "ticketSale" [demo_small_sale]
       (TransactionBuilder.new false false None)).

(** A gateway whose [chargeCard] declines every card; the rest is the
    gateway of the examples. *)
Definition demo_gateway_declining : PaymentGateway := {|
  Source := string;
  retrieveCharge := retrieveCharge (PaymentGateway := demo_gateway);
  isLocalAndNonAmex := isLocalAndNonAmex (PaymentGateway := demo_gateway);
  calculateAdminFeeInCents :=
    calculateAdminFeeInCents (PaymentGateway := demo_gateway);
  minTransactionChargeInCents := Fin 50;
  isMicro := isMicro (PaymentGateway := demo_gateway);
  chargeCard _ := Throw (Error "Your card was declined.");
  refund := refund (PaymentGateway := demo_gateway);
|}.

(** A sale to be charged to a saved card, with or without a token. *)
Definition demo_charge_saved (stripeToken : value) : ChargeOptions.t :=
  ChargeOptions.mk (ChargeOptions.transaction (demo_charge (VStr "12.00")))
    (VNum (Fin 1700000000)) (VStr "2 tickets") stripeToken (VStr "cus_1")
    (VStr "card_1").

(** * Vehicles: the handler of [POST /vehicles] in
    [src/lib/endpoints/vehicles.js]

    The Vehicle model of Sequelize is taken as a record of the two
    operations the handler calls, over the table they read and write. *)

Module Vehicles.

(** [request.auth.credentials], as far as the handler reads it. *)
Module Credentials.
Record t : Type := mk {
  scope : value;
  driverId : value;
}.
End Credentials.

(** [request.payload], validated: a field left out is [undefined]. *)
Module Payload.
Record t : Type := mk {
  vehicleNumber : value;
  driverId : value;
}.
End Payload.

(** A row of the Vehicle table. *)
Module Vehicle.
Record t : Type := mk {
  id : Z;
  vehicleNumber : value;
  driverId : value;
}.
End Vehicle.

(** What the handler replies: the vehicle as JSON, or the 400 of
    [Boom.badRequest] with its message. *)
Inductive Reply : Type :=
| Json (vehicle : Vehicle.t)
| badRequest (msg : string).

(** [m.Vehicle]: [findOne({ where: { vehicleNumber, driverId } })] and
    [create(payload)], and the rows a table holds. *)
Class VehicleModel : Type := {
  Table : Type;
  rows : Table -> list Vehicle.t;
  findOne : value -> value -> Table -> result (option Vehicle.t);
  create : Payload.t -> Table -> result (Vehicle.t * Table);
}.

Section Handler.
Context {model : VehicleModel}.

(** The handler of [POST /vehicles]: the reply, and the table it
    leaves. *)
Definition post_vehicles (credentials : Credentials.t) (payload : Payload.t)
    (table : Table) : Reply * Table :=
  let attempt : result (Vehicle.t * Table) :=
    (payload <-
       (if strict_eq (Credentials.scope credentials) (VStr "driver") then
          Ok (Payload.mk (Payload.vehicleNumber payload)
                (Credentials.driverId credentials))
        else
          match Payload.driverId payload with
          | VUndefined => Throw (Error "Must define driver ID")
          | _ => Ok payload
          end) ;;
     (* check for existing vehicles with same number *)
     existing <- findOne (Payload.vehicleNumber payload)
                   (Payload.driverId payload) table ;;
     match existing with
     | Some _ => Throw (Error "Vehicle with this vehicle number already exists")
     | None =>
         (* otherwise create the vehicle *)
         create payload table
     end)%result in
  match attempt with
  | Ok (vehicle, table') => (Json vehicle, table')
  | Throw err => (badRequest (message err), table)
  end.

End Handler.

(** The number and the driver of a vehicle: what [POST /vehicles] looks
    an existing vehicle up by. *)
Definition key (vehicle : Vehicle.t) : value * value :=
  (Vehicle.vehicleNumber vehicle, Vehicle.driverId vehicle).

(** What the handler relies on from the model: [findOne] returns a row
    of the table that has the number and the driver asked for, and
    returns none only when there is none; [create] adds one row, with
    the number and the driver of the payload. *)
Record lawful (model : VehicleModel) : Prop := {
  findOne_sound : forall number driver table vehicle,
    findOne number driver table = Ok (Some vehicle) ->
    vehicle ∈ rows table /\ key vehicle = (number, driver);
  findOne_complete : forall number driver table,
    findOne number driver table = Ok None ->
    forall vehicle, vehicle ∈ rows table -> key vehicle <> (number, driver);
  create_adds : forall payload table vehicle table',
    create payload table = Ok (vehicle, table') ->
    rows table' ≡ₚ vehicle :: rows table
    /\ key vehicle = (Payload.vehicleNumber payload, Payload.driverId payload);
}.

#[global] Instance Q_eq_dec : EqDecision Q.
Proof. solve_decision. Defined.
#[global] Instance num_eq_dec : EqDecision num.
Proof. solve_decision. Defined.
#[global] Instance value_eq_dec : EqDecision value.
Proof. solve_decision. Defined.

(** A table as the list of its rows, for the examples: a new row takes
    the next id. *)
Definition list_model : VehicleModel := {|
  Table := list Vehicle.t;
  rows table := table;
  findOne number driver table :=
    Ok (head (filter (fun vehicle => key vehicle = (number, driver)) table));
  create payload table :=
    let vehicle :=
      Vehicle.mk (1 + Z.of_nat (length table)) (Payload.vehicleNumber payload)
        (Payload.driverId payload) in
    Ok (vehicle, table ++ [vehicle]);
|}.

Definition demo_table : list Vehicle.t :=
  [Vehicle.mk 1 (VStr "SBS1234A") (VNum (Fin 9))].

End Vehicles.

(** * Properties *)

(** ** Samples *)

Example parse_samples :
  map StrNum.parseFloat ["15.00"; " -0.5e1x"; ".5"; "1."; "1e"; "abc"; "0.000001"]
  = [Fin 15; Fin (-5); Fin (1 # 2); Fin 1; Fin 1; NaN; Fin (1 # 1000000)].
Proof. vm_compute. reflexivity. Qed.

Example number_samples :
  map StrNum.to_number ["15.00"; " 12 "; ""; "12px"; "-Infinity"; "1e-3"]
  = [Fin 15; Fin 12; Fin 0; NaN; NegInf; Fin (1 # 1000)].
Proof. vm_compute. reflexivity. Qed.

Example to_string_samples :
  map Num.to_string [Fin 15; Fin (-3 # 2); Fin 0.000125; NaN]
  = ["15"; "-1.5"; "0.000125"; "NaN"].
Proof. vm_compute. reflexivity. Qed.

Example sum_samples :
  map lodash.sum [[]; [VNum (Fin 5); VNum (Fin 2.5)]; [VStr "5.00"];
                  [VStr "5.00"; VStr "5.00"]; [VNum (Fin 1); VStr "2"]]
  = [VNum (Fin 0); VNum (Fin (15 # 2)); VStr "5.00"; VStr "5.005.00"; VStr "12"].
Proof. vm_compute. reflexivity. Qed.

(** ** Numbers: order and arithmetic *)

Lemma Qcompare_Qred_l (a b : Q) : (Qred a ?= b) = (a ?= b).
Proof. apply Qcompare_comp; [apply Qred_correct | reflexivity]. Qed.

Lemma Qcompare_Qred_r (a b : Q) : (a ?= Qred b) = (a ?= b).
Proof. apply Qcompare_comp; [reflexivity | apply Qred_correct]. Qed.

Lemma ltb_Fin (a b : Q) : (Fin a <? Fin b)%num = true <-> a < b.
Proof.
  unfold Num.ltb. rewrite Qlt_alt. destruct (a ?= b); split; congruence.
Qed.

Lemma leb_Fin (a b : Q) : (Fin a <=? Fin b)%num = true <-> a <= b.
Proof.
  unfold Num.leb. rewrite Qle_alt. destruct (a ?= b); split; congruence.
Qed.

Lemma ltb_Fin_false (a b : Q) : (Fin a <? Fin b)%num = false <-> b <= a.
Proof.
  rewrite <- not_true_iff_false, ltb_Fin. split; [apply Qnot_lt_le | apply Qle_not_lt].
Qed.

Lemma leb_Fin_false (a b : Q) : (Fin a <=? Fin b)%num = false <-> b < a.
Proof.
  rewrite <- not_true_iff_false, leb_Fin. split; [apply Qnot_le_lt | apply Qlt_not_le].
Qed.

(** For numbers other than NaN, [x < y] fails exactly when [y <= x]. *)
Lemma ltb_false_iff_leb (x y : num) :
  x <> NaN -> y <> NaN -> (x <? y)%num = false <-> (y <=? x)%num = true.
Proof.
  intros Hx Hy. destruct x as [| |a|], y as [| |b|]; try congruence;
    try (simpl; split; congruence).
  rewrite ltb_Fin_false, leb_Fin. reflexivity.
Qed.

Lemma leb_false_iff_ltb (x y : num) :
  x <> NaN -> y <> NaN -> (x <=? y)%num = false <-> (y <? x)%num = true.
Proof.
  intros Hx Hy. destruct x as [| |a|], y as [| |b|]; try congruence;
    try (simpl; split; congruence).
  rewrite leb_Fin_false, ltb_Fin. reflexivity.
Qed.

(** A comparison that holds has no NaN operand. *)
Lemma ltb_true_not_nan (x y : num) : (x <? y)%num = true -> x <> NaN /\ y <> NaN.
Proof. destruct x, y; simpl; intros; split; congruence. Qed.

Lemma leb_true_not_nan (x y : num) : (x <=? y)%num = true -> x <> NaN /\ y <> NaN.
Proof. destruct x, y; simpl; intros; split; congruence. Qed.

Lemma abs_nan_iff (x : num) : Num.abs x = NaN <-> x = NaN.
Proof. destruct x; simpl; split; congruence. Qed.

(** ** Binary64 arithmetic *)

(** The differences, products and sums that decide the checks below, as
    JavaScript prints them. *)
Example binary64_samples :
  map Binary64.to_string
    [Binary64.sub (Fin 5.6) (Fin 1.12);
     Binary64.sub (Fin 15.001) (Fin 15);
     Binary64.mul (Fin 1.025) (Fin 100);
     Binary64.sub (Fin 2.000001) (Fin 2);
     Binary64.sub (Fin 8.0001) (Fin 8);
     Binary64.add (Fin 0.1) (Fin 0.2);
     Binary64.lit 0.000001;
     Binary64.ToNumber (VStr "1e400");
     Binary64.sub (Binary64.ToNumber (VStr "1e400")) (Binary64.ToNumber (VStr "2e400"));
     Binary64.lit 1e21;
     Binary64.lit 123456789]
  = ["4.4799999999999995"; "0.0009999999999994458"; "102.49999999999999";
     "0.000001000000000139778"; "0.00009999999999976694";
     "0.30000000000000004"; "0.000001"; "Infinity"; "NaN"; "1e+21";
     "123456789"].
Proof. vm_compute. reflexivity. Qed.

(** The literals of the checks. *)
Lemma lit_not_nan (q : Q) : Binary64.lit q <> NaN.
Proof.
  unfold Binary64.lit, Binary64.nearest.
  destruct (_ =? _)%Z; [discriminate|].
  destruct (Binary64.scale2 _ _ _) as [n m].
  destruct (_ <=? _)%Z; [destruct (_ <? _)%Z|]; discriminate.
Qed.

(** For a number [x] and a literal [y], [x < y] fails exactly when
    [x >= y] or [x] is NaN. *)
Lemma ltb_false_iff (x y : num) :
  y <> NaN ->
  (x <? y)%num = false <-> (x >=? y)%num = true \/ x = NaN.
Proof.
  intros Hy. unfold Num.geb. destruct (decide (x = NaN)) as [->|Hx].
  - simpl. tauto.
  - rewrite (ltb_false_iff_leb x y Hx Hy). tauto.
Qed.


(** The operations of [Binary64] against the binary64 numbers of the
    kernel, at amounts of the ledger. *)
Module Binary64Facts.
Import PrimFloat.

#[warnings="-inexact-float"]
Example agrees_with_primitive_floats :
  [Binary64.sub (Fin 5.6) (Fin 1.12); Binary64.mul (Fin 1.025) (Fin 100);
   Binary64.sub (Fin 15.001) (Fin 15); Binary64.add (Fin 0.1) (Fin 0.2);
   Binary64.div (Fin 14) (Fin 100); Binary64.sub (Fin 2.000001) (Fin 2);
   Binary64.sub (Fin 8.0001) (Fin 8); Binary64.sub (Fin 8.00005) (Fin 8);
   Binary64.sub (Binary64.mul (Fin 15.01) (Fin 100)) (Fin 0.1);
   Binary64.div (Fin 1) (Fin 3); Binary64.div (Fin 2) (Fin 3);
   Binary64.mul (Fin 4.35) (Fin 100); Binary64.mul (Fin 1.005) (Fin 1000);
   Binary64.mul (Fin 0.1) (Fin 3); Binary64.add (Fin 0.7) (Fin 0.1);
   Binary64.sub (Fin (-5.6)) (Fin 1.12);
   Binary64.mul (Fin 1e200) (Fin 1e200);
   Binary64.mul (Fin (-1e200)) (Fin 1e200);
   Binary64.mul (Fin 1e-200) (Fin 1e-200);
   Binary64.div (Fin 5e-324) (Fin 2); Binary64.div (Fin 1.5e-323) (Fin 2);
   Binary64.add (Fin 9007199254740992) (Fin 1);
   Binary64.add (Fin 9007199254740992) (Fin 3);
   Binary64.add (Fin 1.7976931348623157e308) (Fin 1e292);
   Binary64.div (Fin 1) (Fin 0); Binary64.div (Fin 0) (Fin 0)]
  = map Binary64.of_float
      [5.6 - 1.12; 1.025 * 100; 15.001 - 15; 0.1 + 0.2; 14 / 100;
       2.000001 - 2; 8.0001 - 8; 8.00005 - 8; 15.01 * 100 - 0.1; 1 / 3;
       2 / 3; 4.35 * 100; 1.005 * 1000; 0.1 * 3; 0.7 + 0.1; -5.6 - 1.12;
       1e200 * 1e200; -1e200 * 1e200; 1e-200 * 1e-200; 5e-324 / 2;
       1.5e-323 / 2; 9007199254740992 + 1; 9007199254740992 + 3;
       1.7976931348623157e308 + 1e292; 1 / 0; 0 / 0]%float.
Proof. vm_compute. reflexivity. Qed.

(** Decimal literals are read as the kernel reads them. *)
#[warnings="-inexact-float"]
Example literals_agree_with_primitive_floats :
  map Binary64.lit
    [0.000001; 0.0001; 0.001; 0.1; 100; 0.7; 4.48; 8.00005; 2.000001; 1e21;
     1e23; 123456789.123456789; 1.7976931348623157e308; 1.7976931348623159e308;
     2.2250738585072014e-308; 1e-320; 4.9e-324; 2.4e-324; 1e400; -1e400]
  = map Binary64.of_float
      [0.000001; 0.0001; 0.001; 0.1; 100; 0.7; 4.48; 8.00005; 2.000001; 1e21;
       1e23; 123456789.123456789; 1.7976931348623157e308;
       1.7976931348623159e308; 2.2250738585072014e-308; 1e-320; 4.9e-324;
       2.4e-324; 1e400; -1e400]%float.
Proof. vm_compute. reflexivity. Qed.

End Binary64Facts.

(** ** [validateTxn]: the zero-sum check *)

Lemma assert_ok (cond : bool) (msg : string) : assert cond msg = Ok tt <-> cond = true.
Proof. destruct cond; simpl; split; congruence. Qed.

Lemma TransactionError_assert_ok (cond : bool) (msg : string) :
  TransactionError_assert cond msg = Ok tt <-> cond = true.
Proof. destruct cond; simpl; split; congruence. Qed.

Lemma TransactionError_assert_throw (cond : bool) (msg : string) (e : exn) :
  TransactionError_assert cond msg = Throw e <->
  cond = false /\ e = TransactionError msg.
Proof. destruct cond; simpl; split; [congruence| intros []; congruence | | ]; intuition congruence. Qed.

(** C1, as the claim states it, fails, on two counts.  The transaction
    whose single item debits 0.000001 has an absolute signed sum that is
    not below 1e-6, and is accepted.  A transaction that adds up to zero
    and holds an item without [itemId] is not accepted. *)
Lemma validateTxn_accepts_sum_at_tolerance :
  (Rounded.validateTxn txn_1e6 = Ok txn_1e6
   /\ (Num.abs (Rounded.sumOfDebit items_1e6) <? Binary64.lit 0.000001)%num
      = false)
  /\ (Rounded.sumOfDebit items_no_itemId = Fin 0
      /\ Rounded.validateTxn txn_no_itemId
         = Throw (AssertionError "_.every(items, 'itemId')")).
Proof. vm_compute. auto. Qed.

(** C1, amended: [validateTxn] throws an AssertionError when the
    transaction has no items or one of its items has a falsy [itemId].
    Otherwise, for a signed sum (computed in binary64; an item counts
    for its debit when that is truthy, else for minus its credit) that
    is a number, it accepts the transaction, returning it unchanged,
    exactly when the absolute value of the sum is at most 1e-6, and
    throws an Error exactly when it is more than 1e-6. *)
Theorem validateTxn_zero_sum (txn : Transaction.t) :
  (Transaction.transactionItems txn = None ->
   Rounded.validateTxn txn = Throw (AssertionError "items"))
  /\ (forall items,
        Transaction.transactionItems txn = Some items ->
        (forallb (fun i => Binary64.truthy (TransactionItem.itemId i)) items
         = false ->
         Rounded.validateTxn txn
         = Throw (AssertionError "_.every(items, 'itemId')"))
        /\ (forallb (fun i => Binary64.truthy (TransactionItem.itemId i)) items
            = true ->
            Rounded.sumOfDebit items <> NaN ->
            (Rounded.validateTxn txn = Ok txn <->
             (Num.abs (Rounded.sumOfDebit items) <=? Binary64.lit 0.000001)%num
             = true)
            /\ ((exists msg, Rounded.validateTxn txn = Throw (Error msg)) <->
                (Num.abs (Rounded.sumOfDebit items) >? Binary64.lit 0.000001)%num
                = true)
            /\ (forall txn', Rounded.validateTxn txn = Ok txn' -> txn' = txn))).
Proof.
  unfold Rounded.validateTxn. split; [by intros ->|].
  intros items ->. split; intros ->; [reflexivity|]. intros Hsum.
  cbn [assert rbind]. unfold Num.gtb.
  assert ((Binary64.lit 0.000001 <? Num.abs (Rounded.sumOfDebit items))%num
          = false <->
          (Num.abs (Rounded.sumOfDebit items) <=? Binary64.lit 0.000001)%num
          = true) as Hiff.
  { apply ltb_false_iff_leb; [apply lit_not_nan|by rewrite abs_nan_iff]. }
  destruct (Binary64.lit 0.000001 <? Num.abs (Rounded.sumOfDebit items))%num.
  - split; [|split].
    + split; [discriminate|]. intros H. by apply Hiff in H.
    + split; eauto.
    + discriminate.
  - split; [|split].
    + split; [intros _; by apply Hiff|done].
    + split; [intros [msg [=]]|discriminate].
    + by intros txn' [= <-].
Qed.

(** The transaction whose single item debits 0.000001 is within the
    tolerance and is accepted. *)
Lemma validateTxn_zero_sum_witness :
  (Rounded.validateTxn txn_1e6 = Ok txn_1e6 <->
   (Num.abs (Rounded.sumOfDebit items_1e6) <=? Binary64.lit 0.000001)%num = true)
  /\ ((exists msg, Rounded.validateTxn txn_1e6 = Throw (Error msg)) <->
      (Num.abs (Rounded.sumOfDebit items_1e6) >? Binary64.lit 0.000001)%num = true)
  /\ (forall txn', Rounded.validateTxn txn_1e6 = Ok txn' -> txn' = txn_1e6).
Proof.
  apply (proj2 (validateTxn_zero_sum txn_1e6) items_1e6 eq_refl).
  - vm_compute. reflexivity.
  - vm_compute. discriminate.
Defined.

(** Next to the tolerance, the rounding of the subtractions decides: a
    debit of 2.000001 against a credit of 2 leaves a little more than
    1e-6 and is turned down; a debit of 1e400 reads as infinity, and
    against a credit of 2e400 leaves NaN, which no comparison turns
    down. *)
Example validateTxn_near_tolerance :
  let txn debit credit :=
    Transaction.mk 3
      (Some [TransactionItem.plain "payment" (VNum (Fin 7)) (VStr debit) VNull;
             TransactionItem.plain "ticketSale" (VNum (Fin 11)) VNull
               (VStr credit)]) in
  Rounded.validateTxn (txn "2.000001" "2")
  = Throw (Error
      "Transaction does not add up to zero. This is usually a programming mistake")
  /\ Rounded.validateTxn (txn "1e400" "2e400") = Ok (txn "1e400" "2e400")
  /\ Rounded.validateTxn (txn "0.3" "0.3") = Ok (txn "0.3" "0.3").
Proof. vm_compute. auto. Qed.

(** ** [checkExpectedPrice] *)

Lemma checkExpectedPrice_unfold (tb : TransactionBuilder.t) (price : value)
    (payment : list TransactionItem.t) :
  strict_eq price VNull = false ->
  TransactionBuilder.transactionItemsByType tb !! "payment" = Some payment ->
  Rounded.checkExpectedPrice tb price =
    TransactionError_assert
      (Num.abs (Binary64.sub (Binary64.parseFloat price) (Rounded.paid payment))
       <? Binary64.lit 0.001)%num
      "The price has changed since you last viewed it".
Proof.
  intros Hnull Hpay. unfold Rounded.checkExpectedPrice, Rounded.paid.
  rewrite Hnull, Hpay. reflexivity.
Qed.

(** C7, as the claim states it, fails: an expected price that is not
    null and holds no number (here [undefined], as when the caller
    leaves it out, and a string that is no numeral) raises the
    price-changed error, though the difference, NaN, is not 1e-3 or
    more. *)
Lemma checkExpectedPrice_rejects_nan :
  Rounded.checkExpectedPrice tb_paid_15 VUndefined
  = Throw (TransactionError "The price has changed since you last viewed it")
  /\ Rounded.checkExpectedPrice tb_paid_15 (VStr "S$15")
     = Throw (TransactionError "The price has changed since you last viewed it")
  /\ (Num.abs (Binary64.sub (Binary64.parseFloat VUndefined)
                 (Binary64.parseFloat (VStr "15.00")))
      >=? Binary64.lit 0.001)%num = false
  /\ (Num.abs (Binary64.sub (Binary64.parseFloat (VStr "S$15"))
                 (Binary64.parseFloat (VStr "15.00")))
      >=? Binary64.lit 0.001)%num = false.
Proof. vm_compute. auto. Qed.

(** C7, amended: when the expected price is not null, the check fails
    with the price-changed TransactionError exactly when the absolute
    difference between the expected price and the debit of the payment
    line, computed in binary64, is 1e-3 or more or is not a number, and
    passes exactly when it is below 1e-3; when the expected price is
    null the check is skipped, whatever the builder holds. *)
Theorem checkExpectedPrice_spec (tb : TransactionBuilder.t) (price : value)
    (payment : list TransactionItem.t) :
  strict_eq price VNull = false ->
  TransactionBuilder.transactionItemsByType tb !! "payment" = Some payment ->
  let difference :=
    Num.abs (Binary64.sub (Binary64.parseFloat price) (Rounded.paid payment)) in
  (Rounded.checkExpectedPrice tb price
     = Throw (TransactionError "The price has changed since you last viewed it")
   <-> (difference >=? Binary64.lit 0.001)%num = true \/ difference = NaN)
  /\ (Rounded.checkExpectedPrice tb price = Ok tt
      <-> (difference <? Binary64.lit 0.001)%num = true)
  /\ (forall tb', Rounded.checkExpectedPrice tb' VNull = Ok tt).
Proof.
  intros Hnull Hpay difference.
  rewrite (checkExpectedPrice_unfold tb price payment Hnull Hpay).
  fold difference.
  rewrite TransactionError_assert_ok, TransactionError_assert_throw.
  rewrite (ltb_false_iff difference _ (lit_not_nan 0.001)).
  repeat split; tauto.
Qed.

(** The first scenario of the specification: against a payment of 15.00,
    an expected price of 14.99 raises. *)
Lemma checkExpectedPrice_spec_witness :
  Rounded.checkExpectedPrice tb_paid_15 (VNum (Fin 14.99))
  = Throw (TransactionError "The price has changed since you last viewed it").
Proof.
  pose proof (checkExpectedPrice_spec tb_paid_15 (VNum (Fin 14.99))
                [TransactionItem.plain "payment" (VNum (Fin 7)) (VStr "15.00")
                   VNull]
                eq_refl eq_refl) as H.
  cbv zeta in H. destruct H as (H & _ & _). apply H.
  left. vm_compute. reflexivity.
Defined.

(** Around the tolerance: 15.00 passes and 14.99 raises, as in the first
    scenario of the specification; 15.0009 passes; 15.001 passes too,
    the difference [15.001 - 15] being 0.0009999999999994458 in
    binary64; 15.0011 raises. *)
Example checkExpectedPrice_scenario_1 :
  map (fun price => Rounded.checkExpectedPrice tb_paid_15 (VNum (Fin price)))
    [15; 14.99; 15.0009; 15.001; 15.0011]
  = [Ok tt;
     Throw (TransactionError "The price has changed since you last viewed it");
     Ok tt; Ok tt;
     Throw (TransactionError "The price has changed since you last viewed it")].
Proof. vm_compute. reflexivity. Qed.

(** ** [generateRefundInfo] *)

Section RefundInfoFacts.
Context {gateway : PaymentGateway}.

(** C8, amended: for a payment whose charge the gateway returns, with
    the balance [charge.amount - charge.amount_refunded],
    [generateRefundInfo] throws a TransactionError when
    [balance >= amount * 100 - 0.1] does not hold in binary64, which is
    when the balance is below [amount * 100 - 0.1] or one of the two is
    not a number; and otherwise returns the refund information whose
    processing fee is
    [(fee(balance) - fee(balance - round(amount * 100))) / 100], the fee
    being [calculateAdminFeeInCents] at [isMicro] and
    [isLocalAndNonAmex(charge.source)]. *)
Theorem generateRefundInfo_spec (paymentItem : PaymentRow.t) (amount : num)
    (isMicro : value) (idempotencyKey : string) (charge : Charge.t Source) :
  let amount' := Binary64.number amount in
  let balanceAmtCents :=
    Binary64.sub (Charge.amount charge) (Charge.amount_refunded charge) in
  let needed :=
    Binary64.sub (Binary64.mul amount' (Binary64.lit 100)) (Binary64.lit 0.1) in
  let fee (cents : num) :=
    calculateAdminFeeInCents cents isMicro
      (isLocalAndNonAmex (Charge.source charge)) in
  retrieveCharge (PaymentRow.paymentResource paymentItem) = Ok charge ->
  ((balanceAmtCents >=? needed)%num = false <->
   (balanceAmtCents <? needed)%num = true
   \/ balanceAmtCents = NaN \/ needed = NaN)
  /\ ((balanceAmtCents >=? needed)%num = false ->
      Rounded.generateRefundInfo (Some paymentItem) amount isMicro idempotencyKey
      = Throw (TransactionError "Requested refund exceeds amount paid for ticket"))
  /\ ((balanceAmtCents >=? needed)%num = true ->
      Rounded.generateRefundInfo (Some paymentItem) amount isMicro idempotencyKey
      = Ok (RefundInfo.mk
              (Binary64.div
                 (Binary64.sub
                    (fee balanceAmtCents)
                    (fee (Binary64.sub balanceAmtCents
                            (Binary64.round
                               (Binary64.mul amount' (Binary64.lit 100))))))
                 (Binary64.lit 100))
              charge isMicro balanceAmtCents amount' idempotencyKey)).
Proof.
  intros amount' balanceAmtCents needed fee Hcharge. split; [|split].
  - unfold Num.geb.
    destruct (decide (balanceAmtCents = NaN)) as [->|Hbalance];
      [destruct needed; simpl; tauto|].
    destruct (decide (needed = NaN)) as [->|Hneeded];
      [destruct balanceAmtCents; simpl; tauto|].
    rewrite (leb_false_iff_ltb needed balanceAmtCents Hneeded Hbalance). tauto.
  - intros Hless. unfold Rounded.generateRefundInfo. rewrite Hcharge.
    cbn [rbind]. fold amount' balanceAmtCents needed. by rewrite Hless.
  - intros Henough. unfold Rounded.generateRefundInfo. rewrite Hcharge.
    cbn [rbind]. fold amount' balanceAmtCents needed. by rewrite Henough.
Qed.

End RefundInfoFacts.

(** C8, as the claim states it, fails: for an amount that is not a
    number the balance of 1500 cents is not below [amount * 100 - 0.1],
    and no refund information is returned. *)
Lemma generateRefundInfo_rejects_nan :
  Rounded.generateRefundInfo (gateway := demo_gateway) (Some demo_payment) NaN
    VUndefined "key"
  = Throw (TransactionError "Requested refund exceeds amount paid for ticket")
  /\ (Binary64.sub (Fin 1500) (Fin 0)
      <? Binary64.sub (Binary64.mul NaN (Binary64.lit 100)) (Binary64.lit 0.1))%num
     = false.
Proof. vm_compute. auto. Qed.

(** A refund of 4.00 against the charge of 1500 cents gives back
    [(fee(1500) - fee(1100)) / 100 = (101 - 87) / 100] in fees. *)
Lemma generateRefundInfo_spec_witness :
  Rounded.generateRefundInfo (gateway := demo_gateway) (Some demo_payment) (Fin 4)
    VUndefined "key"
  = Ok (RefundInfo.mk (Binary64.lit 0.14)
          (Charge.mk (VStr "ch_1") (Fin 1500) (Fin 0) "local-visa")
          VUndefined (Fin 1500) (Fin 4) "key").
Proof.
  pose proof (generateRefundInfo_spec (gateway := demo_gateway) demo_payment
                (Fin 4) VUndefined "key"
                (Charge.mk (VStr "ch_1") (Fin 1500) (Fin 0) "local-visa")
                eq_refl) as H.
  cbv zeta in H. destruct H as (_ & _ & H).
  rewrite H by (vm_compute; reflexivity).
  vm_compute. reflexivity.
Defined.

(** An amount of 1.025 is 102.49999999999999 cents in binary64, and 102
    cents are taken off the balance of 1500: the fee given back is
    [(fee(1500) - fee(1398)) / 100 = (101 - 98) / 100].  An amount of
    15.01 exceeds the balance. *)
Example generateRefundInfo_rounds :
  Rounded.generateRefundInfo (gateway := demo_gateway) (Some demo_payment)
    (Fin 1.025) VUndefined "key"
  = Ok (RefundInfo.mk (Binary64.lit 0.03)
          (Charge.mk (VStr "ch_1") (Fin 1500) (Fin 0) "local-visa")
          VUndefined (Fin 1500) (Binary64.lit 1.025) "key")
  /\ Binary64.round (Binary64.mul (Fin 1.025) (Fin 100)) = Fin 102
  /\ Rounded.generateRefundInfo (gateway := demo_gateway) (Some demo_payment)
       (Fin 15.01) VUndefined "key"
     = Throw (TransactionError "Requested refund exceeds amount paid for ticket").
Proof. vm_compute. auto. Qed.

(** ** The refund workflows *)

(** *** Undoing a refund *)

(** The undo function that [prepareRoutePassRefund] records writes back
    the status the route pass had: the row is as it was before the
    refund. *)
Lemma routePass_undo_restores (db : DB.t) (routePass : RoutePass.t) :
  DB.routePasses db !! RoutePass.id routePass = Some routePass ->
  exists routePass' db1 db2,
    RoutePass_update_status routePass "refunded" db = Ok (routePass', db1)
    /\ routePass_status db1 (RoutePass.id routePass) = Some "refunded"
    /\ routePass_undo routePass' (RoutePass.status routePass) db1 = Ok (tt, db2)
    /\ DB.routePasses db2 !! RoutePass.id routePass = Some routePass.
Proof.
  intros Hrow. eexists _, _, _. split; [reflexivity|].
  split; [|split; [reflexivity|]].
  - unfold routePass_status. simpl. by rewrite lookup_alter_eq, Hrow.
  - simpl. rewrite !lookup_alter_eq, Hrow. by destruct routePass.
Qed.

(** The undo function that [prepareTicketRefund] records writes "valid",
    whatever the status of the ticket was. *)
Lemma ticket_undo_writes_valid (db : DB.t) (ticket : Ticket.t) :
  DB.tickets db !! Ticket.id ticket = Some ticket ->
  exists ticket' db1 db2,
    Ticket_update_status ticket "refunded" db = Ok (ticket', db1)
    /\ ticket_status db1 (Ticket.id ticket) = Some "refunded"
    /\ ticket_undo ticket' db1 = Ok (tt, db2)
    /\ ticket_status db2 (Ticket.id ticket) = Some "valid".
Proof.
  intros Hrow. eexists _, _, _. split; [reflexivity|].
  split; [|split; [reflexivity|]]; unfold ticket_status; simpl.
  - by rewrite lookup_alter_eq, Hrow.
  - by rewrite !lookup_alter_eq, Hrow.
Qed.

(** C3, where the code departs from the claim: ticket 11 is void; its
    refund succeeds and marks it refunded; the undo function the refund
    returned leaves it valid, not void.  Route pass 12 is untouched. *)
Theorem prepareTicketRefund_undo_void_ticket :
  statuses_around
    (prepareTicketRefund (gateway := demo_gateway) (auth := demo_auth)
       (builder := demo_builder) (env := demo_env) demo_ticket_refund)
    (demo_db "void" "expired")
  = Some [(Some "void", Some "expired");
          (Some "refunded", Some "expired");
          (Some "valid", Some "expired")].
Proof. vm_compute. reflexivity. Qed.

(** The same round trip on a valid ticket, and on a route pass in each
    status that may be refunded: the prior status comes back. *)
Example refund_undo_round_trips :
  statuses_around
    (prepareTicketRefund (gateway := demo_gateway) (auth := demo_auth)
       (builder := demo_builder) (env := demo_env) demo_ticket_refund)
    (demo_db "valid" "valid")
  = Some [(Some "valid", Some "valid"); (Some "refunded", Some "valid");
          (Some "valid", Some "valid")]
  /\ Forall
       (fun status =>
          statuses_around
            (prepareRoutePassRefund (gateway := demo_gateway)
               (builder := demo_builder) (env := demo_env)
               (demo_pass_refund status))
            (demo_db "valid" status)
          = Some [(Some "valid", Some status); (Some "valid", Some "refunded");
                  (Some "valid", Some status)])
       ["valid"; "void"; "expired"].
Proof. split; [|repeat constructor]; vm_compute; reflexivity. Qed.

(** *** The amount checks of [prepareTicketRefund] *)

Lemma M_bind_ok {A B} (c : M A) (k : A -> M B) (db db' : DB.t) (a : A) :
  c db = Ok (a, db') -> M_bind c k db = k a db'.
Proof. unfold M_bind. by intros ->. Qed.

Lemma M_bind_lift {A B} (r : result A) (k : A -> M B) (db : DB.t) :
  M_bind (lift r) k db = match r with Ok a => k a db | Throw e => Throw e end.
Proof. unfold M_bind, lift. by destruct r. Qed.

Lemma M_bind_inv {A B} (c : M A) (k : A -> M B) (db db' : DB.t) (b : B) :
  M_bind c k db = Ok (b, db') ->
  exists a db1, c db = Ok (a, db1) /\ k a db1 = Ok (b, db').
Proof.
  unfold M_bind. destruct (c db) as [[a db1]|e]; [eauto | discriminate].
Qed.

Section RefundFacts.
Context {gateway : PaymentGateway} {auth : Auth} {builder : Builder} {env : Env}.

(** What is left of [prepareTicketRefund] once the request has reached
    the amount checks. *)
Lemma prepareTicketRefund_at_checks (options : TicketRefundOptions.t) (db : DB.t)
    (ticket : Ticket.t) (company : Z) (ticketSale : TransactionItem.t)
    (relatedTIs : list TransactionItem.t) (payment0 : TransactionItem.t)
    (refundTI : list TransactionItem.t) :
  Rounded.reaches_refund_checks options db ticket company ticketSale relatedTIs
    payment0 ->
  committed_refunds (Ticket.id ticket) db = Ok (refundTI, db) ->
  let targetAmt := Binary64.number (TicketRefundOptions.targetAmt options) in
  Rounded.prepareTicketRefund options db =
    match
      TransactionError_assert
        (Num.abs (Binary64.sub targetAmt
                    (Rounded.priceAfterDiscount ticketSale ticket))
         <? Binary64.lit 0.0001)%num
        "Current implementation requires requested refund to equal ticket value after discounts"
    with
    | Ok _ =>
        match
          TransactionError_assert
            (Binary64.sub (Rounded.priceAfterDiscount ticketSale ticket)
               (Binary64.ToNumber
                  (Binary64.sum (map TransactionItem.debit refundTI)))
             >=? targetAmt)%num
            "Refund requested causes total refunded to exceed allowed refund amount"
        with
        | Ok _ =>
            (ticket' <- Ticket_update_status ticket "refunded" ;;
             payment <- Payment_findById (TransactionItem.itemId payment0) ;;
             match head relatedTIs with
             | Some relatedTI0 =>
                 stripeRefundInfo <- lift (Rounded.generateRefundInfo payment targetAmt
                     (options_isMicro VUndefined (TransactionItem.options relatedTI0))
                     (refund_key "ticketId" (Ticket.id ticket'))) ;;
                 transactionBuilder <-
                   refund
                     (TransactionBuilder.push_undo (ticket_undo ticket')
                        (TransactionBuilder.set_byType "ticketRefund"
                           [ticketRefund_line ticket ticketSale targetAmt]
                           (TransactionBuilder.set_description
                              ("Refund Payment for ticket " +:+ pretty (Ticket.id ticket))
                              (TransactionBuilder.push_hook _saveChangesToTickets
                                 (TransactionBuilder.new false true
                                    (Some (refund_creator
                                             (TicketRefundOptions.credentials options))))))))
                     VNull (VNum (Num.of_Z (Ticket.id ticket'))) company
                     stripeRefundInfo ;;
                 built <- build transactionBuilder "refundPayment" ;;
                 M_ret (built.1,
                       built.2 (TransactionBuilder.undoFunctions transactionBuilder),
                       stripeRefundInfo)
             | None =>
                 throw (TypeError "Cannot read property 'options' of undefined")
             end)%M db
        | Throw e => Throw e
        end
    | Throw e => Throw e
    end.
Proof.
  intros (Htarget & Hid & Hticket & Hstatus & [others Hcompany] & Hauth & Hsale
          & Hrelated & Hpayment & Hpaid) Hrefunds targetAmt.
  unfold Rounded.prepareTicketRefund, db_transaction.
  rewrite M_bind_lift, Htarget.
  apply Z.eqb_neq in Hid. rewrite Hid. cbn [assert andb negb].
  rewrite (M_bind_ok _ _ _ _ _ Hticket), M_bind_lift.
  assert ((Ticket.status ticket =? "valid")%string
          || (Ticket.status ticket =? "void")%string = true) as ->
    by (destruct Hstatus as [-> | ->]; reflexivity).
  cbn [TransactionError_assert].
  rewrite (M_bind_ok _ _ _ _ _ Hcompany). cbn [head].
  rewrite M_bind_lift, Hauth.
  rewrite (M_bind_ok _ _ _ _ _ Hsale), (M_bind_ok _ _ _ _ _ Hrelated), Hpayment.
  rewrite M_bind_lift, Hpaid. cbn [TransactionError_assert].
  rewrite (M_bind_ok _ _ _ _ _ Hrefunds), M_bind_lift.
  fold targetAmt.
  destruct (TransactionError_assert _ _); [|reflexivity].
  rewrite M_bind_lift.
  destruct (TransactionError_assert _ _); [|reflexivity].
  unfold M_bind. destruct (Ticket_update_status ticket "refunded" db) as [[? ?]|];
    [|reflexivity].
  destruct (Payment_findById _ _) as [[? ?]|]; [|reflexivity].
  destruct (head relatedTIs); [|reflexivity].
  destruct (lift _ _) as [[? ?]|]; [|reflexivity].
  destruct (refund _ _ _ _ _ _) as [[? ?]|]; [|reflexivity].
  destruct (build _ _ _) as [[[? ?] ?]|]; reflexivity.
Qed.

(** C2, amended: for a refund request that reaches the amount checks,
    with the amounts computed in binary64, [prepareTicketRefund] throws
    a TransactionError when the target amount differs from
    [ticketSale.credit - ticket.notes.discountValue] by 1e-4 or more
    (or the difference is not a number), and throws a TransactionError
    when the target amount exceeds that price less what was refunded
    before, with no tolerance (or the comparison has a NaN operand);
    whenever it returns, both checks have passed and the builder it
    hands to the gateway's [refund], whose result [build] turns into the
    refund transaction, holds one ticketRefund line, whose debit is the
    target amount; and when both checks pass it does return, with what
    [build] makes of that builder, as soon as the charge is retrieved
    and the gateway's [refund] and the builder's [build] return. *)
Theorem prepareTicketRefund_amount_checks (options : TicketRefundOptions.t)
    (db : DB.t) (ticket : Ticket.t) (company : Z)
    (ticketSale : TransactionItem.t) (relatedTIs : list TransactionItem.t)
    (payment0 : TransactionItem.t) (refundTI : list TransactionItem.t) :
  Rounded.reaches_refund_checks options db ticket company ticketSale relatedTIs
    payment0 ->
  committed_refunds (Ticket.id ticket) db = Ok (refundTI, db) ->
  let targetAmt := Binary64.number (TicketRefundOptions.targetAmt options) in
  let priceAfterDiscount := Rounded.priceAfterDiscount ticketSale ticket in
  let previouslyRefunded :=
    Binary64.ToNumber (Binary64.sum (map TransactionItem.debit refundTI)) in
  let difference := Num.abs (Binary64.sub targetAmt priceAfterDiscount) in
  let possibleRefundAmt := Binary64.sub priceAfterDiscount previouslyRefunded in
  ((difference >=? Binary64.lit 0.0001)%num = true \/ difference = NaN ->
   Rounded.prepareTicketRefund options db
   = Throw (TransactionError
       "Current implementation requires requested refund to equal ticket value after discounts"))
  /\ ((difference <? Binary64.lit 0.0001)%num = true ->
      (targetAmt >? possibleRefundAmt)%num = true
      \/ targetAmt = NaN \/ possibleRefundAmt = NaN ->
      Rounded.prepareTicketRefund options db
      = Throw (TransactionError
          "Refund requested causes total refunded to exceed allowed refund amount"))
  /\ (forall txn undo info db',
        Rounded.prepareTicketRefund options db = Ok ((txn, undo, info), db') ->
        (difference <? Binary64.lit 0.0001)%num = true
        /\ (possibleRefundAmt >=? targetAmt)%num = true
        /\ exists tb db1 tb' db2 undoFn,
             TransactionBuilder.transactionItemsByType tb !! "ticketRefund"
             = Some [ticketRefund_line ticket ticketSale targetAmt]
             /\ TransactionItem.debit (ticketRefund_line ticket ticketSale targetAmt)
                = VNum targetAmt
             /\ refund tb VNull (VNum (Num.of_Z (Ticket.id ticket))) company info db1
                = Ok (tb', db2)
             /\ build tb' "refundPayment" db2 = Ok ((txn, undoFn), db'))
  /\ (forall ticket' db1 payment relatedTI0 info tb' db2 txn undoFn db',
        (difference <? Binary64.lit 0.0001)%num = true ->
        (possibleRefundAmt >=? targetAmt)%num = true ->
        Ticket_update_status ticket "refunded" db = Ok (ticket', db1) ->
        Payment_findById (TransactionItem.itemId payment0) db1
        = Ok (payment, db1) ->
        head relatedTIs = Some relatedTI0 ->
        Rounded.generateRefundInfo payment targetAmt
          (options_isMicro VUndefined (TransactionItem.options relatedTI0))
          (refund_key "ticketId" (Ticket.id ticket))
        = Ok info ->
        refund
          (ticketRefund_builder (TicketRefundOptions.credentials options)
             ticket ticketSale targetAmt)
          VNull (VNum (Num.of_Z (Ticket.id ticket))) company info db1
        = Ok (tb', db2) ->
        build tb' "refundPayment" db2 = Ok ((txn, undoFn), db') ->
        TransactionBuilder.transactionItemsByType
          (ticketRefund_builder (TicketRefundOptions.credentials options)
             ticket ticketSale targetAmt) !! "ticketRefund"
        = Some [ticketRefund_line ticket ticketSale targetAmt]
        /\ Rounded.prepareTicketRefund options db
           = Ok ((txn, undoFn (TransactionBuilder.undoFunctions tb'), info), db')).
Proof.
  intros Hreach Hrefunds targetAmt pAD prev difference possible.
  rewrite (prepareTicketRefund_at_checks _ _ _ _ _ _ _ _ Hreach Hrefunds).
  fold targetAmt pAD prev difference possible.
  split; [|split; [|split]].
  4:{ intros ticket' db1 payment relatedTI0 info tb' db2 txn undoFn db'
        Hequal Hbound Hupdate Hfind Hhead Hinfo Hrefund Hbuild.
      split; [reflexivity|].
      rewrite Hequal, Hbound. cbn [TransactionError_assert].
      rewrite (M_bind_ok _ _ _ _ _ Hupdate), (M_bind_ok _ _ _ _ _ Hfind), Hhead.
      injection Hupdate as <- <-.
      change (Ticket.id (Ticket.set_status "refunded" ticket))
        with (Ticket.id ticket).
      rewrite M_bind_lift, Hinfo.
      unfold ticketRefund_builder in Hrefund.
      rewrite (M_bind_ok _ _ _ _ _ Hrefund), (M_bind_ok _ _ _ _ _ Hbuild).
      reflexivity. }
  - intros Hdiffers.
    apply (ltb_false_iff difference _ (lit_not_nan 0.0001)) in Hdiffers.
    by rewrite Hdiffers.
  - intros Hequal Hexceeds. rewrite Hequal. cbn [TransactionError_assert].
    assert ((possible >=? targetAmt)%num = false) as ->; [|reflexivity].
    unfold Num.geb, Num.gtb in *.
    destruct Hexceeds as [Hexceeds | [-> | ->]].
    + destruct (ltb_true_not_nan _ _ Hexceeds).
      by apply leb_false_iff_ltb.
    + reflexivity.
    + by destruct targetAmt.
  - intros txn undo info db'.
    destruct (difference <? Binary64.lit 0.0001)%num;
      cbn [TransactionError_assert]; [|intros [=]].
    destruct (possible >=? targetAmt)%num;
      cbn [TransactionError_assert]; [|intros [=]].
    intros Hrun. split; [reflexivity|]. split; [reflexivity|].
    apply M_bind_inv in Hrun as (ticket' & db1 & Hupdate & Hrun).
    apply M_bind_inv in Hrun as (payment & db2 & Hfind & Hrun).
    destruct (head relatedTIs) as [relatedTI0|]; [|discriminate].
    apply M_bind_inv in Hrun as (info' & db3 & Hinfo & Hrun).
    apply M_bind_inv in Hrun as (tb' & db4 & Hrefund & Hrun).
    apply M_bind_inv in Hrun as ([txn' undoFn] & db5 & Hbuild & Hrun).
    injection Hrun as <- <- <- <-.
    injection Hupdate as <- <-.
    eexists _, _, _, _, _. split; [|split; [reflexivity|]].
    2:{ split; [exact Hrefund | exact Hbuild]. }
    reflexivity.
Qed.

End RefundFacts.

(** C2, as the claim states it, fails: ticket 11 was sold for 10.00 less
    a discount of 2.00, and nothing was refunded before.  A refund of
    8.00005 differs from the price after discount by less than 1e-4 and
    does not take the total refunded beyond that price plus 1e-4, so
    both conditions of the claim pass; there is no refund transaction,
    the request is turned down. *)
Lemma prepareTicketRefund_rejects_within_tolerance :
  Rounded.prepareTicketRefund (gateway := demo_gateway) (auth := demo_auth)
    (builder := demo_builder) (env := demo_env)
    (TicketRefundOptions.mk (Fin 8.00005) 11 demo_credentials)
    (demo_db "valid" "valid")
  = Throw (TransactionError
      "Refund requested causes total refunded to exceed allowed refund amount")
  /\ committed_refunds 11 (demo_db "valid" "valid")
     = Ok ([], demo_db "valid" "valid")
  /\ (Num.abs
        (Binary64.sub (Binary64.lit 8.00005)
           (Rounded.priceAfterDiscount demo_sale_item (demo_ticket "valid")))
      >=? Binary64.lit 0.0001)%num = false
  /\ (Binary64.add (Binary64.ToNumber (Binary64.sum []))
        (Binary64.lit 8.00005)
      >? Binary64.add
           (Rounded.priceAfterDiscount demo_sale_item (demo_ticket "valid"))
           (Binary64.lit 0.0001))%num = false.
Proof. vm_compute. auto. Qed.

(** The fifth scenario of the specification: a ticket sold for 10.00 with
    a discount of 2.00 is not refunded 7.00. *)
Lemma prepareTicketRefund_amount_checks_witness :
  Rounded.prepareTicketRefund (gateway := demo_gateway) (auth := demo_auth)
    (builder := demo_builder) (env := demo_env)
    (TicketRefundOptions.mk (Fin 7) 11 demo_credentials)
    (demo_db "valid" "valid")
  = Throw (TransactionError
      "Current implementation requires requested refund to equal ticket value after discounts").
Proof.
  assert (Rounded.reaches_refund_checks (auth := demo_auth)
            (TicketRefundOptions.mk (Fin 7) 11 demo_credentials)
            (demo_db "valid" "valid") (demo_ticket "valid") 51 demo_sale_item
            [demo_sale_item; demo_payment_item; demo_pass_item]
            demo_payment_item) as Hreach.
  { unfold Rounded.reaches_refund_checks.
    repeat split; try (vm_compute; reflexivity); try (vm_compute; discriminate).
    - left. reflexivity.
    - exists []. vm_compute. reflexivity. }
  pose proof (prepareTicketRefund_amount_checks
                (gateway := demo_gateway) (auth := demo_auth)
                (builder := demo_builder) (env := demo_env)
                (TicketRefundOptions.mk (Fin 7) 11 demo_credentials)
                (demo_db "valid" "valid") (demo_ticket "valid") 51
                demo_sale_item
                [demo_sale_item; demo_payment_item; demo_pass_item]
                demo_payment_item [] Hreach) as H.
  cbv zeta in H. apply H.
  - vm_compute. reflexivity.
  - left. vm_compute. reflexivity.
Defined.

(** The refund of 8.00 goes through, with the fee of the gateway. *)
Example prepareTicketRefund_demo :
  (fun r => match r with
            | Ok ((txn, _, info), db) =>
                Some (Transaction.id txn, RefundInfo.processingFee info,
                      ticket_status db 11)
            | Throw e => None
            end)
    (Rounded.prepareTicketRefund (gateway := demo_gateway) (auth := demo_auth)
       (builder := demo_builder) (env := demo_env) demo_ticket_refund
       (demo_db "valid" "valid"))
  = Some (2%Z, Binary64.lit 0.27, Some "refunded").
Proof. vm_compute. reflexivity. Qed.

(** Next to the tolerance the rounding decides.  A refund of 8.0001
    passes the first check, [8.0001 - 8] being 0.00009999999999976694,
    and fails the second; one of 8.0002 fails the first.  For ticket 11
    sold for 5.60 less a discount of 1.12 the price after discount is
    4.4799999999999995, and a refund of 4.48 exceeds it. *)
Example prepareTicketRefund_near_tolerance :
  let run targetAmt db :=
    match
      Rounded.prepareTicketRefund (gateway := demo_gateway) (auth := demo_auth)
        (builder := demo_builder) (env := demo_env)
        (TicketRefundOptions.mk targetAmt 11 demo_credentials) db
    with
    | Ok _ => None
    | Throw e => Some e
    end in
  run (Fin 8.0001) (demo_db "valid" "valid")
  = Some (TransactionError
      "Refund requested causes total refunded to exceed allowed refund amount")
  /\ run (Fin 8.0002) (demo_db "valid" "valid")
     = Some (TransactionError
         "Current implementation requires requested refund to equal ticket value after discounts")
  /\ run (Fin 4.48) demo_db_discounted
     = Some (TransactionError
         "Refund requested causes total refunded to exceed allowed refund amount")
  /\ run (Fin 7.9999) (demo_db "valid" "valid") = None.
Proof. vm_compute. auto. Qed.

(** A second refund of the same ticket, once a committed refund of 8.00
    is on record, is turned down by the check on the amount still
    refundable. *)
Example prepareTicketRefund_twice :
  (fun r => match r with
            | Ok (_, db1) =>
                match Rounded.prepareTicketRefund (gateway := demo_gateway)
                        (auth := demo_auth) (builder := demo_builder)
                        (env := demo_env) demo_ticket_refund
                        (DB.set_tickets (fun _ => {[ 11%Z := demo_ticket "valid" ]}) db1)
                with
                | Ok _ => None
                | Throw e => Some e
                end
            | Throw e => None
            end)
    (Rounded.prepareTicketRefund (gateway := demo_gateway) (auth := demo_auth)
       (builder := demo_builder) (env := demo_env) demo_ticket_refund
       (demo_db "valid" "valid"))
  = Some (TransactionError
      "Refund requested causes total refunded to exceed allowed refund amount").
Proof. vm_compute. reflexivity. Qed.

(** ** The statement descriptor *)

Lemma substr0_length (n : nat) (s : string) :
  (String.length (substr0 n s) <= n)%nat.
Proof.
  revert s. induction n as [|n IH]; intros [|c s]; simpl; try lia.
  specialize (IH s). lia.
Qed.

Lemma substr0_clean (n : nat) (s : string) :
  clean s = true -> clean (substr0 n s) = true.
Proof.
  revert s. induction n as [|n IH]; intros [|c s]; simpl; try done.
  intros [Hc Hs]%andb_true_iff. rewrite Hc. by apply IH.
Qed.

Lemma strip_banned_clean (s : string) : clean (strip_banned s) = true.
Proof.
  induction s as [|c s IH]; simpl; [done|].
  destruct (banned_char c) eqn:Hc; simpl; [done|]. by rewrite Hc.
Qed.

Lemma strip_banned_id (s : string) : clean s = true -> strip_banned s = s.
Proof.
  induction s as [|c s IH]; simpl; [done|].
  intros [Hc Hs]%andb_true_iff. apply negb_true_iff in Hc. rewrite Hc.
  by rewrite IH.
Qed.

Lemma clean_app (s t : string) : clean (s +:+ t) = clean s && clean t.
Proof.
  induction s as [|c s IH]; simpl; [done|]. by rewrite IH, andb_assoc.
Qed.

Lemma strip_banned_app (s t : string) :
  strip_banned (s +:+ t) = strip_banned s +:+ strip_banned t.
Proof.
  induction s as [|c s IH]; simpl; [done|].
  destruct (banned_char c); simpl; by rewrite IH.
Qed.

(** The decimal numeral of an integer holds no banned character. *)
Lemma pretty_N_char_clean (d : N) : banned_char (pretty_N_char d) = false.
Proof. unfold pretty_N_char. by repeat case_match. Qed.

Lemma pretty_N_go_clean (x : N) (s : string) :
  clean s = true -> clean (pretty_N_go x s) = true.
Proof.
  revert s. induction (N.lt_wf_0 x) as [x _ IH]. intros s Hs.
  destruct (decide (x = 0%N)) as [->|Hx]; [by rewrite pretty_N_go_0|].
  rewrite pretty_N_go_step by lia. apply IH.
  - apply N.div_lt; lia.
  - simpl. by rewrite pretty_N_char_clean.
Qed.

Lemma pretty_N_clean (x : N) : clean (pretty x) = true.
Proof.
  unfold pretty, pretty_N. case_decide; [done|]. by apply pretty_N_go_clean.
Qed.

Lemma pretty_Z_clean (z : Z) : clean (pretty z) = true.
Proof.
  destruct z as [|p|p]; unfold pretty, pretty_Z; [done| |].
  - apply pretty_N_clean.
  - rewrite clean_app. simpl. apply pretty_N_clean.
Qed.

(** C6, as the claim states it, fails: the claim drops the banned
    characters before it takes the first ten characters of the company
    descriptor; [chargeSale] takes the first ten characters first, so a
    descriptor with a banned character among its first ten gives a
    shorter prefix. *)
Lemma statementDescriptor_differs_from_spec :
  statementDescriptor "<Bus> Company" 7 = "Bus Comp,Ref#7"
  /\ statementDescriptor_spec "<Bus> Company" 7 = "Bus Compan,Ref#7"
  /\ statementDescriptor "<Bus> Company" 7
     <> statementDescriptor_spec "<Bus> Company" 7.
Proof. vm_compute. repeat split; discriminate. Qed.

(** C6, amended: the statement descriptor is the first 22 characters of
    [companyDescriptor.substr(0, 10) + ",Ref#" + transaction.id] with the
    banned characters dropped after the string is formed; it has at most
    22 characters and none of the banned ones; and it is the descriptor
    the specification words whenever the company descriptor holds no
    banned character. *)
Theorem statementDescriptor_props (companyDescriptor : string)
    (transactionId : Z) :
  statementDescriptor companyDescriptor transactionId
  = substr0 22 (strip_banned (substr0 10 companyDescriptor +:+ ",Ref#"
                              +:+ pretty transactionId))
  /\ (String.length (statementDescriptor companyDescriptor transactionId) <= 22)%nat
  /\ clean (statementDescriptor companyDescriptor transactionId) = true
  /\ (clean companyDescriptor = true ->
      statementDescriptor companyDescriptor transactionId
      = statementDescriptor_spec companyDescriptor transactionId).
Proof.
  unfold statementDescriptor, statementDescriptor_spec.
  split; [reflexivity|]. split; [apply substr0_length|].
  split; [apply substr0_clean, strip_banned_clean|].
  intros Hclean. f_equal.
  rewrite (strip_banned_id companyDescriptor Hclean).
  apply strip_banned_id.
  rewrite !clean_app, pretty_Z_clean, (substr0_clean _ _ Hclean). reflexivity.
Qed.

(** ** [chargeSale] *)

Lemma strict_eq_VStr (v : value) (s : string) :
  strict_eq v (VStr s) = true <-> v = VStr s.
Proof.
  destruct v; simpl; try (split; congruence).
  rewrite String.eqb_eq. split; congruence.
Qed.

Section ChargeFacts.
Context {gateway : PaymentGateway} {env : Env}.

(** C10: once a call of [chargeSale] is past the assertions that stand
    before the charge, and the payment line names a Payment row that is
    there, [chargeCard] is called exactly when the debit of the payment
    line is not the string "0.00": with that string no call is made,
    the run succeeds and the Payment row gets a null [paymentResource];
    with any other debit, the number 0 and the string "0" among them,
    one call is made, for that debit. *)
Theorem chargeSale_gateway_call (options : ChargeOptions.t) (db : DB.t)
    (payment0 : TransactionItem.t) (companyInfo : TransportCompany.t)
    (companyDescriptor : string) (paymentId : value) (k : Z)
    (row : PaymentRow.t) :
  charge_ready options db payment0 companyInfo companyDescriptor ->
  TransactionItem.payment payment0 = Some paymentId ->
  key_of paymentId = Some k ->
  DB.payments db !! k = Some row ->
  let run := chargeSale options db in
  let paymentValue := TransactionItem.debit payment0 in
  (ChargeRun.chargeCardCalls run = [] <-> paymentValue = VStr "0.00")
  /\ (paymentValue = VStr "0.00" ->
      ChargeRun.outcome run = Ok tt
      /\ PaymentRow.paymentResource <$> DB.payments (ChargeRun.db run) !! k
         = Some VNull)
  /\ (paymentValue <> VStr "0.00" ->
      exists request,
        ChargeRun.chargeCardCalls run = [request]
        /\ ChargeRequest.value request = paymentValue
        /\ ChargeRequest.statement_descriptor request
           = statementDescriptor companyDescriptor
               (Transaction.id (ChargeOptions.transaction options)))
  /\ VNum Num.zero <> VStr "0.00"
  /\ VStr "0" <> VStr "0.00".
Proof.
  intros (Hdesc & Hpaid & Hpayment & (transfer0 & busCompanyId & Htransfer
          & Hbus & Hcompany) & Hmerchant & Hdescriptor) Hpid Hk Hrow run
         paymentValue.
  assert (paymentValue = VStr "0.00"
          /\ ChargeRun.chargeCardCalls run = []
          /\ ChargeRun.outcome run = Ok tt
          /\ PaymentRow.paymentResource <$> DB.payments (ChargeRun.db run) !! k
             = Some VNull
          \/ paymentValue <> VStr "0.00"
             /\ exists request,
                  ChargeRun.chargeCardCalls run = [request]
                  /\ ChargeRequest.value request = paymentValue
                  /\ ChargeRequest.statement_descriptor request
                     = statementDescriptor companyDescriptor
                         (Transaction.id (ChargeOptions.transaction options)))
    as Hcases.
  { subst run. unfold chargeSale, chargeSale_try.
    cbv zeta. rewrite Hdesc, Hpaid, Hpayment, Htransfer, Hbus, Hcompany, Hmerchant,
      Hdescriptor. cbn [negb].
    fold paymentValue.
    destruct (strict_eq paymentValue (VStr "0.00")) eqn:Hzero.
    - left. apply strict_eq_VStr in Hzero. split; [done|].
      rewrite Hpid. cbn. unfold Payment_update. rewrite Hk. cbn.
      rewrite lookup_alter_eq, Hrow. auto.
    - right. split.
      { intros Heq. apply strict_eq_VStr in Heq. congruence. }
      destruct (truthy (ChargeOptions.stripeToken options)) eqn:Htoken.
      + eexists. cbn. destruct (chargeCard _) eqn:Hcharge; cbn.
        * rewrite Hpid. repeat split; reflexivity.
        * destruct (chargeSale_catch _ _ _). repeat split; reflexivity.
      + cbn in Hpaid. rewrite Hpaid. eexists. cbn.
        destruct (chargeCard _) eqn:Hcharge; cbn.
        * rewrite Hpid. repeat split; reflexivity.
        * destruct (chargeSale_catch _ _ _). repeat split; reflexivity. }
  split; [|split; [|split]].
  - split.
    + intros Hnone.
      destruct Hcases as [[? _] | [_ (request & Hcalls & _)]]; [done|congruence].
    + intros Hzero. destruct Hcases as [(_ & ? & _) | [? _]]; [done|congruence].
  - intros Hzero. destruct Hcases as [(_ & _ & ? & ?) | [? _]]; [auto | congruence].
  - intros Hne. destruct Hcases as [[? _] | [_ ?]]; [congruence|done].
  - split; discriminate.
Qed.
End ChargeFacts.

(** A payment line whose debit is the number 0 is charged; one whose
    debit is the string "0.00" is not. *)
Lemma chargeSale_gateway_call_witness :
  exists request,
    ChargeRun.chargeCardCalls
      (chargeSale (gateway := demo_gateway) (env := demo_env)
         (demo_charge (VNum Num.zero)) (demo_db "valid" "valid"))
    = [request]
    /\ ChargeRequest.value request = VNum Num.zero
    /\ ChargeRequest.statement_descriptor request = "Bus Co,Ref#61".
Proof.
  refine (proj1 (proj2 (proj2
    (chargeSale_gateway_call (gateway := demo_gateway) (env := demo_env)
       (demo_charge (VNum Num.zero)) (demo_db "valid" "valid")
       (TransactionItem.mk (Some 2%Z) "payment" (VNum (Fin 7)) (VNum Num.zero)
          VNull (Some 61%Z) None None (Some (VNum (Fin 7))) None None)
       (TransportCompany.mk (VStr "<Bus> Co") (VStr "Bus Company")
          (VStr "acct_live") (VStr "acct_test"))
       "<Bus> Co" (VNum (Fin 7)) 7 demo_payment _ _ _ _))) _).
  - unfold charge_ready. cbv zeta.
    repeat split; try (vm_compute; reflexivity).
    exists demo_transfer_item, (VNum (Fin 51)).
    repeat split; vm_compute; reflexivity.
  - reflexivity.
  - vm_compute. reflexivity.
  - vm_compute. reflexivity.
  - discriminate.
Defined.

Example chargeSale_zero_debits :
  map (fun debit =>
         let run := chargeSale (gateway := demo_gateway) (env := demo_env)
                      (demo_charge debit) (demo_db "valid" "valid") in
         (ChargeRun.outcome run,
          map ChargeRequest.statement_descriptor (ChargeRun.chargeCardCalls run),
          PaymentRow.paymentResource <$> DB.payments (ChargeRun.db run) !! 7%Z))
      [VStr "12.00"; VStr "0.00"; VStr "0"; VNum (Fin 0)]
  = [(Ok tt, ["Bus Co,Ref#61"], Some (VStr "ch_2"));
     (Ok tt, [], Some VNull);
     (Ok tt, ["Bus Co,Ref#61"], Some (VStr "ch_2"));
     (Ok tt, ["Bus Co,Ref#61"], Some (VStr "ch_2"))].
Proof. vm_compute. reflexivity. Qed.

(** ** The booking window *)



Section BookingFacts.
Context {joi : Joi}.


End BookingFacts.

(** At 08:49 the trip with a [stop] window of minus ten minutes can be
    booked from the first stop; at 08:51 it cannot, but from the second
    stop to the third it still can; with a [firstStop] window it cannot
    either; and stop 4 is no stop of the trip. *)
Example checkStopsAndBookingWindow_samples :
  map (fun '(now, window, board, alight) =>
         checkStopsAndBookingWindow (joi := demo_joi) true (Fin now)
           (demo_trip (demo_window window)) (demo_order board alight))
      [(31740000, "stop", 1%Z, 3%Z); (31860000, "stop", 1%Z, 3%Z);
       (31860000, "stop", 3%Z, 2%Z); (31860000, "firstStop", 2%Z, 3%Z);
       (31740000, "stop", 1%Z, 4%Z)]
  = [Ok tt;
     Throw (TransactionError "You may not book this trip later than ");
     Ok tt;
     Throw (TransactionError "You may not book this trip later than ");
     Throw (TransactionError "Invalid stop given for trip #31")].
Proof. vm_compute. reflexivity. Qed.

(** A window type that is no window type fails validation: the trip is
    checked against the stop itself. *)
Example checkStopsAndBookingWindow_defaults :
  bookingInfo_used (joi := demo_joi) (demo_trip (demo_window "lastStop"))
  = BookingInfo.mk BookingInfo.stop Num.zero
  /\ checkStopsAndBookingWindow (joi := demo_joi) true (Fin 31860000)
       (demo_trip (demo_window "lastStop")) (demo_order 1 3)
     = Ok tt.
Proof. vm_compute. auto. Qed.

(** ** The order checks *)

Lemma rbind_ok {A B} (r : result A) (k : A -> result B) (b : B) :
  rbind r k = Ok b <-> exists a, r = Ok a /\ k a = Ok b.
Proof.
  destruct r as [a|e]; simpl; split.
  - eauto.
  - by intros (a' & [= <-] & ?).
  - discriminate.
  - by intros (? & ? & _).
Qed.

Lemma each_ok {A} (l : list A) (f : A -> result unit) :
  each l f = Ok tt <-> Forall (fun x => f x = Ok tt) l.
Proof.
  induction l as [|x l IH]; simpl.
  - split; [constructor | reflexivity].
  - rewrite rbind_ok, Forall_cons, <- IH. split.
    + by intros ([] & ? & ?).
    + intros [? ?]. by exists tt.
Qed.

Lemma business_rbind (r : result unit) (k : unit -> result unit) :
  business r -> business (k tt) -> business (rbind r k).
Proof. intros [-> | [msg ->]] Hk; simpl; [done|]. right. eauto. Qed.

Lemma business_each {A} (l : list A) (f : A -> result unit) :
  Forall (fun x => business (f x)) l -> business (each l f).
Proof.
  induction 1 as [|x l Hx _ IH]; simpl; [by left|]. by apply business_rbind.
Qed.

Lemma business_assert (cond : bool) (msg : string) :
  business (TransactionError_assert cond msg).
Proof. destruct cond; [by left|]. right. eauto. Qed.

Lemma elem_of_entries {A} (m : gmap Z A) (k : Z) (x : A) :
  (k, x) ∈ entries m <-> m !! k = Some x.
Proof.
  unfold entries. rewrite merge_sort_Permutation. apply elem_of_map_to_list.
Qed.

Section OrderFacts.
Context {joi : Joi}.

Lemma business_checkStops (flag : bool) (now : num) (dbTrip : Trip.t)
    (rqTrip : TripOrder.t) :
  business (checkStopsAndBookingWindow flag now dbTrip rqTrip).
Proof.
  unfold checkStopsAndBookingWindow.
  repeat case_match; first [by left | right; eauto].
Qed.

Lemma business_checkNoDuplicates (dbTrip : Trip.t) (rqTrip : TripOrder.t) :
  business (checkNoDuplicates dbTrip rqTrip).
Proof.
  unfold checkNoDuplicates. case_match; [right; eauto | by left].
Qed.

End OrderFacts.

Section OrderChecksFacts.
Context {joi : Joi}.

Lemma checkStops_ok_found (flag : bool) (now : num) (dbTrip : Trip.t)
    (rqTrip : TripOrder.t) :
  checkStopsAndBookingWindow flag now dbTrip rqTrip = Ok tt ->
  is_Some (findStop (Trip.tripStops dbTrip) (TripOrder.boardStopId rqTrip))
  /\ is_Some (findStop (Trip.tripStops dbTrip) (TripOrder.alightStopId rqTrip)).
Proof.
  unfold checkStopsAndBookingWindow.
  destruct (findStop _ (TripOrder.boardStopId rqTrip)) as [[? ?]|];
    [|discriminate].
  destruct (findStop _ (TripOrder.alightStopId rqTrip)) as [[? ?]|];
    [eauto | discriminate].
Qed.

(** The loop over the trips returns exactly when no trip is cancelled. *)
Lemma running_loop_ok (tb : TransactionBuilder.t) :
  each (entries (TransactionBuilder.tripsById tb)) (fun '(tripId, trip) =>
    TransactionError_assert (Trip.isRunning trip)
      ("Trip " +:+ pretty tripId +:+ " has been cancelled")) = Ok tt
  <-> all_running tb.
Proof.
  rewrite each_ok, Forall_forall. unfold all_running, map_Forall. split.
  - intros Hloop tripId trip Htrip. apply elem_of_entries in Htrip.
    specialize (Hloop _ Htrip). simpl in Hloop.
    by apply TransactionError_assert_ok in Hloop.
  - intros Hrunning [tripId trip] Hin. apply elem_of_entries in Hin.
    apply TransactionError_assert_ok. by apply (Hrunning tripId trip).
Qed.

(** X27: a cancelled trip is turned down with a TransactionError,
    whatever the flags and the orders. *)
Lemma runOrderChecks_cancelled (now : nat -> num) (tb : TransactionBuilder.t)
    (checkOptions : CheckOptions.t) (tripId : Z) (trip : Trip.t) :
  TransactionBuilder.tripsById tb !! tripId = Some trip ->
  Trip.isRunning trip = false ->
  exists msg, runOrderChecks now tb checkOptions = Throw (TransactionError msg).
Proof.
  intros Htrip Hcancelled. unfold runOrderChecks.
  match goal with
  | |- context [rbind ?loop _] =>
      assert (business loop) as [Hok | [msg Hthrow]]
  end.
  - apply business_each, Forall_forall. intros [? ?] _. apply business_assert.
  - apply running_loop_ok in Hok. specialize (Hok tripId trip Htrip).
    simpl in Hok. congruence.
  - rewrite Hthrow. simpl. eauto.
Qed.

(** With the booking window checked, the orders of a builder that names
    loaded trips pass only when the three rules hold. *)
Lemma runOrderChecks_window_ok (now : nat -> num) (tb : TransactionBuilder.t)
    (checkOptions : CheckOptions.t) :
  CheckOptions.bookingWindow checkOptions = true ->
  runOrderChecks now tb checkOptions = Ok tt ->
  all_running tb /\ all_stops_valid tb /\ length (companies tb) = 1%nat.
Proof.
  intros Hwindow. unfold runOrderChecks. rewrite Hwindow.
  rewrite rbind_ok. intros ([] & Hrunning & Hrest).
  rewrite rbind_ok in Hrest. destruct Hrest as ([] & Horders & Hcompany).
  apply running_loop_ok in Hrunning. apply each_ok in Horders.
  apply TransactionError_assert_ok, Nat.eqb_eq in Hcompany.
  split; [exact Hrunning|split; [|exact Hcompany]].
  unfold all_stops_valid, orders in *.
  apply Forall_lookup. intros i order Hi trip Htrip.
  rewrite Forall_forall in Horders.
  specialize (Horders (i, order)). simpl in Horders.
  rewrite rbind_ok in Horders.
  destruct Horders as ([] & Hstops & _).
  { apply elem_of_lookup_imap. eauto. }
  unfold on_trip in Hstops. rewrite Htrip in Hstops.
  by apply checkStops_ok_found in Hstops.
Qed.

Lemma runOrderChecks_window_business (now : nat -> num)
    (tb : TransactionBuilder.t) (checkOptions : CheckOptions.t) :
  CheckOptions.bookingWindow checkOptions = true ->
  orders_loaded tb -> business (runOrderChecks now tb checkOptions).
Proof.
  intros Hwindow Hloaded. unfold runOrderChecks. rewrite Hwindow.
  apply business_rbind; [|apply business_rbind].
  - apply business_each, Forall_forall. intros [tripId trip] _.
    apply business_assert.
  - apply business_each, Forall_forall. intros [i order] Hin.
    apply elem_of_lookup_imap in Hin as (i' & order' & [= -> ->] & Hi).
    unfold orders_loaded, orders in Hloaded.
    rewrite Forall_lookup in Hloaded. destruct (Hloaded _ _ Hi) as [trip Htrip].
    unfold on_trip. rewrite Htrip.
    apply business_rbind.
    + apply business_checkStops.
    + destruct (CheckOptions.noDuplicates checkOptions);
        [apply business_checkNoDuplicates | by left].
  - apply business_assert.
Qed.

(** X28: with the booking window checked, a builder that breaks one of
    the three rules is turned down with a TransactionError, whatever the
    other flags. *)
Lemma runOrderChecks_window_rejects (now : nat -> num)
    (tb : TransactionBuilder.t) (checkOptions : CheckOptions.t) :
  CheckOptions.bookingWindow checkOptions = true ->
  orders_loaded tb ->
  ~ (all_running tb /\ all_stops_valid tb /\ length (companies tb) = 1%nat) ->
  exists msg, runOrderChecks now tb checkOptions = Throw (TransactionError msg).
Proof.
  intros Hwindow Hloaded Hviolated.
  destruct (runOrderChecks_window_business now tb checkOptions Hwindow Hloaded)
    as [Hok|]; [|done].
  destruct Hviolated. by apply (runOrderChecks_window_ok now tb checkOptions).
Qed.

(** The ensureAvailability flag is not read. *)
Lemma runOrderChecks_ensureAvailability (now : nat -> num)
    (tb : TransactionBuilder.t) (checkOptions : CheckOptions.t)
    (ensureAvailability : bool) :
  runOrderChecks now tb
    (CheckOptions.mk ensureAvailability
       (CheckOptions.noDuplicates checkOptions)
       (CheckOptions.bookingWindow checkOptions))
  = runOrderChecks now tb checkOptions.
Proof. reflexivity. Qed.

(** Without an order the stops are not looked at, and the company rule
    decides once no trip is cancelled. *)
Lemma runOrderChecks_no_orders (now : nat -> num) (tb : TransactionBuilder.t)
    (checkOptions : CheckOptions.t) :
  orders tb = [] ->
  runOrderChecks now tb checkOptions = Ok tt
  <-> all_running tb /\ length (companies tb) = 1%nat.
Proof.
  unfold orders. intros Horders. unfold runOrderChecks. rewrite Horders.
  rewrite rbind_ok. simpl. rewrite <- running_loop_ok.
  rewrite <- Nat.eqb_eq, <- TransactionError_assert_ok. split.
  - by intros ([] & ? & ?).
  - intros [? ?]. by exists tt.
Qed.

(** C9: with the bookingWindow flag off, [runOrderChecks] does not reach
    the valid-stops check nor the single-company check once the builder
    holds an order: when no trip is cancelled the first order ends the
    run with the TypeError of [checkValidTripStop()], whatever the stops
    of the orders, the companies of the trips and the other two flags.
    No TransactionError is raised for an invalid stop or for a second
    company, and no order passes. *)
Theorem runOrderChecks_bookingWindow_off (now : nat -> num)
    (tb : TransactionBuilder.t) (checkOptions : CheckOptions.t) :
  CheckOptions.bookingWindow checkOptions = false ->
  all_running tb ->
  orders tb <> [] ->
  runOrderChecks now tb checkOptions
  = Throw (TypeError "Cannot read property 'tripStops' of undefined").
Proof.
  intros Hwindow Hrunning Horders. unfold runOrderChecks.
  apply running_loop_ok in Hrunning. rewrite Hrunning. simpl.
  unfold orders in Horders.
  destruct (default [] (TransactionBuilder.lineItems tb)) as [|order rest];
    [done|].
  simpl. by rewrite Hwindow.
Qed.

End OrderChecksFacts.

(** An order to stop 4, which is no stop of trip 31, with every flag off:
    the run ends with a TypeError. *)
Lemma runOrderChecks_bookingWindow_off_witness :
  runOrderChecks (joi := demo_joi) (fun _ => Fin 0) (demo_tb true 51 1 4)
    no_checks
  = Throw (TypeError "Cannot read property 'tripStops' of undefined").
Proof.
  apply (runOrderChecks_bookingWindow_off (joi := demo_joi) (fun _ => Fin 0)
           (demo_tb true 51 1 4) no_checks).
  - reflexivity.
  - apply map_Forall_insert_2; [reflexivity|].
    apply map_Forall_singleton. reflexivity.
  - discriminate.
Defined.

(** With the booking window checked, long before the trip: a good order
    passes, and an order to a stop that is not on the trip, a cancelled
    trip and a second company are each turned down.  With every flag off
    the same four builders: the cancelled trip is turned down, the others
    end with the TypeError, the good order too. *)
Example runOrderChecks_samples :
  map (fun checkOptions =>
         map (fun tb => runOrderChecks (joi := demo_joi) (fun _ => Fin 0)
                          tb checkOptions)
             [demo_tb true 51 1 3; demo_tb true 51 1 4; demo_tb false 51 1 3;
              demo_tb true 52 1 3])
      [window_only; no_checks]
  = [[Ok tt;
      Throw (TransactionError "Invalid stop given for trip #31");
      Throw (TransactionError "Trip 32 has been cancelled");
      Throw (TransactionError "Payment to multiple companies is not yet supported")];
     [Throw (TypeError "Cannot read property 'tripStops' of undefined");
      Throw (TypeError "Cannot read property 'tripStops' of undefined");
      Throw (TransactionError "Trip 32 has been cancelled");
      Throw (TypeError "Cannot read property 'tripStops' of undefined")]].
Proof. vm_compute. reflexivity. Qed.

(** ** [absorbSmallPayments] *)

Lemma add_comm (x y : num) : (x + y)%num = (y + x)%num.
Proof.
  destruct x as [| |a|], y as [| |b|]; try reflexivity.
  cbn. f_equal. apply Qred_complete. lra.
Qed.

Lemma add_assoc (x y z : num) : (x + (y + z))%num = (x + y + z)%num.
Proof.
  destruct x as [| |a|], y as [| |b|], z as [| |c|]; try reflexivity.
  cbn. f_equal. apply Qred_complete. rewrite !Qred_correct. lra.
Qed.

(** Zero added to a sum leaves the sum. *)
Lemma add_zero_sum (x y : num) : (Num.zero + (x + y))%num = (x + y)%num.
Proof.
  destruct x as [| |a|], y as [| |b|]; try reflexivity.
  cbn. f_equal. apply Qred_complete. rewrite !Qred_correct. lra.
Qed.

Lemma total_cons (column : TransactionItem.t -> value) (item : TransactionItem.t)
    (items : list TransactionItem.t) :
  total column (item :: items) = (posted (column item) + total column items)%num.
Proof. reflexivity. Qed.

Lemma total_permutation (column : TransactionItem.t -> value)
    (l1 l2 : list TransactionItem.t) :
  l1 ≡ₚ l2 -> total column l1 = total column l2.
Proof.
  intros Hperm. unfold total.
  apply (foldr_permutation eq _ _ _ _); [|exact Hperm].
  intros _ a1 _ a2 b _ _ _.
  by rewrite !add_assoc, (add_comm (posted (column a1))).
Qed.

(** A line with nothing in a column leaves the total of the column. *)
Lemma total_cons_empty (column : TransactionItem.t -> value)
    (item : TransactionItem.t) (items : list TransactionItem.t) :
  truthy (column item) = false ->
  total column (item :: items) = total column items.
Proof.
  intros Hempty. rewrite total_cons. unfold posted. rewrite Hempty.
  destruct items as [|item' items]; [reflexivity|].
  rewrite total_cons. apply add_zero_sum.
Qed.

(** The items of a builder after a line is pushed onto one type. *)
Lemma all_items_push (tb : TransactionBuilder.t) (ty : string)
    (line : TransactionItem.t) :
  all_items
    (TransactionBuilder.set_byType ty
       (default [] (TransactionBuilder.transactionItemsByType tb !! ty) ++ [line])
       tb)
  ≡ₚ line :: all_items tb.
Proof.
  unfold all_items. simpl.
  set (m := TransactionBuilder.transactionItemsByType tb).
  rewrite <- insert_delete_eq.
  rewrite map_to_list_insert by apply lookup_delete_eq.
  destruct (m !! ty) as [old|] eqn:Hold; simpl.
  - rewrite <- (map_to_list_delete m ty old Hold). simpl.
    rewrite <- Permutation_cons_append. simpl. reflexivity.
  - by rewrite delete_id.
Qed.

Lemma fromPairs_go_notin {A} (pairs : list (Z * A)) (m : gmap Z A) (k : Z) :
  k ∉ pairs.*1 ->
  fold_left (fun m kv => <[kv.1 := kv.2]> m) pairs m !! k = m !! k.
Proof.
  revert m. induction pairs as [|[k' v'] pairs IH]; intros m Hk; [done|].
  simpl in *. apply not_elem_of_cons in Hk as [Hne Hk].
  rewrite IH by done. by rewrite lookup_insert_ne.
Qed.

Lemma fromPairs_go_lookup {A} (pairs : list (Z * A)) (m : gmap Z A) (k : Z) (v : A) :
  NoDup pairs.*1 -> (k, v) ∈ pairs ->
  fold_left (fun m kv => <[kv.1 := kv.2]> m) pairs m !! k = Some v.
Proof.
  revert m. induction pairs as [|[k' v'] pairs IH]; intros m Hnodup Hin.
  - by apply elem_of_nil in Hin.
  - simpl in *. apply NoDup_cons in Hnodup as [Hfresh Hnodup].
    apply elem_of_cons in Hin as [[= -> ->] | Hin].
    + rewrite fromPairs_go_notin by done. apply lookup_insert_eq.
    + by apply IH.
Qed.

Lemma zip_map {A B C} (f : A -> B) (g : A -> C) (l : list A) :
  zip (map f l) (map g l) = map (fun x => (f x, g x)) l.
Proof. induction l as [|x l IH]; simpl; [done|]. by rewrite IH. Qed.

(** With no key twice, [_.fromPairs(_.zip(keys, values))] maps the key of
    each element to its value. *)
Lemma fromPairs_lookup {A B} (f : A -> Z) (g : A -> B) (l : list A) (x : A) :
  NoDup (map f l) -> x ∈ l ->
  fromPairs (map f l) (map g l) !! f x = Some (g x).
Proof.
  intros Hnodup Hin. unfold fromPairs. rewrite zip_map.
  apply fromPairs_go_lookup.
  - by rewrite <- list_fmap_compose.
  - apply (list_elem_of_fmap_2 (fun x => (f x, g x))). exact Hin.
Qed.

Lemma sub_Fin_inv (x y : num) (e : Q) :
  (x - y)%num = Fin e -> exists a b, x = Fin a /\ y = Fin b.
Proof. destruct x, y; try discriminate. eauto. Qed.

Section AbsorbFacts.
Context {gateway : PaymentGateway}.

(** An excess that [absorbSmallPayments] absorbs is a positive rational,
    when the gateway's minimum is not infinite. *)
Lemma absorbed_excess_finite (excess : num) :
  (excess >? Num.zero)%num = true ->
  (excess * Fin 100 <=? minTransactionChargeInCents)%num = true ->
  minTransactionChargeInCents <> PosInf ->
  exists e, excess = Fin e /\ 0 < e.
Proof.
  unfold Num.gtb. intros Hpos Hsmall Hmin.
  destruct excess as [| |e|]; try discriminate.
  - exists e. split; [done|]. by apply ltb_Fin in Hpos.
  - destruct minTransactionChargeInCents; try discriminate. done.
Qed.

(** C4: when the excess credit of a builder is positive and a hundred
    times it is at most the gateway's minimum charge (a minimum that is
    not infinite), [absorbSmallPayments] returns the builder with one more
    discount line, pushed after the discount lines it had; the debit of
    the line is the excess credit; its per-ticket allocation maps the
    ticket of each item (no ticket standing twice) to the item's
    outstanding amount; and the excess credit of the builder returned is
    zero, so that nothing is left for a payment line and credits and
    debits balance. *)
Theorem absorbSmallPayments_spec (tb : TransactionBuilder.t) :
  let excess := _excessCredit tb in
  let amounts :=
    fromPairs (map (fun item => Ticket.id (LineItem.ticket item))
                   (TransactionBuilder.items tb))
              (outstandingAmounts (TransactionBuilder.items tb)) in
  let line := absorbed_fee excess amounts in
  (excess >? Num.zero)%num = true ->
  (excess * Fin 100 <=? minTransactionChargeInCents)%num = true ->
  minTransactionChargeInCents <> PosInf ->
  TransactionBuilder.transactionItemsByType (absorbSmallPayments tb)
  = <["discount" :=
        default [] (TransactionBuilder.transactionItemsByType tb !! "discount")
        ++ [line]]> (TransactionBuilder.transactionItemsByType tb)
  /\ TransactionItem.itemType line = "discount"
  /\ TransactionItem.debit line = VNum excess
  /\ Discount.discountAmounts <$> TransactionItem.discount line = Some amounts
  /\ (NoDup (map (fun item => Ticket.id (LineItem.ticket item))
                 (TransactionBuilder.items tb)) ->
      forall item,
        item ∈ TransactionBuilder.items tb ->
        amounts !! Ticket.id (LineItem.ticket item)
        = Some (ToNumber (lodash.get_notes
                            (TransactionItem.notes (LineItem.transactionItem item))
                            "outstanding" VUndefined)))
  /\ _excessCredit (absorbSmallPayments tb) = Num.zero.
Proof.
  intros excess amounts line Hpos Hsmall Hmin.
  destruct (absorbed_excess_finite excess Hpos Hsmall Hmin) as (e & He & Hepos).
  unfold absorbSmallPayments. fold excess. rewrite Hpos, Hsmall. cbn [andb].
  unfold clone. fold amounts. fold line.
  split; [reflexivity|]. split; [reflexivity|]. split; [reflexivity|].
  split; [reflexivity|]. split.
  - intros Hnodup item Hin. unfold amounts, outstandingAmounts.
    by apply (fromPairs_lookup
                (fun item => Ticket.id (LineItem.ticket item))
                (fun item => ToNumber (lodash.get_notes
                   (TransactionItem.notes (LineItem.transactionItem item))
                   "outstanding" VUndefined))).
  - unfold _excessCredit.
    pose proof (all_items_push tb "discount" line) as Hperm.
    match goal with
    | |- (total _ ?l - total _ ?l)%num = _ =>
        assert (l ≡ₚ line :: all_items tb) as Hitems by exact Hperm
    end.
    rewrite !(total_permutation _ _ _ Hitems).
    rewrite (total_cons_empty TransactionItem.credit) by reflexivity.
    rewrite total_cons.
    assert (posted (TransactionItem.debit line) = Fin e) as ->.
    { unfold line, absorbed_fee, posted. simpl. rewrite He. simpl.
      assert (Qeq_bool e 0 = false) as ->; [|reflexivity].
      apply not_true_iff_false. rewrite Qeq_bool_iff. lra. }
    unfold excess, _excessCredit in He.
    destruct (sub_Fin_inv _ _ _ He) as (a & b & Ha & Hb).
    rewrite Ha, Hb in He |- *. unfold Num.sub in *. cbn in He |- *.
    injection He as <-. unfold Num.zero. f_equal.
    apply (Qred_complete _ 0). rewrite !Qred_correct. lra.
Qed.

End AbsorbFacts.

(** The fourth scenario of the specification: with 0.30 outstanding and a
    minimum charge of 50 cents, a discount of 0.30 is booked, allocated
    to ticket 11, and nothing is left to pay. *)
Lemma absorbSmallPayments_spec_witness :
  TransactionBuilder.transactionItemsByType
    (absorbSmallPayments (gateway := demo_gateway) tb_small) !! "discount"
  = Some [absorbed_fee (Fin (3 # 10)) {[ 11%Z := Fin (3 # 10) ]}]
  /\ _excessCredit (absorbSmallPayments (gateway := demo_gateway) tb_small)
     = Num.zero.
Proof.
  destruct (absorbSmallPayments_spec (gateway := demo_gateway) tb_small)
    as (Hlines & _ & _ & _ & _ & Hzero).
  - vm_compute. reflexivity.
  - vm_compute. reflexivity.
  - discriminate.
  - split; [|exact Hzero]. rewrite Hlines. vm_compute. reflexivity.
Defined.

Example absorbSmallPayments_not_small :
  absorbSmallPayments (gateway := demo_gateway) tb_paid_15 = tb_paid_15.
Proof. vm_compute. reflexivity. Qed.

(** ** More on [chargeSale] *)

(** A group of [_.groupBy] is missing exactly when no element has the key. *)
Lemma groupBy_lookup_None {A} (l : list A) (key : A -> string) (k : string) :
  lodash.groupBy l key !! k = None <-> Forall (fun x => key x <> k) l.
Proof.
  unfold lodash.groupBy.
  assert (forall m : gmap string (list A),
            fold_left (fun m x => <[key x := default [] (m !! key x) ++ [x]]> m) l m
              !! k = None
            <-> m !! k = None /\ Forall (fun x => key x <> k) l) as Hgen.
  { induction l as [|x l IH]; intros m; simpl.
    - split; [intros ?; split; [done|constructor] | by intros [? _]].
    - rewrite IH, Forall_cons. destruct (decide (key x = k)) as [<-|Hne].
      + rewrite lookup_insert_eq. split; [by intros [[=] _] | by intros (_ & ? & _)].
      + rewrite lookup_insert_ne by done. tauto. }
  rewrite Hgen, lookup_empty. tauto.
Qed.

Section ChargeMore.
Context {gateway : PaymentGateway} {env : Env}.

(** X1: [chargeSale] calls the gateway's [chargeCard] at most once,
    whatever it is given. *)
Theorem chargeSale_at_most_one_call (options : ChargeOptions.t) (db : DB.t) :
  (length (ChargeRun.chargeCardCalls (chargeSale options db)) <= 1)%nat.
Proof.
  unfold chargeSale, chargeSale_try.
  repeat (case_match; simplify_eq/=; try lia).
Qed.

(** X2: the one request [chargeSale] sends for a debit that is not the
    string "0.00" carries the payment description, the company's merchant
    id for the mode the process runs in as destination, and the
    idempotency key made of the instance, the transaction's id and the
    session; a token, when there is one, is the source and no customer is
    named, even if a saved card is given too; without a token the saved
    card is charged. *)
Theorem chargeSale_request (options : ChargeOptions.t) (db : DB.t)
    (payment0 : TransactionItem.t) (companyInfo : TransportCompany.t)
    (companyDescriptor : string) :
  charge_ready options db payment0 companyInfo companyDescriptor ->
  TransactionItem.debit payment0 <> VStr "0.00" ->
  exists request,
    ChargeRun.chargeCardCalls (chargeSale options db) = [request]
    /\ ChargeRequest.description request = ChargeOptions.paymentDescription options
    /\ ChargeRequest.destination request
       = (if stripeIsLive then TransportCompany.clientId companyInfo
          else TransportCompany.sandboxId companyInfo)
    /\ ChargeRequest.idempotencyKey request
       = "instance=" +:+ ToString TEST_IDEMPOTENCY +:+ ","
         +:+ "bookingId=" +:+ pretty (Transaction.id (ChargeOptions.transaction options))
         +:+ ",session=" +:+ ToString (ChargeOptions.tokenIat options)
    /\ (if truthy (ChargeOptions.stripeToken options)
        then ChargeRequest.customer request = VUndefined
             /\ ChargeRequest.source request = ChargeOptions.stripeToken options
        else ChargeRequest.customer request = ChargeOptions.customerId options
             /\ ChargeRequest.source request = ChargeOptions.sourceId options).
Proof.
  intros (Hdesc & Hpaid & Hpayment & (transfer0 & busCompanyId & Htransfer
          & Hbus & Hcompany) & Hmerchant & Hdescriptor) Hdebit.
  unfold chargeSale, chargeSale_try. cbv zeta.
  rewrite Hdesc, Hpaid, Hpayment, Htransfer, Hbus, Hcompany, Hmerchant,
    Hdescriptor. cbn [negb].
  destruct (strict_eq (TransactionItem.debit payment0) (VStr "0.00")) eqn:Hzero.
  { apply strict_eq_VStr in Hzero. congruence. }
  destruct (truthy (ChargeOptions.stripeToken options)) eqn:Htoken.
  - eexists. cbn. destruct (chargeCard _); cbn.
    + destruct (TransactionItem.payment payment0); cbn;
        [|destruct (chargeSale_catch _ _ _)]; repeat split; reflexivity.
    + destruct (chargeSale_catch _ _ _). repeat split; reflexivity.
  - cbn in Hpaid. rewrite Hpaid. eexists. cbn. destruct (chargeCard _); cbn.
    + destruct (TransactionItem.payment payment0); cbn;
        [|destruct (chargeSale_catch _ _ _)]; repeat split; reflexivity.
    + destruct (chargeSale_catch _ _ _). repeat split; reflexivity.
Qed.

(** X3: [chargeSale] stores what the gateway answered on the Payment row
    of the payment line.  When the call returns a charge, the run
    succeeds and the row holds the charge's id as [paymentResource], the
    charge as [data] and the [isMicro] flag of its amount as [options];
    when the call throws, the run throws a ChargeError with the same
    message and the row holds the error as [data], its payment resource
    and options left as they were. *)
Theorem chargeSale_records_outcome (options : ChargeOptions.t) (db : DB.t)
    (payment0 : TransactionItem.t) (companyInfo : TransportCompany.t)
    (companyDescriptor : string) (paymentId : value) (k : Z)
    (row : PaymentRow.t) (request : ChargeRequest.t) :
  charge_ready options db payment0 companyInfo companyDescriptor ->
  TransactionItem.payment payment0 = Some paymentId ->
  key_of paymentId = Some k ->
  DB.payments db !! k = Some row ->
  ChargeRun.chargeCardCalls (chargeSale options db) = [request] ->
  (forall chargeResult,
     chargeCard request = Ok chargeResult ->
     ChargeRun.outcome (chargeSale options db) = Ok tt
     /\ DB.payments (ChargeRun.db (chargeSale options db)) !! k
        = Some (PaymentRow.mk (PaymentRow.id row) (ChargeResult.id chargeResult)
                  (ChargeData (ChargeResult.id chargeResult)
                              (ChargeResult.amount chargeResult))
                  (Some {[ "isMicro" := isMicro (ChargeResult.amount chargeResult) ]})))
  /\ (forall error,
        chargeCard request = Throw error ->
        ChargeRun.outcome (chargeSale options db)
        = Throw (ChargeError (message error))
        /\ DB.payments (ChargeRun.db (chargeSale options db)) !! k
           = Some (PaymentRow.mk (PaymentRow.id row) (PaymentRow.paymentResource row)
                     (ErrorData error) (PaymentRow.options row))).
Proof.
  intros (Hdesc & Hpaid & Hpayment & (transfer0 & busCompanyId & Htransfer
          & Hbus & Hcompany) & Hmerchant & Hdescriptor) Hpid Hk Hrow.
  unfold chargeSale, chargeSale_try, chargeSale_catch. cbv zeta.
  rewrite Hdesc, Hpaid, Hpayment, Htransfer, Hbus, Hcompany, Hmerchant,
    Hdescriptor. cbn [negb head mbind option_bind].
  rewrite Hpid.
  destruct (strict_eq (TransactionItem.debit payment0) (VStr "0.00"));
    [intros [=]|].
  assert (forall f, DB.payments (Payment_update paymentId f db) !! k
                    = Some (f row)) as Hupdate.
  { intros f. unfold Payment_update. rewrite Hk. cbn.
    by rewrite lookup_alter_eq, Hrow. }
  destruct (truthy (ChargeOptions.stripeToken options)).
  - cbn. destruct (chargeCard _) eqn:Hcall; cbn; intros [= <-].
    all: rewrite Hcall; split; [intros ? [= <-] | intros ? [= <-]];
      rewrite ?Hupdate; done.
  - cbn in Hpaid. rewrite Hpaid.
    cbn. destruct (chargeCard _) eqn:Hcall; cbn; intros [= <-].
    all: rewrite Hcall; split; [intros ? [= <-] | intros ? [= <-]];
      rewrite ?Hupdate; done.
Qed.

Lemma Payment_update_frame (i : value) (f : PaymentRow.t -> PaymentRow.t)
    (db : DB.t) :
  DB.tickets (Payment_update i f db) = DB.tickets db
  /\ DB.routePasses (Payment_update i f db) = DB.routePasses db
  /\ DB.transactions (Payment_update i f db) = DB.transactions db
  /\ DB.transactionItems (Payment_update i f db) = DB.transactionItems db
  /\ DB.tripStops (Payment_update i f db) = DB.tripStops db
  /\ DB.trips (Payment_update i f db) = DB.trips db
  /\ DB.routes (Payment_update i f db) = DB.routes db
  /\ DB.transportCompanies (Payment_update i f db) = DB.transportCompanies db
  /\ dom (DB.payments (Payment_update i f db)) = dom (DB.payments db).
Proof.
  unfold Payment_update. destruct (key_of i); cbn; [|done].
  repeat split. apply dom_alter_L.
Qed.

(** X4: [chargeSale] writes to no table but Payment, and there it adds
    and removes no row, however it ends. *)
Theorem chargeSale_frame (options : ChargeOptions.t) (db : DB.t) :
  DB.tickets (ChargeRun.db (chargeSale options db)) = DB.tickets db
  /\ DB.routePasses (ChargeRun.db (chargeSale options db)) = DB.routePasses db
  /\ DB.transactions (ChargeRun.db (chargeSale options db)) = DB.transactions db
  /\ DB.transactionItems (ChargeRun.db (chargeSale options db))
     = DB.transactionItems db
  /\ DB.tripStops (ChargeRun.db (chargeSale options db)) = DB.tripStops db
  /\ DB.trips (ChargeRun.db (chargeSale options db)) = DB.trips db
  /\ DB.routes (ChargeRun.db (chargeSale options db)) = DB.routes db
  /\ DB.transportCompanies (ChargeRun.db (chargeSale options db))
     = DB.transportCompanies db
  /\ dom (DB.payments (ChargeRun.db (chargeSale options db)))
     = dom (DB.payments db).
Proof.
  assert (forall error,
            let db' := (chargeSale_catch options error db).2 in
            db' = db \/ exists i f, db' = Payment_update i f db) as Hcatch.
  { intros error. unfold chargeSale_catch. repeat case_match; cbn; eauto. }
  assert (forall calls db',
            chargeSale_try options db = (calls, Ok db') ->
            db' = db \/ exists i f, db' = Payment_update i f db) as Htry.
  { unfold chargeSale_try, rbind. intros calls db'.
    repeat (case_match; simplify_eq/=; try discriminate);
      intros [=]; simplify_eq; eauto. }
  assert (ChargeRun.db (chargeSale options db) = db
          \/ exists i f, ChargeRun.db (chargeSale options db)
                         = Payment_update i f db) as [-> | (i & f & ->)].
  { unfold chargeSale. destruct (chargeSale_try options db) as [calls [db'|error]] eqn:E.
    - cbn. eauto.
    - specialize (Hcatch error). cbn in Hcatch.
      destruct (chargeSale_catch options error db). exact Hcatch. }
  - done.
  - apply Payment_update_frame.
Qed.

(** X5: without a token and without a complete saved card (customer and
    source), [chargeSale] calls no gateway: it throws a ChargeError that
    says so, and stores the failed assertion on the Payment row of the
    payment line. *)
Theorem chargeSale_needs_card (options : ChargeOptions.t) (db : DB.t)
    (payment0 : TransactionItem.t) (others : list TransactionItem.t)
    (paymentId : value) (k : Z) (row : PaymentRow.t) :
  truthy (ChargeOptions.paymentDescription options) = true ->
  truthy (ChargeOptions.stripeToken options) = false ->
  truthy (ChargeOptions.customerId options)
  && truthy (ChargeOptions.sourceId options) = false ->
  lodash.groupBy
    (default [] (Transaction.transactionItems (ChargeOptions.transaction options)))
    TransactionItem.itemType !! "payment" = Some (payment0 :: others) ->
  TransactionItem.payment payment0 = Some paymentId ->
  key_of paymentId = Some k ->
  DB.payments db !! k = Some row ->
  ChargeRun.chargeCardCalls (chargeSale options db) = []
  /\ ChargeRun.outcome (chargeSale options db)
     = Throw (ChargeError "Either stripe token or saved payment info should be set")
  /\ PaymentRow.data <$> DB.payments (ChargeRun.db (chargeSale options db)) !! k
     = Some (ErrorData (AssertionError
               "Either stripe token or saved payment info should be set")).
Proof.
  intros Hdesc Htoken Hsaved Hpayment Hpid Hk Hrow.
  unfold chargeSale, chargeSale_try, chargeSale_catch. cbv zeta.
  rewrite Hdesc, Htoken, Hsaved, Hpayment. cbn. rewrite Hpid. cbn.
  repeat split. unfold Payment_update. rewrite Hk. cbn.
  by rewrite lookup_alter_eq, Hrow.
Qed.

(** X6: on a transaction that holds no payment line, [chargeSale] throws
    a TypeError, not a ChargeError: the handler that stores the failure
    looks for the payment line again.  No gateway call is made and
    nothing is written. *)
Theorem chargeSale_no_payment_line (options : ChargeOptions.t) (db : DB.t) :
  Forall (fun item => TransactionItem.itemType item <> "payment")
    (default [] (Transaction.transactionItems (ChargeOptions.transaction options))) ->
  chargeSale options db
  = ChargeRun.mk (Throw (TypeError "Cannot read property '0' of undefined"))
      db [].
Proof.
  intros Hnone. apply groupBy_lookup_None in Hnone.
  unfold chargeSale, chargeSale_try, chargeSale_catch. cbv zeta.
  rewrite Hnone.
  destruct (negb (truthy (ChargeOptions.paymentDescription options)));
    [reflexivity|].
  destruct (negb _); reflexivity.
Qed.

End ChargeMore.

Lemma demo_charge_saved_ready (stripeToken : value) :
  charge_ready (env := demo_env) (demo_charge_saved stripeToken)
    (demo_db "valid" "valid")
    (TransactionItem.mk (Some 2%Z) "payment" (VNum (Fin 7)) (VStr "12.00")
       VNull (Some 61%Z) None None (Some (VNum (Fin 7))) None None)
    (TransportCompany.mk (VStr "<Bus> Co") (VStr "Bus Company")
       (VStr "acct_live") (VStr "acct_test"))
    "<Bus> Co".
Proof.
  unfold charge_ready. cbv zeta.
  split; [reflexivity|]. split; [apply orb_true_r|].
  split; [vm_compute; reflexivity|]. split; [|split; reflexivity].
  exists demo_transfer_item, (VNum (Fin 51)).
  repeat split; vm_compute; reflexivity.
Defined.

(** A token and a saved card are both given: the token is charged. *)
Lemma chargeSale_request_witness :
  exists request,
    ChargeRun.chargeCardCalls
      (chargeSale (gateway := demo_gateway) (env := demo_env)
         (demo_charge_saved (VStr "tok_visa")) (demo_db "valid" "valid"))
    = [request]
    /\ ChargeRequest.description request = VStr "2 tickets"
    /\ ChargeRequest.destination request = VStr "acct_test"
    /\ ChargeRequest.idempotencyKey request
       = "instance=test,bookingId=61,session=1700000000"
    /\ ChargeRequest.customer request = VUndefined
    /\ ChargeRequest.source request = VStr "tok_visa".
Proof.
  pose proof (chargeSale_request (gateway := demo_gateway) (env := demo_env)
                (demo_charge_saved (VStr "tok_visa")) (demo_db "valid" "valid")
                _ _ _ (demo_charge_saved_ready (VStr "tok_visa")))
    as Hrequest.
  destruct Hrequest as (request & Hcalls & Hd & Hdest & Hkey & Hc & Hs);
    [discriminate|].
  exists request. repeat split; assumption.
Defined.

(** The card is declined: the run throws a ChargeError with the gateway's
    message and the Payment row keeps the error. *)
Lemma chargeSale_records_outcome_witness :
  ChargeRun.outcome
    (chargeSale (gateway := demo_gateway_declining) (env := demo_env)
       (demo_charge_saved VNull) (demo_db "valid" "valid"))
  = Throw (ChargeError "Your card was declined.")
  /\ DB.payments
       (ChargeRun.db
          (chargeSale (gateway := demo_gateway_declining) (env := demo_env)
             (demo_charge_saved VNull) (demo_db "valid" "valid"))) !! 7%Z
     = Some (PaymentRow.mk 7 (VStr "ch_1")
               (ErrorData (Error "Your card was declined.")) None).
Proof.
  refine (proj2 (chargeSale_records_outcome (gateway := demo_gateway_declining)
                   (env := demo_env) (demo_charge_saved VNull)
                   (demo_db "valid" "valid") _ _ _ (VNum (Fin 7)) 7 demo_payment
                   (ChargeRequest.mk (VStr "2 tickets") "Bus Co,Ref#61"
                      (VStr "acct_test")
                      "instance=test,bookingId=61,session=1700000000"
                      (VStr "cus_1") (VStr "card_1") (VStr "12.00"))
                   (demo_charge_saved_ready VNull) eq_refl _ _ _)
            (Error "Your card was declined.") eq_refl).
  - vm_compute. reflexivity.
  - vm_compute. reflexivity.
  - vm_compute. reflexivity.
Defined.

(** Neither a token nor a customer: nothing is charged. *)
Lemma chargeSale_needs_card_witness :
  ChargeRun.chargeCardCalls
    (chargeSale (gateway := demo_gateway) (env := demo_env)
       (ChargeOptions.mk (ChargeOptions.transaction (demo_charge (VStr "12.00")))
          (VNum (Fin 1700000000)) (VStr "2 tickets") VUndefined VUndefined
          (VStr "card_1"))
       (demo_db "valid" "valid")) = []
  /\ ChargeRun.outcome
       (chargeSale (gateway := demo_gateway) (env := demo_env)
          (ChargeOptions.mk (ChargeOptions.transaction (demo_charge (VStr "12.00")))
             (VNum (Fin 1700000000)) (VStr "2 tickets") VUndefined VUndefined
             (VStr "card_1"))
          (demo_db "valid" "valid"))
     = Throw (ChargeError "Either stripe token or saved payment info should be set")
  /\ PaymentRow.data
       <$> DB.payments
             (ChargeRun.db
                (chargeSale (gateway := demo_gateway) (env := demo_env)
                   (ChargeOptions.mk
                      (ChargeOptions.transaction (demo_charge (VStr "12.00")))
                      (VNum (Fin 1700000000)) (VStr "2 tickets") VUndefined
                      VUndefined (VStr "card_1"))
                   (demo_db "valid" "valid"))) !! 7%Z
     = Some (ErrorData (AssertionError
               "Either stripe token or saved payment info should be set")).
Proof.
  apply (chargeSale_needs_card (gateway := demo_gateway) (env := demo_env)
           (ChargeOptions.mk (ChargeOptions.transaction (demo_charge (VStr "12.00")))
              (VNum (Fin 1700000000)) (VStr "2 tickets") VUndefined VUndefined
              (VStr "card_1"))
           (demo_db "valid" "valid")
           (TransactionItem.mk (Some 2%Z) "payment" (VNum (Fin 7)) (VStr "12.00")
              VNull (Some 61%Z) None None (Some (VNum (Fin 7))) None None)
           [] (VNum (Fin 7)) 7 demo_payment).
  all: vm_compute; reflexivity.
Defined.

(** A transaction of one ticket sale and nothing else. *)
Lemma chargeSale_no_payment_line_witness :
  chargeSale (gateway := demo_gateway) (env := demo_env)
    (ChargeOptions.mk (Transaction.mk 61 (Some [demo_sale_item]))
       (VNum (Fin 1700000000)) (VStr "2 tickets") (VStr "tok_visa") VUndefined
       VUndefined)
    (demo_db "valid" "valid")
  = ChargeRun.mk (Throw (TypeError "Cannot read property '0' of undefined"))
      (demo_db "valid" "valid") [].
Proof.
  apply (chargeSale_no_payment_line (gateway := demo_gateway) (env := demo_env)).
  repeat constructor. discriminate.
Defined.

(** ** More on the refund workflows *)

Section RefundMore.
Context {gateway : PaymentGateway} {auth : Auth} {builder : Builder} {env : Env}.

(** X7: [prepareRoutePassRefund] throws a TransactionError, before it
    reads or writes anything, when the transaction item is not the item
    of the route pass, when the item has a positive debit, and when the
    route pass is not valid, void or expired: a pass already refunded is
    not refunded again. *)
Theorem prepareRoutePassRefund_guards (options : RoutePassRefundOptions.t)
    (db : DB.t) :
  let transactionItem := RoutePassRefundOptions.transactionItem options in
  let routePass := RoutePassRefundOptions.routePass options in
  strict_eq (TransactionItem.itemId transactionItem)
    (VNum (Num.of_Z (RoutePass.id routePass))) = false
  \/ (ToNumber (TransactionItem.debit transactionItem) <=? Num.zero)%num = false
  \/ (RoutePass.status routePass <> "valid"
      /\ RoutePass.status routePass <> "void"
      /\ RoutePass.status routePass <> "expired") ->
  exists msg, prepareRoutePassRefund options db = Throw (TransactionError msg).
Proof.
  intros transactionItem routePass Hguard. unfold prepareRoutePassRefund.
  fold transactionItem routePass. rewrite ?M_bind_lift.
  destruct (strict_eq _ _); cbn [TransactionError_assert]; [|eauto].
  rewrite ?M_bind_lift.
  destruct (_ <=? _)%num; cbn [TransactionError_assert]; [|eauto].
  rewrite ?M_bind_lift.
  destruct Hguard as [[=] | [[=] | (Hvalid & Hvoid & Hexpired)]].
  apply String.eqb_neq in Hvalid, Hvoid, Hexpired.
  rewrite Hvalid, Hvoid, Hexpired. cbn. eauto.
Qed.


(** X9: [prepareTicketRefund] refunds only a ticket that is valid or
    void: for a ticket in any other status, one already refunded among
    them, it throws a TransactionError. *)
Theorem prepareTicketRefund_status_guard (options : TicketRefundOptions.t)
    (db : DB.t) (ticket : Ticket.t) :
  Num.truthy (TicketRefundOptions.targetAmt options) = true ->
  TicketRefundOptions.ticketId options <> 0%Z ->
  DB.tickets db !! TicketRefundOptions.ticketId options = Some ticket ->
  Ticket.status ticket <> "valid" ->
  Ticket.status ticket <> "void" ->
  prepareTicketRefund options db
  = Throw (TransactionError "Trying to refund a non-valid ticket").
Proof.
  intros Htarget Hid Hticket Hvalid Hvoid.
  unfold prepareTicketRefund, db_transaction.
  rewrite M_bind_lift, Htarget.
  apply Z.eqb_neq in Hid. rewrite Hid. cbn [assert andb negb].
  unfold M_bind at 1. unfold Ticket_findById, gets. rewrite Hticket.
  rewrite M_bind_lift.
  apply String.eqb_neq in Hvalid, Hvoid. rewrite Hvalid, Hvoid. reflexivity.
Qed.

(** X10: [prepareTicketRefund] asserts that a target amount and a ticket
    id are given: a target amount of zero or NaN, or a ticket id of
    zero, ends in an AssertionError, whatever the database holds. *)
Theorem prepareTicketRefund_requires_amount (options : TicketRefundOptions.t)
    (db : DB.t) :
  Num.truthy (TicketRefundOptions.targetAmt options) = false
  \/ TicketRefundOptions.ticketId options = 0%Z ->
  exists msg, prepareTicketRefund options db = Throw (AssertionError msg).
Proof.
  intros Hmissing. unfold prepareTicketRefund. rewrite M_bind_lift.
  destruct Hmissing as [-> | ->]; [eauto|].
  rewrite andb_false_r. eauto.
Qed.

(** X11: [prepareTicketRefund] asks the auth helper whether the caller
    may refund for the company of the ticket before it looks for the
    sale or writes anything: what the helper throws is what the caller
    gets. *)
Theorem prepareTicketRefund_unauthorised (options : TicketRefundOptions.t)
    (db : DB.t) (ticket : Ticket.t) (company : Z) (others : list Z)
    (error : exn) :
  Num.truthy (TicketRefundOptions.targetAmt options) = true ->
  TicketRefundOptions.ticketId options <> 0%Z ->
  DB.tickets db !! TicketRefundOptions.ticketId options = Some ticket ->
  Ticket.status ticket = "valid" \/ Ticket.status ticket = "void" ->
  query_ticket_company (Ticket.id ticket) db = Ok (company :: others, db) ->
  assertAdminRole (TicketRefundOptions.credentials options) "refund" company
  = Throw error ->
  prepareTicketRefund options db = Throw error.
Proof.
  intros Htarget Hid Hticket Hstatus Hcompany Hauth.
  unfold prepareTicketRefund, db_transaction.
  rewrite M_bind_lift, Htarget.
  apply Z.eqb_neq in Hid. rewrite Hid. cbn [assert andb negb].
  unfold M_bind at 1. unfold Ticket_findById, gets. rewrite Hticket.
  rewrite M_bind_lift.
  assert ((Ticket.status ticket =? "valid")%string
          || (Ticket.status ticket =? "void")%string = true) as ->
    by (destruct Hstatus as [-> | ->]; reflexivity).
  cbn [TransactionError_assert].
  rewrite (M_bind_ok _ _ _ _ _ Hcompany). cbn [head].
  by rewrite M_bind_lift, Hauth.
Qed.

End RefundMore.

(** A route pass that has been refunded is not refunded again. *)
Lemma prepareRoutePassRefund_guards_witness :
  exists msg,
    prepareRoutePassRefund (gateway := demo_gateway) (builder := demo_builder)
      (env := demo_env) (demo_pass_refund "refunded")
      (demo_db "valid" "refunded")
    = Throw (TransactionError msg).
Proof.
  apply (prepareRoutePassRefund_guards (gateway := demo_gateway)
           (builder := demo_builder) (env := demo_env)
           (demo_pass_refund "refunded") (demo_db "valid" "refunded")).
  right. right. repeat split; discriminate.
Defined.


(** A ticket that has been refunded is not refunded again. *)
Lemma prepareTicketRefund_status_guard_witness :
  prepareTicketRefund (gateway := demo_gateway) (auth := demo_auth)
    (builder := demo_builder) (env := demo_env) demo_ticket_refund
    (demo_db "refunded" "valid")
  = Throw (TransactionError "Trying to refund a non-valid ticket").
Proof.
  apply (prepareTicketRefund_status_guard (gateway := demo_gateway)
           (auth := demo_auth) (builder := demo_builder) (env := demo_env)
           demo_ticket_refund (demo_db "refunded" "valid")
           (demo_ticket "refunded")).
  - reflexivity.
  - discriminate.
  - reflexivity.
  - discriminate.
  - discriminate.
Defined.

(** A refund of nothing. *)
Lemma prepareTicketRefund_requires_amount_witness :
  exists msg,
    prepareTicketRefund (gateway := demo_gateway) (auth := demo_auth)
      (builder := demo_builder) (env := demo_env)
      (TicketRefundOptions.mk Num.zero 11 demo_credentials)
      (demo_db "valid" "valid")
    = Throw (AssertionError msg).
Proof.
  apply (prepareTicketRefund_requires_amount (gateway := demo_gateway)
           (auth := demo_auth) (builder := demo_builder) (env := demo_env)
           (TicketRefundOptions.mk Num.zero 11 demo_credentials)
           (demo_db "valid" "valid")).
  left. reflexivity.
Defined.

(** An admin of a company is no superadmin for the auth helper of the
    examples. *)
Lemma prepareTicketRefund_unauthorised_witness :
  prepareTicketRefund (gateway := demo_gateway) (auth := demo_auth)
    (builder := demo_builder) (env := demo_env)
    (TicketRefundOptions.mk (Fin 8) 11
       (Credentials.mk "admin" (VNum (Fin 3)) VUndefined))
    (demo_db "valid" "valid")
  = Throw (Error "Forbidden").
Proof.
  apply (prepareTicketRefund_unauthorised (gateway := demo_gateway)
           (auth := demo_auth) (builder := demo_builder) (env := demo_env)
           (TicketRefundOptions.mk (Fin 8) 11
              (Credentials.mk "admin" (VNum (Fin 3)) VUndefined))
           (demo_db "valid" "valid") (demo_ticket "valid") 51 []).
  - reflexivity.
  - discriminate.
  - reflexivity.
  - left. reflexivity.
  - vm_compute. reflexivity.
  - reflexivity.
Defined.

(** ** More on the order checks *)

Lemma each_first_throw {A} (l1 l2 : list A) (x : A) (f : A -> result unit)
    (e : exn) :
  Forall (fun y => f y = Ok tt) l1 -> f x = Throw e ->
  each (l1 ++ x :: l2) f = Throw e.
Proof.
  induction 1 as [|y l1 Hy _ IH]; intros Hx; simpl.
  - by rewrite Hx.
  - rewrite Hy. simpl. by apply IH.
Qed.

#[global] Instance key_le_trans {A} : Transitive (@key_le A).
Proof. intros a b c. unfold key_le. lia. Qed.

#[global] Instance key_le_total {A} : Total (@key_le A).
Proof. intros a b. unfold key_le. lia. Qed.

(** The entries of a map come in ascending order of their keys, each key
    once. *)
Lemma entries_before {A} (m : gmap Z A) (l1 l2 : list (Z * A)) (k : Z) (x : A) :
  entries m = l1 ++ (k, x) :: l2 ->
  Forall (fun e => (e.1 < k)%Z /\ m !! e.1 = Some e.2) l1.
Proof.
  intros Hsplit.
  assert (StronglySorted key_le (entries m)) as Hsorted.
  { unfold entries. apply StronglySorted_merge_sort; apply _. }
  assert (NoDup ((entries m).*1)) as Hnodup.
  { unfold entries. rewrite merge_sort_Permutation.
    apply NoDup_fst_map_to_list. }
  rewrite Hsplit in Hsorted, Hnodup.
  apply Forall_forall. intros [k' x'] Hin. split.
  - assert (k' <= k)%Z as Hle.
    { apply (StronglySorted_app_1_elem_of key_le l1 ((k, x) :: l2)
               (k', x') (k, x) Hsorted Hin). apply list_elem_of_here. }
    assert (k' <> k); [|simpl; lia].
    intros ->. rewrite fmap_app, fmap_cons in Hnodup.
    apply NoDup_app in Hnodup as (_ & Hdisjoint & _).
    apply (Hdisjoint k); [|apply list_elem_of_here].
    apply (list_elem_of_fmap_2 fst l1 (k, x') Hin).
  - apply elem_of_entries. rewrite Hsplit. apply elem_of_app. by left.
Qed.

Section OrderMore.
Context {joi : Joi}.

(** X12: for a map of trips whose ids are array indices (integers from
    0 and below 2^32 - 1, which JavaScript enumerates in ascending
    order), [checkValidTrips] turns the order down when a trip of the
    map is cancelled, whether or not it is one of the trips requested
    and whatever the per-trip checks are, none of which it has run by
    then; the TransactionError names the cancelled trip with the lowest
    id. *)
Theorem checkValidTrips_cancelled (tripsById : gmap Z Trip.t)
    (tripsRequested : list TripOrder.t)
    (perTripChecks : list (Trip.t -> TripOrder.t -> result unit))
    (tripId : Z) (trip : Trip.t) :
  (forall tripId' trip',
     tripsById !! tripId' = Some trip' -> (0 <= tripId' < 4294967295)%Z) ->
  tripsById !! tripId = Some trip ->
  Trip.isRunning trip = false ->
  (forall tripId' trip',
     tripsById !! tripId' = Some trip' -> (tripId' < tripId)%Z ->
     Trip.isRunning trip' = true) ->
  checkValidTrips tripsById tripsRequested perTripChecks
  = Throw (TransactionError ("Trip " +:+ pretty tripId +:+ " has been cancelled")).
Proof.
  intros _ Htrip Hcancelled Hlowest. unfold checkValidTrips.
  apply elem_of_entries, list_elem_of_split in Htrip as (l1 & l2 & Hsplit).
  rewrite Hsplit.
  rewrite (each_first_throw l1 l2 (tripId, trip) _
             (TransactionError ("Trip " +:+ pretty tripId +:+ " has been cancelled"))).
  - reflexivity.
  - eapply Forall_impl; [exact (entries_before _ _ _ _ _ Hsplit)|].
    intros [tripId' trip'] [Hlt Hin]. simpl in *.
    by rewrite (Hlowest tripId' trip' Hin Hlt).
  - simpl. by rewrite Hcancelled.
Qed.

(** X13: [checkNoDuplicates] passes exactly when no ticket at a stop of
    the trip belongs to the user of the order and is valid or pending:
    tickets of other users, and the user's failed, void or refunded
    tickets, do not stand in the way.  When it does not pass it throws
    a TransactionError that names such a ticket. *)
Theorem checkNoDuplicates_spec (dbTrip : Trip.t) (rqTrip : TripOrder.t) :
  (checkNoDuplicates dbTrip rqTrip = Ok tt <->
   forall tripStop ticket,
     tripStop ∈ Trip.tripStops dbTrip ->
     ticket ∈ TripStop.tickets tripStop ->
     Ticket.userId ticket = TripOrder.userId rqTrip ->
     Ticket.status ticket <> "valid" /\ Ticket.status ticket <> "pending")
  /\ (checkNoDuplicates dbTrip rqTrip = Ok tt
      \/ exists tripStop ticket,
           tripStop ∈ Trip.tripStops dbTrip
           /\ ticket ∈ TripStop.tickets tripStop
           /\ Ticket.userId ticket = TripOrder.userId rqTrip
           /\ (Ticket.status ticket = "valid" \/ Ticket.status ticket = "pending")
           /\ checkNoDuplicates dbTrip rqTrip
              = Throw (TransactionError
                  ("User #" +:+ pretty (TripOrder.userId rqTrip)
                   +:+ " already has ticket [" +:+ pretty (Ticket.id ticket)
                   +:+ "] for the trip"))).
Proof.
  unfold checkNoDuplicates.
  set (held := fun ticket : Ticket.t =>
                 (Ticket.status ticket = "valid"
                  \/ Ticket.status ticket = "pending")
                 /\ Ticket.userId ticket = TripOrder.userId rqTrip).
  set (tickets := concat (map TripStop.tickets (Trip.tripStops dbTrip))).
  assert (forall ticket,
            ticket ∈ tickets <->
            exists tripStop,
              tripStop ∈ Trip.tripStops dbTrip
              /\ ticket ∈ TripStop.tickets tripStop) as Htickets.
  { intros ticket. unfold tickets. rewrite list_elem_of_In, in_concat.
    split.
    - intros (l & Hl & Hin). apply in_map_iff in Hl as (tripStop & <- & Hstop).
      exists tripStop. by rewrite !list_elem_of_In.
    - intros (tripStop & Hstop & Hin). exists (TripStop.tickets tripStop).
      split; [|by apply list_elem_of_In].
      apply in_map_iff. exists tripStop. split; [done|].
      by apply list_elem_of_In. }
  destruct (head (filter held tickets)) as [ticket|] eqn:Hhead.
  - apply head_Some_elem_of, list_elem_of_filter in Hhead
      as [[Hstatus Huser] Hin].
    apply Htickets in Hin as (tripStop & Hstop & Hin).
    split.
    + split; [discriminate|]. intros Hnone.
      destruct (Hnone tripStop ticket Hstop Hin Huser) as [? ?].
      destruct Hstatus; contradiction.
    + right. exists tripStop, ticket. auto.
  - apply head_None in Hhead. split; [|by left].
    split; [|done]. intros _ tripStop ticket Hstop Hin Huser.
    assert (~ held ticket) as Hnot.
    { intros Hheld. eapply (filter_nil_not_elem_of held); [exact Hhead|exact Hheld|].
      apply Htickets. eauto. }
    unfold held in Hnot. tauto.
Qed.

(** The comparison of [now] with the earlier of two cut-offs does not
    depend on the order in which the two are given. *)
Lemma min_pair_swap (now x y : num) :
  (now >? or_undefined (lodash.min [x; y]))%num
  = (now >? or_undefined (lodash.min [y; x]))%num.
Proof.
  unfold or_undefined, lodash.min, Num.gtb.
  destruct x as [| |a|], y as [| |b|]; cbn; try reflexivity.
  destruct (Fin b <? Fin a)%num eqn:Hba, (Fin a <? Fin b)%num eqn:Hab;
    cbn; try reflexivity.
  - apply ltb_Fin in Hba, Hab. lra.
  - apply ltb_Fin_false in Hba, Hab.
    destruct now as [| |n|]; try reflexivity.
    apply eq_true_iff_eq. rewrite !ltb_Fin. split; lra.
Qed.

(** X14: [checkStopsAndBookingWindow] does not look at the order of the
    two stops: an order whose boarding and alighting stops are swapped,
    so that it alights before it boards, is checked with the same
    outcome. *)
Theorem checkStopsAndBookingWindow_swap (checkBookingWindow : bool) (now : num)
    (dbTrip : Trip.t) (rqTrip : TripOrder.t) :
  checkStopsAndBookingWindow checkBookingWindow now dbTrip
    (TripOrder.mk (TripOrder.tripId rqTrip) (TripOrder.alightStopId rqTrip)
       (TripOrder.boardStopId rqTrip) (TripOrder.userId rqTrip))
  = checkStopsAndBookingWindow checkBookingWindow now dbTrip rqTrip.
Proof.
  unfold checkStopsAndBookingWindow. cbn [TripOrder.boardStopId TripOrder.alightStopId].
  destruct (findStop _ (TripOrder.boardStopId rqTrip)) as [[i boardStop]|],
    (findStop _ (TripOrder.alightStopId rqTrip)) as [[j alightStop]|];
    try reflexivity.
  destruct checkBookingWindow; [|reflexivity]. cbn [negb].
  destruct (BookingInfo.windowType _); [|reflexivity].
  by rewrite min_pair_swap.
Qed.

End OrderMore.

(** The cancelled trip 32 is not requested, and the check given would
    throw another error. *)
Lemma checkValidTrips_cancelled_witness :
  checkValidTrips
    {[ 31%Z := demo_trip None; 32%Z := Trip.mk 32 false [] None 51 ]}
    [demo_order 1 4] [fun _ _ => Throw (Error "not reached")]
  = Throw (TransactionError "Trip 32 has been cancelled").
Proof.
  apply (checkValidTrips_cancelled
           {[ 31%Z := demo_trip None; 32%Z := Trip.mk 32 false [] None 51 ]}
           [demo_order 1 4] [fun _ _ => Throw (Error "not reached")]
           32 (Trip.mk 32 false [] None 51)).
  - intros tripId' trip' Htrip.
    destruct (decide (tripId' = 31%Z)) as [->|Hne]; [lia|].
    rewrite lookup_insert_ne in Htrip by done.
    apply lookup_singleton_Some in Htrip as [<- _]. lia.
  - reflexivity.
  - reflexivity.
  - intros tripId' trip' Htrip Hlt.
    destruct (decide (tripId' = 31%Z)) as [->|Hne].
    + vm_compute in Htrip. by injection Htrip as <-.
    + rewrite lookup_insert_ne in Htrip by done.
      apply lookup_singleton_Some in Htrip as [<- _]. lia.
Defined.

Example checkNoDuplicates_samples :
  map (fun user =>
         checkNoDuplicates (demo_trip None)
           (TripOrder.mk (Some 31%Z) (Some 1%Z) (Some 3%Z) user))
      [5%Z; 6%Z]
  = [Throw (TransactionError "User #5 already has ticket [11] for the trip");
     Ok tt].
Proof. vm_compute. reflexivity. Qed.

Example checkStopsAndBookingWindow_backwards :
  checkStopsAndBookingWindow (joi := demo_joi) true (Fin 31740000)
    (demo_trip (demo_window "stop")) (demo_order 3 1)
  = Ok tt.
Proof. vm_compute. reflexivity. Qed.

(** ** [cancelSale] *)

Lemma every_ticket_valid_true (db : DB.t) (items : list TransactionItem.t) :
  every_ticket_valid db items = Ok true <->
  Forall (fun item =>
            exists ticket,
              item_ticketSale db item = Some ticket
              /\ Ticket.status ticket = "valid") items.
Proof.
  induction items as [|item items IH]; simpl.
  - split; [constructor | reflexivity].
  - rewrite Forall_cons, <- IH.
    destruct (item_ticketSale db item) as [ticket|].
    + destruct (String.eqb_spec (Ticket.status ticket) "valid") as [Hv|Hv].
      * split; [eauto | by intros [_ ?]].
      * split; [discriminate | intros [(? & [= <-] & ?) _]; contradiction].
    + split; [discriminate | by intros [(? & [=] & _) _]].
Qed.

(** What [fail_tickets] does to a ticket: failed when a ticket sale
    among the items names it, untouched otherwise. *)
Lemma fail_tickets_lookup (items : list TransactionItem.t) (db : DB.t) (k : Z) :
  Forall (fun item => is_Some (item_ticketSale db item)) items ->
  map_Forall (fun i ticket => Ticket.id ticket = i) (DB.tickets db) ->
  DB.tickets (fail_tickets items db) !! k
  = if decide (k ∈ omap (fun item => key_of (TransactionItem.itemId item)) items)
    then Ticket.set_status "failed" <$> DB.tickets db !! k
    else DB.tickets db !! k.
Proof.
  revert db. induction items as [|item items IH]; intros db Hall Hids.
  - unfold fail_tickets. cbn [fold_left omap list_omap].
    destruct (decide _) as [[]%not_elem_of_nil|]; done.
  - apply Forall_cons in Hall as [[ticket Hticket] Hall].
    cbn [fail_tickets fold_left] in *. rewrite Hticket.
    unfold item_ticketSale in Hticket.
    destruct (key_of (TransactionItem.itemId item)) as [i|] eqn:Hkey;
      [|discriminate].
    cbn in Hticket. pose proof (Hids i ticket Hticket) as Hid. cbn in Hid.
    rewrite Hid.
    set (db1 := DB.set_tickets (alter (Ticket.set_status "failed") i) db).
    assert (forall item', is_Some (item_ticketSale db item') ->
                          is_Some (item_ticketSale db1 item')) as Hkeep.
    { intros item' [ticket' Hfound]. unfold item_ticketSale in *.
      destruct (key_of (TransactionItem.itemId item')) as [i'|]; [|done].
      cbn in *. destruct (decide (i' = i)) as [->|Hne].
      - rewrite lookup_alter_eq, Hfound. by eexists.
      - rewrite lookup_alter_ne by done. by eexists. }
    assert (map_Forall (fun i ticket => Ticket.id ticket = i) (DB.tickets db1))
      as Hids1.
    { intros i' ticket'. cbn. destruct (decide (i' = i)) as [->|Hne].
      - rewrite lookup_alter_eq, Hticket. by intros [= <-].
      - rewrite lookup_alter_ne by done. apply Hids. }
    fold (fail_tickets items db1).
    rewrite (IH db1); [|eapply Forall_impl; [exact Hall|exact Hkeep]|exact Hids1].
    cbn [omap list_omap]. rewrite Hkey. cbn [DB.tickets db1 DB.set_tickets].
    destruct (decide (k = i)) as [->|Hne].
    + rewrite lookup_alter_eq, Hticket. cbn.
      rewrite (decide_True (P := i ∈ i :: _)) by apply list_elem_of_here.
      by destruct (decide _).
    + rewrite lookup_alter_ne by done.
      destruct (decide (k ∈ omap _ items)) as [Hin|Hnin].
      * by rewrite decide_True by (by apply list_elem_of_further).
      * rewrite decide_False; [done|].
        intros [?|?]%elem_of_cons; contradiction.
Qed.

Lemma fail_tickets_frame (items : list TransactionItem.t) (db : DB.t) :
  DB.routePasses (fail_tickets items db) = DB.routePasses db
  /\ DB.transactions (fail_tickets items db) = DB.transactions db
  /\ DB.transactionItems (fail_tickets items db) = DB.transactionItems db
  /\ DB.payments (fail_tickets items db) = DB.payments db.
Proof.
  revert db. induction items as [|item items IH]; intros db; [done|].
  cbn [fail_tickets fold_left].
  destruct (item_ticketSale db item); [|apply IH].
  fold (fail_tickets items
          (DB.set_tickets (alter (Ticket.set_status "failed") (Ticket.id t)) db)).
  destruct (IH (DB.set_tickets (alter (Ticket.set_status "failed") (Ticket.id t)) db))
    as (-> & -> & -> & ->).
  done.
Qed.

Lemma cancelSale_uncommitted (transactionId : Z) (db : DB.t) :
  (TransactionRow.committed <$> DB.transactions db !! transactionId) <> Some true ->
  cancelSale transactionId db = Throw (TransactionError "Transaction not found!").
Proof.
  intros Hrow. unfold cancelSale, db_transaction, M_bind, Transaction_findById, gets.
  destruct (DB.transactions db !! transactionId) as [row|]; [|reflexivity].
  cbn in *. destruct (TransactionRow.committed row); [done|reflexivity].
Qed.

(** X15: [cancelSale] finds no transaction to cancel when the id names
    none, and when the transaction is not committed: it throws the same
    TransactionError for both. *)
Theorem cancelSale_not_found (transactionId : Z) (db : DB.t) :
  DB.transactions db !! transactionId = None
  \/ (exists row,
        DB.transactions db !! transactionId = Some row
        /\ TransactionRow.committed row = false) ->
  cancelSale transactionId db = Throw (TransactionError "Transaction not found!").
Proof.
  intros Hrow. apply cancelSale_uncommitted.
  destruct Hrow as [-> | (row & -> & Hcommitted)]; cbn; [discriminate|].
  rewrite Hcommitted. discriminate.
Qed.

(** X16: [cancelSale] on a committed transaction whose ticket sales all
    name valid tickets returns the transaction with its items; after it
    the transaction is not committed any more, its description and type
    kept; each of those tickets is failed and no other ticket is
    touched; the items, route passes and payments are as they were. *)
Theorem cancelSale_cancels (transactionId : Z) (db : DB.t) (row : TransactionRow.t) :
  DB.transactions db !! transactionId = Some row ->
  TransactionRow.committed row = true ->
  map_Forall (fun i ticket => Ticket.id ticket = i) (DB.tickets db) ->
  Forall (fun i => Ticket.status <$> DB.tickets db !! i = Some "valid")
    (sold_tickets db transactionId) ->
  Forall (fun item =>
            TransactionItem.transactionId item = Some transactionId ->
            TransactionItem.itemType item = "ticketSale" ->
            is_Some (key_of (TransactionItem.itemId item)))
    (DB.transactionItems db) ->
  exists db',
    cancelSale transactionId db
    = Ok (Transaction.mk transactionId
            (Some (filter (fun r => TransactionItem.transactionId r
                                    = Some transactionId)
                          (DB.transactionItems db))),
          db')
    /\ DB.transactions db'
       = <[transactionId := TransactionRow.mk false (TransactionRow.description row)
                              (TransactionRow.type row)]> (DB.transactions db)
    /\ (forall i,
          i ∈ sold_tickets db transactionId ->
          Ticket.status <$> DB.tickets db' !! i = Some "failed")
    /\ (forall i,
          i ∉ sold_tickets db transactionId ->
          DB.tickets db' !! i = DB.tickets db !! i)
    /\ DB.transactionItems db' = DB.transactionItems db
    /\ DB.routePasses db' = DB.routePasses db
    /\ DB.payments db' = DB.payments db.
Proof.
  intros Hrow Hcommitted Hids Hvalid Hkeys.
  set (items := filter (fun r => TransactionItem.transactionId r = Some transactionId)
                       (DB.transactionItems db)).
  set (ticketSale := filter (fun item => TransactionItem.itemType item = "ticketSale")
                            items).
  assert (Forall (fun item =>
                    exists ticket,
                      item_ticketSale db item = Some ticket
                      /\ Ticket.status ticket = "valid") ticketSale) as Hall.
  { apply Forall_forall. intros item Hin.
    pose proof Hin as Hin'.
    apply list_elem_of_filter in Hin' as [Htype Hin'].
    apply list_elem_of_filter in Hin' as [Htid Hin'].
    rewrite Forall_forall in Hkeys.
    destruct (Hkeys item Hin' Htid Htype) as [i Hi].
    rewrite Forall_forall in Hvalid.
    assert (i ∈ sold_tickets db transactionId) as Hsold.
    { unfold sold_tickets. apply list_elem_of_omap. eauto. }
    specialize (Hvalid i Hsold).
    unfold item_ticketSale. rewrite Hi. cbn.
    destruct (DB.tickets db !! i) as [ticket|]; [|discriminate].
    injection Hvalid as Hstatus. eauto. }
  eexists. split.
  { unfold cancelSale, db_transaction, M_bind, Transaction_findById, gets.
    rewrite Hrow. cbn. rewrite Hcommitted. cbn. fold items. fold ticketSale.
    unfold lift. apply every_ticket_valid_true in Hall. rewrite Hall.
    reflexivity. }
  cbn [DB.transactions DB.set_transactions DB.tickets DB.transactionItems
       DB.routePasses DB.payments].
  destruct (fail_tickets_frame ticketSale db) as (Hpasses & Htxns & Hitems & Hpayments).
  assert (forall k,
            DB.tickets (fail_tickets ticketSale db) !! k
            = if decide (k ∈ sold_tickets db transactionId)
              then Ticket.set_status "failed" <$> DB.tickets db !! k
              else DB.tickets db !! k) as Htickets.
  { intros k. apply fail_tickets_lookup; [|exact Hids].
    eapply Forall_impl; [exact Hall|]. intros item (ticket & -> & _). by eexists. }
  split; [|split; [|split; [|split; [|split]]]].
  - rewrite Htxns. apply map_eq. intros i.
    destruct (decide (i = transactionId)) as [->|Hne].
    + by rewrite lookup_alter_eq, lookup_insert_eq, Hrow.
    + by rewrite lookup_alter_ne, lookup_insert_ne.
  - intros i Hsold. rewrite Htickets, decide_True by done.
    rewrite Forall_forall in Hvalid. specialize (Hvalid i Hsold).
    by destruct (DB.tickets db !! i).
  - intros i Hsold. by rewrite Htickets, decide_False.
  - exact Hitems.
  - exact Hpasses.
  - exact Hpayments.
Qed.

(** X17: a sale is cancelled once: after [cancelSale] has returned, a
    second [cancelSale] of the same transaction finds no transaction to
    cancel. *)
Theorem cancelSale_twice (transactionId : Z) (db db' : DB.t) (txn : Transaction.t) :
  cancelSale transactionId db = Ok (txn, db') ->
  cancelSale transactionId db'
  = Throw (TransactionError "Transaction not found!").
Proof.
  intros Hrun. apply cancelSale_uncommitted.
  unfold cancelSale, db_transaction in Hrun.
  apply M_bind_inv in Hrun as (dbTxn & db1 & Hfind & Hrun).
  unfold Transaction_findById, gets in Hfind. injection Hfind as <- <-.
  destruct (DB.transactions db !! transactionId) as [row|] eqn:Hrow;
    [|discriminate].
  cbn in Hrun. destruct (TransactionRow.committed row); [|discriminate].
  cbn in Hrun. apply M_bind_inv in Hrun as (allValid & db2 & Hvalid & Hrun).
  unfold lift in Hvalid.
  destruct (every_ticket_valid db _) as [b|]; [|discriminate].
  injection Hvalid as <- <-. destruct b; [|discriminate].
  cbn in Hrun. injection Hrun as <- <-.
  cbn. destruct (fail_tickets_frame
                   (filter (fun item => TransactionItem.itemType item = "ticketSale")
                      (filter (fun r => TransactionItem.transactionId r
                                        = Some transactionId)
                              (DB.transactionItems db))) db)
    as (_ & -> & _).
  rewrite lookup_alter_eq, Hrow. discriminate.
Qed.

(** X18: [cancelSale] throws an Error, and cancels nothing, when the
    tickets of the ticket sales are all there and one of them is not
    valid: a ticket already failed, void or refunded keeps the sale from
    being cancelled. *)
Theorem cancelSale_not_all_valid (transactionId : Z) (db : DB.t)
    (row : TransactionRow.t) (i : Z) (ticket : Ticket.t) :
  DB.transactions db !! transactionId = Some row ->
  TransactionRow.committed row = true ->
  Forall (fun item =>
            TransactionItem.transactionId item = Some transactionId ->
            TransactionItem.itemType item = "ticketSale" ->
            is_Some (item_ticketSale db item))
    (DB.transactionItems db) ->
  i ∈ sold_tickets db transactionId ->
  DB.tickets db !! i = Some ticket ->
  Ticket.status ticket <> "valid" ->
  cancelSale transactionId db = Throw (Error "Not all tickets are committed").
Proof.
  intros Hrow Hcommitted Hfound Hsold Hticket Hstatus.
  unfold cancelSale, db_transaction, M_bind, Transaction_findById, gets.
  rewrite Hrow. cbn. rewrite Hcommitted. cbn.
  set (ticketSale := filter _ (filter _ _)).
  assert (every_ticket_valid db ticketSale = Ok false) as Hevery.
  { assert (Forall (fun item => is_Some (item_ticketSale db item)) ticketSale)
      as Hall.
    { apply Forall_forall. intros item Hin.
      apply list_elem_of_filter in Hin as [Htype Hin].
      apply list_elem_of_filter in Hin as [Htid Hin].
      rewrite Forall_forall in Hfound. by apply Hfound. }
    assert (exists item, item ∈ ticketSale
                         /\ item_ticketSale db item = Some ticket) as Hbad.
    { unfold sold_tickets in Hsold. fold ticketSale in Hsold.
      apply list_elem_of_omap in Hsold as (item & Hin & Hkey).
      exists item. split; [done|]. unfold item_ticketSale. by rewrite Hkey. }
    clear Hsold. induction ticketSale as [|item items IH]; simpl.
    - destruct Hbad as (? & []%not_elem_of_nil & _).
    - apply Forall_cons in Hall as [[ticket' Hitem] Hall]. rewrite Hitem.
      destruct (String.eqb_spec (Ticket.status ticket') "valid") as [Hv|Hv];
        [|reflexivity].
      apply IH; [exact Hall|].
      destruct Hbad as (item' & [->|Hin]%elem_of_cons & Hitem').
      + congruence.
      + eauto. }
  unfold lift. by rewrite Hevery.
Qed.

(** ** [checkAvailability] *)

(** X19: [checkAvailability] turns the order down exactly when one of
    the trips asked for has a negative number of seats available: a trip
    with no seat left passes, and an id that names no trip is passed
    over. *)
Theorem checkAvailability_spec (seatsAvailable : gmap Z value) (tripIds : list Z) :
  (checkAvailability seatsAvailable tripIds = Ok tt <->
   forall tripId seats,
     tripId ∈ tripIds -> seatsAvailable !! tripId = Some seats ->
     (ToNumber seats <? Num.zero)%num = false)
  /\ (checkAvailability seatsAvailable tripIds = Ok tt
      \/ checkAvailability seatsAvailable tripIds
         = Throw (TransactionError "Not enough seats available")).
Proof.
  unfold checkAvailability.
  destruct (existsb _ _) eqn:Hsome.
  - split; [|by right]. split; [discriminate|]. intros Hnone.
    apply existsb_exists in Hsome as ([tripId seats] & Hin & Hneg).
    apply list_elem_of_In, list_elem_of_filter in Hin as [Hasked Hin].
    apply elem_of_map_to_list in Hin. cbn in *.
    by rewrite (Hnone tripId seats Hasked Hin) in Hneg.
  - split; [|by left]. split; [|done]. intros _ tripId seats Hasked Hrow.
    apply not_true_iff_false. intros Hneg.
    apply not_true_iff_false in Hsome. apply Hsome.
    apply existsb_exists. exists (tripId, seats). split; [|exact Hneg].
    apply list_elem_of_In, list_elem_of_filter. split; [exact Hasked|].
    by apply elem_of_map_to_list.
Qed.

(** Transaction 99 is not there. *)
Lemma cancelSale_not_found_witness :
  cancelSale 99 (demo_db "valid" "valid")
  = Throw (TransactionError "Transaction not found!").
Proof.
  apply (cancelSale_not_found 99 (demo_db "valid" "valid")). left. reflexivity.
Defined.

(** The sale of ticket 11 is cancelled: the ticket is failed. *)
Lemma cancelSale_cancels_witness :
  exists db',
    cancelSale 61 (demo_db "valid" "valid")
    = Ok (Transaction.mk 61
            (Some [demo_sale_item; demo_payment_item; demo_pass_item]), db')
    /\ DB.transactions db' !! 61%Z
       = Some (TransactionRow.mk false "sale" "ticketPurchase")
    /\ Ticket.status <$> DB.tickets db' !! 11%Z = Some "failed".
Proof.
  destruct (cancelSale_cancels 61 (demo_db "valid" "valid")
              (TransactionRow.mk true "sale" "ticketPurchase"))
    as (db' & Hrun & Htransactions & Hsold & _).
  - reflexivity.
  - reflexivity.
  - apply map_Forall_singleton. reflexivity.
  - repeat constructor.
  - repeat constructor; intros; try discriminate. by eexists.
  - exists db'. split; [exact Hrun|]. split.
    + rewrite Htransactions. reflexivity.
    + apply Hsold. vm_compute. apply list_elem_of_here.
Defined.

Lemma cancelSale_twice_witness :
  match cancelSale 61 (demo_db "valid" "valid") with
  | Ok (_, db') =>
      cancelSale 61 db' = Throw (TransactionError "Transaction not found!")
  | Throw _ => False
  end.
Proof.
  destruct (cancelSale 61 (demo_db "valid" "valid")) as [[txn db']|error] eqn:Hrun.
  - exact (cancelSale_twice 61 (demo_db "valid" "valid") db' txn Hrun).
  - vm_compute in Hrun. discriminate.
Defined.

(** Ticket 11 has been voided: its sale is not cancelled. *)
Lemma cancelSale_not_all_valid_witness :
  cancelSale 61 (demo_db "void" "valid")
  = Throw (Error "Not all tickets are committed").
Proof.
  apply (cancelSale_not_all_valid 61 (demo_db "void" "valid")
           (TransactionRow.mk true "sale" "ticketPurchase") 11
           (demo_ticket "void")).
  - reflexivity.
  - reflexivity.
  - repeat constructor; intros; try discriminate. by eexists.
  - vm_compute. apply list_elem_of_here.
  - reflexivity.
  - discriminate.
Defined.

Example checkAvailability_samples :
  map (checkAvailability
         {[ 31%Z := VNum (Fin 0); 32%Z := VNum (Fin (-1)); 33%Z := VNull ]})
      [[]; [31%Z; 33%Z; 34%Z]; [31%Z; 32%Z]]
  = [Ok tt; Ok tt; Throw (TransactionError "Not enough seats available")].
Proof. vm_compute. reflexivity. Qed.

(** ** More on [validateTxn] and [generateRefundInfo] *)

Lemma sumBy_ext {A} (f : A -> num) (l l' : list A) :
  Forall2 (fun x y => f x = f y) l l' -> lodash.sumBy l f = lodash.sumBy l' f.
Proof.
  intros [|x y l1 l1' Hxy Hrest]; [reflexivity|]. simpl. rewrite Hxy.
  generalize (f y). induction Hrest as [|a b l2 l2' Hab _ IH]; intros acc;
    [reflexivity|].
  simpl. rewrite Hab. apply IH.
Qed.

(** X23: [validateTxn] reads the credit of an item only when its debit
    is falsy: two transactions whose items agree on the item ids and the
    debits, and on the credits where the debit is falsy, are accepted or
    rejected alike, with the same error.  An item that carries a debit
    and a credit counts for its debit alone. *)
Theorem validateTxn_debit_shadows_credit (id : Z)
    (items items' : list TransactionItem.t) :
  Forall2
    (fun item item' =>
       TransactionItem.itemId item' = TransactionItem.itemId item
       /\ TransactionItem.debit item' = TransactionItem.debit item
       /\ (truthy (TransactionItem.debit item) = false ->
           TransactionItem.credit item' = TransactionItem.credit item))
    items items' ->
  (validateTxn (Transaction.mk id (Some items))
   = Ok (Transaction.mk id (Some items))
   <-> validateTxn (Transaction.mk id (Some items'))
       = Ok (Transaction.mk id (Some items')))
  /\ (forall error,
        validateTxn (Transaction.mk id (Some items)) = Throw error
        <-> validateTxn (Transaction.mk id (Some items')) = Throw error).
Proof.
  intros Hagree.
  assert (forallb (fun i => truthy (TransactionItem.itemId i)) items
          = forallb (fun i => truthy (TransactionItem.itemId i)) items') as Hids.
  { induction Hagree as [|item item' l l' (Hid & _) _ IH]; [reflexivity|].
    simpl. by rewrite Hid, IH. }
  assert (sumOfDebit items = sumOfDebit items') as Hsum.
  { unfold sumOfDebit. apply sumBy_ext.
    eapply Forall2_impl; [exact Hagree|].
    intros item item' (_ & Hdebit & Hcredit). unfold signedAmount.
    rewrite Hdebit. destruct (truthy (TransactionItem.debit item)); [done|].
    by rewrite Hcredit. }
  unfold validateTxn. cbn [Transaction.transactionItems].
  rewrite <- Hids, <- Hsum.
  destruct (forallb _ items); cbn; [|split; [done|reflexivity]].
  destruct (_ >? _)%num; split; try done; split; intros [=]; done.
Qed.

Section RefundInfoMore.
Context {gateway : PaymentGateway}.

(** X24: [generateRefundInfo] returns no refund information for an
    amount or a balance that is NaN: the comparison that guards the
    refund is false for them, and the TransactionError is thrown. *)
Theorem generateRefundInfo_nan (paymentItem : PaymentRow.t) (amount : num)
    (isMicro : value) (idempotencyKey : string) (charge : Charge.t Source) :
  retrieveCharge (PaymentRow.paymentResource paymentItem) = Ok charge ->
  amount = NaN
  \/ (Charge.amount charge - Charge.amount_refunded charge)%num = NaN ->
  generateRefundInfo (Some paymentItem) amount isMicro idempotencyKey
  = Throw (TransactionError "Requested refund exceeds amount paid for ticket").
Proof.
  intros Hcharge Hnan. unfold generateRefundInfo. rewrite Hcharge. cbn [rbind].
  assert ((Charge.amount charge - Charge.amount_refunded charge
           >=? amount * Fin 100 - Fin 0.1)%num = false) as ->; [|reflexivity].
  unfold Num.geb. destruct Hnan as [-> | ->].
  - change (NaN * Fin 100 - Fin 0.1)%num with NaN.
    by destruct (Charge.amount charge - Charge.amount_refunded charge)%num.
  - by destruct (amount * Fin 100 - Fin 0.1)%num.
Qed.

End RefundInfoMore.

(** The amount comes out of a division of zero by zero. *)
Lemma generateRefundInfo_nan_witness :
  generateRefundInfo (gateway := demo_gateway) (Some demo_payment)
    (Num.zero / Num.zero)%num VUndefined "key"
  = Throw (TransactionError "Requested refund exceeds amount paid for ticket").
Proof.
  apply (generateRefundInfo_nan (gateway := demo_gateway) demo_payment
           (Num.zero / Num.zero)%num VUndefined "key"
           (Charge.mk (VStr "ch_1") (Fin 1500) (Fin 0) "local-visa") eq_refl).
  left. reflexivity.
Defined.

(** One item debits 12.00 and also carries a credit of 99: it balances
    the credit of 12.00 as the plain debit does. *)
Lemma validateTxn_debit_shadows_credit_witness :
  validateTxn
    (Transaction.mk 1
       (Some [TransactionItem.plain "payment" (VNum (Fin 7)) (VStr "12.00") VNull;
              TransactionItem.plain "ticketSale" (VNum (Fin 11)) VNull
                (VStr "12.00")]))
  = Ok (Transaction.mk 1
          (Some [TransactionItem.plain "payment" (VNum (Fin 7)) (VStr "12.00") VNull;
                 TransactionItem.plain "ticketSale" (VNum (Fin 11)) VNull
                   (VStr "12.00")]))
  <-> validateTxn
        (Transaction.mk 1
           (Some [TransactionItem.plain "payment" (VNum (Fin 7)) (VStr "12.00")
                    (VStr "99");
                  TransactionItem.plain "ticketSale" (VNum (Fin 11)) VNull
                    (VStr "12.00")]))
      = Ok (Transaction.mk 1
              (Some [TransactionItem.plain "payment" (VNum (Fin 7)) (VStr "12.00")
                       (VStr "99");
                     TransactionItem.plain "ticketSale" (VNum (Fin 11)) VNull
                       (VStr "12.00")])).
Proof.
  refine (proj1 (validateTxn_debit_shadows_credit 1 _ _ _)).
  repeat constructor. discriminate.
Defined.

Example validateTxn_debit_and_credit :
  validateTxn
    (Transaction.mk 1
       (Some [TransactionItem.plain "payment" (VNum (Fin 7)) (VStr "12.00")
                (VStr "99");
              TransactionItem.plain "ticketSale" (VNum (Fin 11)) VNull
                (VStr "12.00")]))
  = Ok (Transaction.mk 1
          (Some [TransactionItem.plain "payment" (VNum (Fin 7)) (VStr "12.00")
                   (VStr "99");
                 TransactionItem.plain "ticketSale" (VNum (Fin 11)) VNull
                   (VStr "12.00")])).
Proof. vm_compute. reflexivity. Qed.

(** ** Witnesses of the facts on [runOrderChecks] and on the undo of a
    route pass refund *)

(** Trip 32 is cancelled, with every check asked for. *)
Lemma runOrderChecks_cancelled_witness :
  exists msg,
    runOrderChecks (joi := demo_joi) (fun _ => Fin 0) (demo_tb false 51 1 3)
      (CheckOptions.mk true true true)
    = Throw (TransactionError msg).
Proof.
  apply (runOrderChecks_cancelled (joi := demo_joi) (fun _ => Fin 0)
           (demo_tb false 51 1 3) (CheckOptions.mk true true true) 32
           (Trip.mk 32 false [] None 51)); reflexivity.
Defined.

(** The trips belong to companies 51 and 52. *)
Lemma runOrderChecks_window_rejects_witness :
  exists msg,
    runOrderChecks (joi := demo_joi) (fun _ => Fin 0) (demo_tb true 52 1 3)
      window_only
    = Throw (TransactionError msg).
Proof.
  apply (runOrderChecks_window_rejects (joi := demo_joi) (fun _ => Fin 0)
           (demo_tb true 52 1 3) window_only).
  - reflexivity.
  - repeat constructor. vm_compute. eauto.
  - intros (_ & _ & Hcompanies). vm_compute in Hcompanies. discriminate.
Defined.

Section RoutePassUndo.
Context {gateway : PaymentGateway} {builder : Builder} {env : Env}.

(** X20: whenever [prepareRoutePassRefund] returns, for a route pass
    that is the row of the table, it has marked the pass refunded and
    has handed the gateway's [refund] a builder that records one undo
    function; run on the database as the status change left it, that
    function gives back the database the workflow started from; run on
    any later database that still holds the pass, it writes back the
    status the pass had before the refund. *)
Theorem prepareRoutePassRefund_undo (options : RoutePassRefundOptions.t)
    (db db' : DB.t) (txn : Transaction.t) (undo : M unit)
    (info : RefundInfo.t Source) :
  let routePass := RoutePassRefundOptions.routePass options in
  DB.routePasses db !! RoutePass.id routePass = Some routePass ->
  prepareRoutePassRefund options db = Ok ((txn, undo, info), db') ->
  exists tb db1 tb' db2 recorded,
    refund tb VNull VNull (RoutePass.companyId routePass) info db1
    = Ok (tb', db2)
    /\ routePass_status db1 (RoutePass.id routePass) = Some "refunded"
    /\ TransactionBuilder.undoFunctions tb = [recorded]
    /\ recorded db1 = Ok (tt, db)
    /\ (forall later row,
          DB.routePasses later !! RoutePass.id routePass = Some row ->
          exists restored,
            recorded later = Ok (tt, restored)
            /\ routePass_status restored (RoutePass.id routePass)
               = Some (RoutePass.status routePass)).
Proof.
  intros routePass Hrow. unfold prepareRoutePassRefund.
  fold routePass. rewrite ?M_bind_lift.
  destruct (TransactionError_assert _ _); [|discriminate].
  rewrite ?M_bind_lift.
  destruct (TransactionError_assert _ _); [|discriminate].
  rewrite ?M_bind_lift.
  destruct (TransactionError_assert _ _); [|discriminate].
  intros Hrun.
  apply M_bind_inv in Hrun as (paymentItem & db1 & [= _ <-] & Hrun).
  destruct paymentItem as [paymentItem|]; [|discriminate].
  apply M_bind_inv in Hrun as (payment & db2 & [= _ <-] & Hrun).
  destruct payment as [payment|]; [|discriminate].
  apply M_bind_inv in Hrun as (info' & db3 & Hinfo & Hrun).
  unfold lift in Hinfo.
  destruct (generateRefundInfo _ _ _ _) as [info''|]; [|discriminate].
  injection Hinfo as <- <-.
  apply M_bind_inv in Hrun as (routePass' & db4 & [= <- <-] & Hrun).
  apply M_bind_inv in Hrun as (tb' & db5 & Hrefund & Hrun).
  apply M_bind_inv in Hrun as ([txn' undoFn] & db6 & _ & Hrun).
  destruct (Transaction.transactionItems txn'); [|discriminate].
  injection Hrun as <- <- <- <-.
  eexists _, _, _, _, _. split; [exact Hrefund|].
  split; [|split; [reflexivity|split]].
  - unfold routePass_status. cbn. by rewrite lookup_alter_eq, Hrow.
  - unfold routePass_undo, RoutePass_update_status, M_bind, modify, M_ret.
    destruct db as [tickets routePasses ? ? ? ? ? ? ?]. cbn in *.
    unfold DB.set_routePasses. cbn. do 3 f_equal.
    rewrite alter_alter_eq. apply alter_id.
    intros row Hrow'. rewrite Hrow in Hrow'. injection Hrow' as <-.
    by destruct routePass.
  - intros later row Hlater. eexists. split; [reflexivity|].
    unfold routePass_status. cbn. by rewrite lookup_alter_eq, Hlater.
Qed.

End RoutePassUndo.

(** Route pass 12, expired, is refunded; the undo function recorded for
    it makes it expired again. *)
Lemma prepareRoutePassRefund_undo_witness :
  exists info tb db1 tb' db2 recorded,
    refund (PaymentGateway := demo_gateway) tb VNull VNull 51 info db1
    = Ok (tb', db2)
    /\ routePass_status db1 12 = Some "refunded"
    /\ TransactionBuilder.undoFunctions tb = [recorded]
    /\ recorded db1 = Ok (tt, demo_db "valid" "expired")
    /\ (forall later row,
          DB.routePasses later !! 12%Z = Some row ->
          exists restored,
            recorded later = Ok (tt, restored)
            /\ routePass_status restored 12 = Some "expired").
Proof.
  destruct (prepareRoutePassRefund (gateway := demo_gateway)
              (builder := demo_builder) (env := demo_env)
              (demo_pass_refund "expired") (demo_db "valid" "expired"))
    as [[[[txn undo] info] db']|e] eqn:Hrun; [|vm_compute in Hrun; discriminate].
  exists info.
  exact (prepareRoutePassRefund_undo (gateway := demo_gateway)
           (builder := demo_builder) (env := demo_env)
           (demo_pass_refund "expired") (demo_db "valid" "expired") db'
           txn undo info eq_refl Hrun).
Defined.

(** ** More on the statement descriptor and on [checkExpectedPrice] *)

Lemma string_length_app (s t : string) :
  String.length (s +:+ t) = (String.length s + String.length t)%nat.
Proof. induction s as [|c s IH]; simpl; [done|]. by rewrite IH. Qed.

Lemma substr0_short (n : nat) (s : string) :
  (String.length s <= n)%nat -> substr0 n s = s.
Proof.
  revert s. induction n as [|n IH]; intros [|c s]; simpl; try done; try lia.
  intros Hlen. rewrite IH; [done|lia].
Qed.

Lemma strip_banned_length (s : string) :
  (String.length (strip_banned s) <= String.length s)%nat.
Proof.
  induction s as [|c s IH]; simpl; [done|].
  destruct (banned_char c); simpl; lia.
Qed.

(** X25: the statement descriptor carries the whole reference of a
    transaction whose id is written with at most seven characters: it is
    what is left of the first ten characters of the company descriptor,
    then [,Ref#] and the id; the cut at 22 characters takes nothing
    away. *)
Theorem statementDescriptor_keeps_reference (companyDescriptor : string)
    (transactionId : Z) :
  (String.length (pretty transactionId) <= 7)%nat ->
  statementDescriptor companyDescriptor transactionId
  = strip_banned (substr0 10 companyDescriptor) +:+ ",Ref#"
    +:+ pretty transactionId.
Proof.
  intros Hid. unfold statementDescriptor.
  rewrite !strip_banned_app.
  rewrite (strip_banned_id (pretty transactionId)) by apply pretty_Z_clean.
  change (strip_banned ",Ref#") with ",Ref#".
  apply substr0_short. rewrite !string_length_app.
  pose proof (strip_banned_length (substr0 10 companyDescriptor)).
  pose proof (substr0_length 10 companyDescriptor).
  change (String.length ",Ref#") with 5%nat. lia.
Qed.


(** The id 61 has two characters, and the descriptor of the company has
    a banned character among its first ten. *)
Lemma statementDescriptor_keeps_reference_witness :
  statementDescriptor "<Bus> Company" 61 = "Bus Comp,Ref#61".
Proof.
  rewrite (statementDescriptor_keeps_reference "<Bus> Company" 61).
  - reflexivity.
  - vm_compute. lia.
Defined.

(** An id of eight digits behind a descriptor of ten characters: the
    reference loses its last digit. *)
Example statementDescriptor_cuts_reference :
  statementDescriptor "Bus Company" 12345678 = "Bus Compan,Ref#1234567".
Proof. vm_compute. reflexivity. Qed.


(** * Vehicles *)

Module VehiclesFacts.
Import Vehicles.

Lemma list_model_lawful : lawful list_model.
Proof.
  split.
  - intros number driver table vehicle [= Hhead].
    apply head_Some_elem_of, list_elem_of_filter in Hhead as [? ?]. done.
  - intros number driver table [= Hhead] vehicle Hin Hkey.
    apply head_None in Hhead.
    by apply (filter_nil_not_elem_of _ _ vehicle Hhead Hkey).
  - intros payload table vehicle table' [= <- <-]. split; [|reflexivity].
    cbn. by rewrite Permutation_app_comm.
Qed.

Section HandlerFacts.
Context {model : VehicleModel}.

(** A caller whose scope is driver creates vehicles for themselves only:
    what the payload says of the driver is not read, and the reply and
    the table are those of the request that names the caller as the
    driver. *)
Lemma post_vehicles_driver_scope (credentials : Credentials.t)
    (payload : Payload.t) (table : Table) :
  Credentials.scope credentials = VStr "driver" ->
  forall driverId,
    post_vehicles credentials
      (Payload.mk (Payload.vehicleNumber payload) driverId) table
    = post_vehicles credentials
        (Payload.mk (Payload.vehicleNumber payload)
           (Credentials.driverId credentials)) table.
Proof. intros Hscope driverId. unfold post_vehicles. by rewrite Hscope. Qed.

(** X21: on a table where no two vehicles have the same number and the
    same driver, [POST /vehicles] leaves such a table: it replies 400
    and writes nothing when a caller who is no driver names no driver,
    and when the vehicle exists already; when it creates the vehicle, the
    new row is the only one added, with the number of the payload and,
    as driver, the caller for a driver and the driver of the payload
    for anyone else. *)
Theorem post_vehicles_unique (credentials : Credentials.t)
    (payload : Payload.t) (table : Table) :
  lawful model ->
  NoDup (key <$> rows table) ->
  let reply := (post_vehicles credentials payload table).1 in
  let table' := (post_vehicles credentials payload table).2 in
  NoDup (key <$> rows table')
  /\ (forall msg, reply = badRequest msg -> table' = table)
  /\ (strict_eq (Credentials.scope credentials) (VStr "driver") = false ->
      Payload.driverId payload = VUndefined ->
      reply = badRequest "Must define driver ID")
  /\ (forall vehicle,
        reply = Json vehicle ->
        rows table' ≡ₚ vehicle :: rows table
        /\ Vehicle.vehicleNumber vehicle = Payload.vehicleNumber payload
        /\ Vehicle.driverId vehicle
           = (if strict_eq (Credentials.scope credentials) (VStr "driver")
              then Credentials.driverId credentials
              else Payload.driverId payload)).
Proof.
  intros [Hsound Hcomplete Hadds] Hunique reply table'.
  subst reply table'. unfold post_vehicles.
  set (payload' :=
         if strict_eq (Credentials.scope credentials) (VStr "driver")
         then Ok (Payload.mk (Payload.vehicleNumber payload)
                    (Credentials.driverId credentials))
         else match Payload.driverId payload with
              | VUndefined => Throw (Error "Must define driver ID")
              | _ => Ok payload
              end).
  assert (match payload' with
          | Ok p =>
              Payload.vehicleNumber p = Payload.vehicleNumber payload
              /\ Payload.driverId p
                 = (if strict_eq (Credentials.scope credentials) (VStr "driver")
                    then Credentials.driverId credentials
                    else Payload.driverId payload)
          | Throw e => e = Error "Must define driver ID"
          end
          /\ (strict_eq (Credentials.scope credentials) (VStr "driver") = false ->
              Payload.driverId payload = VUndefined ->
              payload' = Throw (Error "Must define driver ID")))
    as [Hpayload Hmissing].
  { subst payload'.
    destruct (strict_eq (Credentials.scope credentials) (VStr "driver")).
    - split; [done|intros [=]].
    - destruct (Payload.driverId payload) eqn:Hdriver; split; done. }
  destruct payload' as [p|e]; cbn.
  2:{ subst e. repeat split; done. }
  destruct Hpayload as [Hnumber Hdriver].
  destruct (findOne _ _ table) as [[existing|]|e] eqn:Hfind; cbn.
  1,3: repeat split; try done;
    intros Hscope Hundefined; by specialize (Hmissing Hscope Hundefined).
  destruct (create p table) as [[vehicle table']|e] eqn:Hcreate; cbn.
  2:{ repeat split; try done.
      intros Hscope Hundefined; by specialize (Hmissing Hscope Hundefined). }
  destruct (Hadds _ _ _ _ Hcreate) as [Hrows Hkey].
  split; [|split; [done|split]].
  - rewrite Hrows, fmap_cons. apply NoDup_cons. split; [|done].
    intros (vehicle' & Hsame & Hin)%list_elem_of_fmap.
    apply (Hcomplete _ _ _ Hfind vehicle' Hin). congruence.
  - intros Hscope Hundefined. by specialize (Hmissing Hscope Hundefined).
  - intros ? [= <-]. split; [done|].
    unfold key in Hkey. injection Hkey as -> ->. done.
Qed.

(** X22: [POST /vehicles] creates no second vehicle of a number for a
    driver: when the table holds a vehicle with the number of the
    payload for the driver the request is for, the reply is the 400 that
    says so and nothing is written. *)
Theorem post_vehicles_duplicate (credentials : Credentials.t)
    (payload : Payload.t) (table : Table) (existing : Vehicle.t) :
  lawful model ->
  (forall number driver, exists found, findOne number driver table = Ok found) ->
  let driverId :=
    if strict_eq (Credentials.scope credentials) (VStr "driver")
    then Credentials.driverId credentials
    else Payload.driverId payload in
  existing ∈ rows table ->
  key existing = (Payload.vehicleNumber payload, driverId) ->
  (strict_eq (Credentials.scope credentials) (VStr "driver") = false ->
   Payload.driverId payload <> VUndefined) ->
  post_vehicles credentials payload table
  = (badRequest "Vehicle with this vehicle number already exists", table).
Proof.
  intros [Hsound Hcomplete Hadds] Hfinds driverId Hin Hkey Hdefined.
  unfold post_vehicles. fold driverId.
  assert ((if strict_eq (Credentials.scope credentials) (VStr "driver")
           then Ok (Payload.mk (Payload.vehicleNumber payload)
                      (Credentials.driverId credentials))
           else match Payload.driverId payload with
                | VUndefined => Throw (Error "Must define driver ID")
                | _ => Ok payload
                end)
          = Ok (Payload.mk (Payload.vehicleNumber payload) driverId)) as ->.
  { subst driverId.
    destruct (strict_eq (Credentials.scope credentials) (VStr "driver"));
      [done|].
    specialize (Hdefined eq_refl).
    destruct payload as [number driver]. cbn in *. by destruct driver. }
  cbn. destruct (Hfinds (Payload.vehicleNumber payload) driverId) as [found Hfound].
  rewrite Hfound. cbn. destruct found as [?|]; [done|].
  destruct (Hcomplete _ _ _ Hfound existing Hin Hkey).
Qed.

End HandlerFacts.

(** A driver asks for a vehicle in the name of driver 3: it is created
    for the driver, 9. *)
Lemma post_vehicles_driver_scope_witness :
  post_vehicles (model := list_model)
    (Credentials.mk (VStr "driver") (VNum (Fin 9)))
    (Payload.mk (VStr "SBS5678B") (VNum (Fin 3))) demo_table
  = post_vehicles (model := list_model)
      (Credentials.mk (VStr "driver") (VNum (Fin 9)))
      (Payload.mk (VStr "SBS5678B") (VNum (Fin 9))) demo_table.
Proof.
  apply (post_vehicles_driver_scope (model := list_model)
           (Credentials.mk (VStr "driver") (VNum (Fin 9)))
           (Payload.mk (VStr "SBS5678B") (VNum (Fin 3))) demo_table eq_refl
           (VNum (Fin 3))).
Defined.

Lemma post_vehicles_unique_witness :
  NoDup (key <$> (post_vehicles (model := list_model)
                    (Credentials.mk (VStr "admin") VUndefined)
                    (Payload.mk (VStr "SBS5678B") (VNum (Fin 3))) demo_table).2).
Proof.
  refine (proj1 (post_vehicles_unique (model := list_model)
                   (Credentials.mk (VStr "admin") VUndefined)
                   (Payload.mk (VStr "SBS5678B") (VNum (Fin 3))) demo_table
                   list_model_lawful _)).
  apply NoDup_singleton.
Defined.

(** The vehicle of driver 9 is asked for again, by the driver. *)
Lemma post_vehicles_duplicate_witness :
  post_vehicles (model := list_model)
    (Credentials.mk (VStr "driver") (VNum (Fin 9)))
    (Payload.mk (VStr "SBS1234A") VUndefined) demo_table
  = (badRequest "Vehicle with this vehicle number already exists", demo_table).
Proof.
  apply (post_vehicles_duplicate (model := list_model)
           (Credentials.mk (VStr "driver") (VNum (Fin 9)))
           (Payload.mk (VStr "SBS1234A") VUndefined) demo_table
           (Vehicle.mk 1 (VStr "SBS1234A") (VNum (Fin 9))) list_model_lawful).
  - intros number driver. eexists. reflexivity.
  - apply list_elem_of_here.
  - reflexivity.
  - intros [=].
Defined.

Example post_vehicles_samples :
  map (fun '(scope, driverId) =>
         (post_vehicles (model := list_model)
            (Credentials.mk (VStr scope) (VNum (Fin 9)))
            (Payload.mk (VStr "SBS5678B") driverId) demo_table).1)
      [("driver", VNum (Fin 3)); ("admin", VNum (Fin 3)); ("admin", VUndefined)]
  = [Json (Vehicle.mk 2 (VStr "SBS5678B") (VNum (Fin 9)));
     Json (Vehicle.mk 2 (VStr "SBS5678B") (VNum (Fin 3)));
     badRequest "Must define driver ID"].
Proof. vm_compute. reflexivity. Qed.

End VehiclesFacts.
